(** * Volunteer and event management platform: the record store and its handlers

    A shallow embedding of [src/index.ts]: the four record classes, the four
    stable maps and the nine express handlers, followed by the properties of
    the specification that concern them.

    Conventions of the embedding.
    - A request body is a JavaScript value as [express.json()] produces it;
      a property that is absent reads as [Undefined].
    - TypeScript annotations are erased at run time, so a record field that
      is filled from the request holds whatever value the handler passes to
      the constructor.
    - A string is a sequence of code units below 256 (Rocq's [ascii]).
    - [uuidv4()] and [new Date()] are read from an environment that comes
      with each request.
    - A stable map is a finite map from keys to records: [insert] binds the
      key (replacing an earlier binding), [get] returns the map's option, and
      [values()] lists the records in the map's own order.  The map keeps a
      record as JSON text and revives it on every read; what reading a
      stored value back gives is left to the run time.
    - A conversion that throws is modelled as such: inside a [try] the
      handler's [catch] answers 500, outside one express answers 500 itself.
      [uuidv4], [new Date()], the record constructors and [insert] do not
      throw.
    - Of a response, the status and the error text or the message and
      payload are kept. *)

From Stdlib Require Import ZArith Ascii String List Bool Lia.
From stdpp Require Import base option list strings pretty gmap fin_maps.

Local Open Scope string_scope.

(* ===================================================================== *)
(** * JavaScript values *)
(* ===================================================================== *)

(** A number as [JSON.parse] can produce it: a signed zero, a signed
    infinity, or [(-1)^neg * m * 2^e].  NaN has no JSON spelling. *)
Inductive number : Type :=
| Zero (neg : bool)
| Infinity (neg : bool)
| Finite (neg : bool) (m : positive) (e : Z).

#[warnings="-register-all"]
Inductive value : Type :=
| Undefined
| Null
| VBool (b : bool)
| VNum (n : number)
| VStr (s : string)
| VArr (elems : list value)
| VObj (props : list (string * value)).

(** Integer literals, for examples. *)
Definition num (z : Z) : value :=
  match z with
  | Z0 => VNum (Zero false)
  | Zpos p => VNum (Finite false p 0)
  | Zneg p => VNum (Finite true p 0)
  end.

Definition number_is_zero (n : number) : bool :=
  match n with Zero _ => true | _ => false end.

(** [ToBoolean]: the truthiness that [!x] and [if (x)] test. *)
Definition ToBoolean (v : value) : bool :=
  match v with
  | Undefined | Null => false
  | VBool b => b
  | VNum n => negb (number_is_zero n)
  | VStr s => negb (String.eqb s "")
  | VArr _ | VObj _ => true
  end.

Definition typeof (v : value) : string :=
  match v with
  | Undefined => "undefined"
  | Null => "object"
  | VBool _ => "boolean"
  | VNum _ => "number"
  | VStr _ => "string"
  | VArr _ | VObj _ => "object"
  end.

Definition Array_isArray (v : value) : bool :=
  match v with VArr _ => true | _ => false end.

(** [o.k] for the property names the handlers read: an own property of a
    parsed object (its keys are distinct), [Undefined] otherwise. *)
Fixpoint lookup_prop (k : string) (props : list (string * value)) : value :=
  match props with
  | [] => Undefined
  | (k', v) :: rest => if String.eqb k' k then v else lookup_prop k rest
  end.

Definition get (o : value) (k : string) : value :=
  match o with
  | VObj props => lookup_prop k props
  | _ => Undefined
  end.

(** Numeric equality of two numbers. *)
Definition number_eqb (x y : number) : bool :=
  match x, y with
  | Zero _, Zero _ => true
  | Infinity s, Infinity t => Bool.eqb s t
  | Finite s m e, Finite t n f =>
      Bool.eqb s t &&
      (Z.pos m * 2 ^ (e - Z.min e f) =? Z.pos n * 2 ^ (f - Z.min e f))%Z
  | _, _ => false
  end.

(** [stored === requested], where the left operand was read back from a
    stable map and the right one was parsed from the request: primitives
    compare by value, and an array or object is never the same reference as
    anything on the other side. *)
Definition strict_eq (stored requested : value) : bool :=
  match stored, requested with
  | Undefined, Undefined => true
  | Null, Null => true
  | VBool a, VBool b => Bool.eqb a b
  | VNum a, VNum b => number_eqb a b
  | VStr a, VStr b => String.eqb a b
  | _, _ => false
  end.

(** A date object: a time value in milliseconds, or the invalid date. *)
Inductive Date : Type :=
| Date_at (ms : Z)
| Invalid_Date.

(** What reading a stored value back from a stable map gives: the value
    that was stored; another value; a value that [JSON.stringify] throws on;
    or nothing, because reviving it throws. *)
Inductive Reading : Type :=
| Reads_same
| Reads_altered
| Reads_unprintable
| Read_throws.

(** The graver of two readings: of a record whose fields read as [a] and
    [b], the whole reads as [worse a b]. *)
Definition worse (a b : Reading) : Reading :=
  match a, b with
  | Read_throws, _ | _, Read_throws => Read_throws
  | Reads_unprintable, _ | _, Reads_unprintable => Reads_unprintable
  | Reads_altered, _ | _, Reads_altered => Reads_altered
  | Reads_same, Reads_same => Reads_same
  end.

Definition throws (r : Reading) : bool :=
  match r with Read_throws => true | _ => false end.

Definition unprintable (r : Reading) : bool :=
  match r with Reads_unprintable => true | _ => false end.

(** Values that hold no object: null, booleans, text, finite numbers other
    than the negative zero, and arrays of these. *)
Fixpoint plain (v : value) : bool :=
  match v with
  | Null | VBool _ | VStr _ => true
  | VNum (Zero false) | VNum (Finite _ _ _) => true
  | VArr elems =>
      (fix all (l : list value) : bool :=
         match l with
         | [] => true
         | x :: rest => plain x && all rest
         end) elems
  | _ => false
  end.

(** The parts of the run time that the handlers reach and that are left open
    here: how a number prints, which strings [Date.parse] understands, how
    [toISOString] prints a time value, and what reading a stored value back
    from a stable map gives.  Of the last, only this is taken for granted: a
    plain value reads back as it was stored. *)
Class Runtime : Type := {
  Number_toString : number -> string;
  Date_parse : string -> Date;
  Date_toISOString : Z -> string;
  reading : value -> Reading;
  reading_plain : forall v, plain v = true -> reading v = Reads_same;
}.

(** [k] is an own property of the parsed object. *)
Fixpoint has_own (k : string) (props : list (string * value)) : bool :=
  match props with
  | [] => false
  | (k', _) :: rest => String.eqb k' k || has_own k rest
  end.

Section Conversions.
Context {rt : Runtime}.

(** [ToString]; [None] when the conversion throws a TypeError.  An array
    prints as its elements joined by commas, with [null] and [undefined]
    elements printing as nothing.  An object prints through the [toString]
    it inherits; when it has a property of that name of its own (never a
    function, in a parsed body), neither that nor [valueOf] gives a
    primitive and the conversion throws. *)
Fixpoint ToString (v : value) : option string :=
  match v with
  | Undefined => Some "undefined"
  | Null => Some "null"
  | VBool true => Some "true"
  | VBool false => Some "false"
  | VNum n => Some (Number_toString n)
  | VStr s => Some s
  | VArr elems =>
      let element x :=
        match x with Undefined | Null => Some "" | _ => ToString x end in
      (fix join (l : list value) : option string :=
         match l with
         | [] => Some ""
         | [x] => element x
         | x :: rest =>
             match element x, join rest with
             | Some first, Some others => Some (first ++ "," ++ others)
             | _, _ => None
             end
         end) elems
  | VObj props => if has_own "toString" props then None else Some "[object Object]"
  end.

(** [TimeClip] of a number: the invalid date when the number is infinite or
    more than 8.64e15 ms away from the epoch, its integral part otherwise. *)
Definition TimeClip (n : number) : Date :=
  match n with
  | Zero _ => Date_at 0
  | Infinity _ => Invalid_Date
  | Finite neg m e =>
      let out_of_range :=
        (if 0 <=? e then 8640000000000000 <? Z.pos m * 2 ^ e
         else 8640000000000000 * 2 ^ (- e) <? Z.pos m)%Z in
      let integral :=
        (if 0 <=? e then Z.pos m * 2 ^ e else Z.pos m / 2 ^ (- e))%Z in
      if out_of_range then Invalid_Date
      else Date_at (if neg then - integral else integral)%Z
  end.

(** [new Date(v)] with one argument; [None] when it throws.  A string is
    parsed, and so is the text that an array or object converts to (the
    conversion throws as [ToString] does); anything else is converted to a
    number. *)
Definition new_Date_of (v : value) : option Date :=
  match v with
  | Undefined => Some Invalid_Date
  | Null => Some (Date_at 0)
  | VBool b => Some (Date_at (if b then 1 else 0))
  | VNum n => Some (TimeClip n)
  | VStr _ | VArr _ | VObj _ =>
      match ToString v with
      | Some text => Some (Date_parse text)
      | None => None
      end
  end.

(** What [JSON.stringify] writes for a date object, through its [toJSON]:
    [null] for the invalid date, the ISO text otherwise. *)
Definition Date_toJSON (d : Date) : value :=
  match d with
  | Invalid_Date => Null
  | Date_at ms => VStr (Date_toISOString ms)
  end.
End Conversions.

(* ===================================================================== *)
(** * Regular expressions *)
(* ===================================================================== *)

Module RegExp.

Inductive regex : Type :=
| Fail
| Eps
| Class (p : ascii -> bool)
| Seq (r1 r2 : regex)
| Alt (r1 r2 : regex)
| Star (r : regex).

Definition Plus (r : regex) : regex := Seq r (Star r).
Definition Chr (c : ascii) : regex := Class (Ascii.eqb c).

Fixpoint nullable (r : regex) : bool :=
  match r with
  | Fail => false
  | Eps => true
  | Class _ => false
  | Seq r1 r2 => nullable r1 && nullable r2
  | Alt r1 r2 => nullable r1 || nullable r2
  | Star _ => true
  end.

(** The residual of [r] after reading [c]. *)
Fixpoint deriv (c : ascii) (r : regex) : regex :=
  match r with
  | Fail => Fail
  | Eps => Fail
  | Class p => if p c then Eps else Fail
  | Seq r1 r2 =>
      if nullable r1
      then Alt (Seq (deriv c r1) r2) (deriv c r2)
      else Seq (deriv c r1) r2
  | Alt r1 r2 => Alt (deriv c r1) (deriv c r2)
  | Star r1 => Seq (deriv c r1) (Star r1)
  end.

(** [/^r$/.test(s)]: the whole of [s] is read by [r]. *)
Fixpoint test (r : regex) (s : string) : bool :=
  match s with
  | EmptyString => nullable r
  | String c s' => test (deriv c r) s'
  end.

(** The strings a regular expression denotes. *)
Inductive lang : regex -> string -> Prop :=
| lang_eps : lang Eps ""
| lang_class p c : p c = true -> lang (Class p) (String c "")
| lang_seq r1 r2 s1 s2 : lang r1 s1 -> lang r2 s2 -> lang (Seq r1 r2) (s1 ++ s2)
| lang_alt_l r1 r2 s : lang r1 s -> lang (Alt r1 r2) s
| lang_alt_r r1 r2 s : lang r2 s -> lang (Alt r1 r2) s
| lang_star_nil r : lang (Star r) ""
| lang_star_cons r s1 s2 : lang r s1 -> lang (Star r) s2 -> lang (Star r) (s1 ++ s2).

End RegExp.

(** [\s] on code units below 256: tab, line feed, vertical tab, form feed,
    carriage return, space and the no-break space. *)
Definition is_space (c : ascii) : bool :=
  let n := nat_of_ascii c in
  (Nat.leb 9 n && Nat.leb n 13) || Nat.eqb n 32 || Nat.eqb n 160.

(** The class [[^\s@]]. *)
Definition not_space_at (c : ascii) : bool :=
  negb (is_space c) && negb (Ascii.eqb c "@").

(** [/^[^\s@]+@[^\s@]+\.[^\s@]+$/] *)
Definition emailRegex : RegExp.regex :=
  RegExp.Seq (RegExp.Plus (RegExp.Class not_space_at))
    (RegExp.Seq (RegExp.Chr "@")
       (RegExp.Seq (RegExp.Plus (RegExp.Class not_space_at))
          (RegExp.Seq (RegExp.Chr ".")
             (RegExp.Plus (RegExp.Class not_space_at))))).


(* ===================================================================== *)
(** * The record classes *)
(* ===================================================================== *)

(** What a request brings from outside the handler: the identifier that
    [uuidv4()] returns and the time that [new Date()] reads. *)
Record Env : Type := {
  uuidv4 : string;
  now : Z;
}.

Module Volunteer.
Record t : Type := {
  id : string;
  name : value;
  email : value;
  contact : value;
  skills : value;
  createdAt : Date;
}.
Definition new (env : Env) (name email contact skills : value) : t :=
  {| id := uuidv4 env;
     name := name;
     email := email;
     contact := contact;
     skills := skills;
     createdAt := Date_at (now env) |}.
End Volunteer.

Module Event.
Record t : Type := {
  id : string;
  title : value;
  description : value;
  dateTime : Date;
  location : value;
  organizerId : value;
  createdAt : Date;
}.
Definition new (env : Env) (title description : value) (dateTime : Date)
    (location organizerId : value) : t :=
  {| id := uuidv4 env;
     title := title;
     description := description;
     dateTime := dateTime;
     location := location;
     organizerId := organizerId;
     createdAt := Date_at (now env) |}.
End Event.

Module Registration.
Record t : Type := {
  id : string;
  eventId : value;
  volunteerId : value;
  status : value;
  registeredAt : Date;
  attendedAt : option Date;
}.
Definition new (env : Env) (eventId volunteerId status : value) : t :=
  {| id := uuidv4 env;
     eventId := eventId;
     volunteerId := volunteerId;
     status := status;
     registeredAt := Date_at (now env);
     attendedAt := None |}.
End Registration.

Module Feedback.
Record t : Type := {
  id : string;
  volunteerId : value;
  eventId : value;
  feedback : value;
  rating : value;
  createdAt : Date;
}.
Definition new (env : Env) (volunteerId eventId feedback rating : value) : t :=
  {| id := uuidv4 env;
     volunteerId := volunteerId;
     eventId := eventId;
     feedback := feedback;
     rating := rating;
     createdAt := Date_at (now env) |}.
End Feedback.

(* ===================================================================== *)
(** * The stable maps *)
(* ===================================================================== *)

Record Store : Type := {
  volunteersStorage : gmap string Volunteer.t;
  eventsStorage : gmap string Event.t;
  registrationsStorage : gmap string Registration.t;
  feedbacksStorage : gmap string Feedback.t;
}.

Definition empty_store : Store :=
  {| volunteersStorage := ∅;
     eventsStorage := ∅;
     registrationsStorage := ∅;
     feedbacksStorage := ∅ |}.

(** [m.values()] *)
Definition values {A : Type} (m : gmap string A) : list A :=
  (map_to_list m).*2.

Definition insert_volunteer (v : Volunteer.t) (st : Store) : Store :=
  {| volunteersStorage := <[Volunteer.id v := v]> (volunteersStorage st);
     eventsStorage := eventsStorage st;
     registrationsStorage := registrationsStorage st;
     feedbacksStorage := feedbacksStorage st |}.

Definition insert_event (e : Event.t) (st : Store) : Store :=
  {| volunteersStorage := volunteersStorage st;
     eventsStorage := <[Event.id e := e]> (eventsStorage st);
     registrationsStorage := registrationsStorage st;
     feedbacksStorage := feedbacksStorage st |}.

Definition insert_registration (r : Registration.t) (st : Store) : Store :=
  {| volunteersStorage := volunteersStorage st;
     eventsStorage := eventsStorage st;
     registrationsStorage := <[Registration.id r := r]> (registrationsStorage st);
     feedbacksStorage := feedbacksStorage st |}.

Definition insert_feedback (f : Feedback.t) (st : Store) : Store :=
  {| volunteersStorage := volunteersStorage st;
     eventsStorage := eventsStorage st;
     registrationsStorage := registrationsStorage st;
     feedbacksStorage := <[Feedback.id f := f]> (feedbacksStorage st) |}.

(* ===================================================================== *)
(** * The handlers *)
(* ===================================================================== *)

(** What [res.status(..).json(..)] sends: an error text, or a message with
    the payload.  When the handler throws outside a [try], express answers
    500 with a page of its own. *)
Inductive Response (A : Type) : Type :=
| json_error (status : Z) (error : string)
| json_ok (status : Z) (message : string) (payload : A)
| uncaught.
Arguments json_error {A} status error.
Arguments json_ok {A} status message payload.
Arguments uncaught {A}.

Definition status_of {A : Type} (r : Response A) : Z :=
  match r with
  | json_error status _ => status
  | json_ok status _ _ => status
  | uncaught => 500
  end.

(** A record as a read request returns it: read back as it was stored, or
    with some field read back as another value. *)
Inductive Read_back (A : Type) : Type :=
| as_stored (record : A)
| altered (stored : A).
Arguments as_stored {A} record.
Arguments altered {A} stored.

Definition not_string (v : value) : bool := negb (String.eqb (typeof v) "string").
Definition not_number (v : value) : bool := negb (String.eqb (typeof v) "number").

Definition volunteer_invalid_input : string :=
  "Invalid input: Ensure 'name', 'contact', 'email', and 'skills' are provided and are of the correct types.".
Definition volunteer_invalid_email : string :=
  "Invalid input: Ensure 'email' is a valid email address.".
Definition volunteer_email_exists : string :=
  "Invalid input: Volunteer with the same email already exists.".
Definition volunteer_not_found : string :=
  "Volunteer with the provided ID does not exist.".
Definition volunteer_retrieve_failed : string :=
  "Server error occurred while retrieving the volunteer.".
Definition volunteers_retrieve_failed : string :=
  "Server error occurred while retrieving volunteers.".
Definition event_create_failed : string :=
  "Server error occurred while creating the event.".
Definition event_invalid_input : string :=
  "Invalid input: Ensure 'title', 'description', 'dateTime', 'location', and 'organizerId' are provided and are of the correct types.".
Definition registration_invalid_input : string :=
  "Invalid input: Ensure 'eventId', 'volunteerId', and 'status' are provided and are of the correct types.".
Definition feedback_invalid_input : string :=
  "Invalid input: Ensure 'volunteerId', 'eventId', 'feedback', and 'rating' are provided and are of the correct types.".

Section Handlers.
Context {rt : Runtime}.

(** How a stored volunteer reads back.  Its id is text and its creation
    date is kept as text, so only the four fields taken from the request
    matter. *)
Definition volunteer_reading (v : Volunteer.t) : Reading :=
  worse (reading (Volunteer.name v))
    (worse (reading (Volunteer.email v))
       (worse (reading (Volunteer.contact v)) (reading (Volunteer.skills v)))).

(** The record that the map holds behind what a response shows. *)
Definition stored_record {A : Type} (r : Read_back A) : A :=
  match r with
  | as_stored record => record
  | altered stored => stored
  end.

(** [volunteersStorage.values()] throws when reviving one of the records
    throws. *)
Definition values_throw (m : gmap string Volunteer.t) : bool :=
  existsb (fun volunteer => throws (volunteer_reading volunteer)) (values m).

Definition read_back (v : Volunteer.t) : Read_back Volunteer.t :=
  match volunteer_reading v with
  | Reads_same => as_stored v
  | _ => altered v
  end.

(** [app.post("/volunteers")].  The test of the email and the call of
    [values()] stand outside the [try]: when one of them throws, express
    answers.  Nothing in the [try] throws.  [===] compares the stored email
    with the request's: a stored email that is text, a number, a boolean or
    null reads back as it was stored, and one that is an array or an object
    is, however it reads back, never the same as a value of the request. *)
Definition post_volunteers (env : Env) (body : value) (st : Store)
    : Response Volunteer.t * Store :=
  if negb (ToBoolean (get body "name"))
     || not_string (get body "name")
     || negb (ToBoolean (get body "email"))
     || negb (ToBoolean (get body "contact"))
     || not_string (get body "contact")
     || negb (ToBoolean (get body "skills"))
     || negb (Array_isArray (get body "skills"))
  then (json_error 400 volunteer_invalid_input, st)
  else
    match ToString (get body "email") with
    | None => (uncaught, st)
    | Some text =>
        if negb (RegExp.test emailRegex text)
        then (json_error 400 volunteer_invalid_email, st)
        else if values_throw (volunteersStorage st)
        then (uncaught, st)
        else
          let existingVolunteers := values (volunteersStorage st) in
          let existingVolunteer :=
            List.find
              (fun volunteer =>
                 strict_eq (Volunteer.email volunteer) (get body "email"))
              existingVolunteers in
          match existingVolunteer with
          | Some _ => (json_error 400 volunteer_email_exists, st)
          | None =>
              let volunteer :=
                Volunteer.new env (get body "name") (get body "email")
                  (get body "contact") (get body "skills") in
              (json_ok 201 "Volunteer created successfully" volunteer,
               insert_volunteer volunteer st)
          end
    end.

(** [app.get("/volunteers/:id")].  A route parameter is always a string, so
    the handler's [typeof] test never fires.  The map's [get] stands outside
    the [try]: for a key that is bound it revives the record, and when that
    throws express answers.  Inside the [try], [res.json] throws on a record
    that cannot be printed, and the [catch] answers 500.  The payload is what
    the map's [get] returned. *)
Definition get_volunteer (id : string) (st : Store)
    : Response (option (Read_back Volunteer.t)) :=
  match volunteersStorage st !! id with
  | None => json_error 404 volunteer_not_found
  | Some volunteer =>
      match volunteer_reading volunteer with
      | Read_throws => uncaught
      | Reads_unprintable => json_error 500 volunteer_retrieve_failed
      | _ => json_ok 200 "Volunteer retrieved successfully" (Some (read_back volunteer))
      end
  end.

(** [app.get("/volunteers")].  Both [values()] and [res.json] stand inside
    the [try]: when a record cannot be revived or cannot be printed, the
    [catch] answers 500. *)
Definition get_volunteers (st : Store) : Response (list (Read_back Volunteer.t)) :=
  let volunteers := values (volunteersStorage st) in
  if existsb (fun volunteer => throws (volunteer_reading volunteer)) volunteers
     || existsb (fun volunteer => unprintable (volunteer_reading volunteer)) volunteers
  then json_error 500 volunteers_retrieve_failed
  else json_ok 200 "Volunteers retrieved successfully" (map read_back volunteers).

(** [app.post("/events")].  [new Date(req.body.dateTime)] stands inside the
    [try]: when it throws, the [catch] answers 500 and nothing is inserted. *)
Definition post_events (env : Env) (body : value) (st : Store)
    : Response Event.t * Store :=
  if negb (ToBoolean (get body "title"))
     || not_string (get body "title")
     || negb (ToBoolean (get body "description"))
     || not_string (get body "description")
     || negb (ToBoolean (get body "dateTime"))
     || negb (ToBoolean (get body "location"))
     || not_string (get body "location")
     || negb (ToBoolean (get body "organizerId"))
     || not_string (get body "organizerId")
  then (json_error 400 event_invalid_input, st)
  else
    match new_Date_of (get body "dateTime") with
    | None => (json_error 500 event_create_failed, st)
    | Some dateTime =>
        let event :=
          Event.new env (get body "title") (get body "description") dateTime
            (get body "location") (get body "organizerId") in
        (json_ok 201 "Event created successfully" event, insert_event event st)
    end.

(** [app.get("/events")].  An event holds text and dates only, which the
    map gives back as they were stored and the response can print: nothing
    in the [try] throws. *)
Definition get_events (st : Store) : Response (list Event.t) :=
  json_ok 200 "Events retrieved successfully" (values (eventsStorage st)).

(** [app.post("/registrations")].  Nothing in the [try] throws. *)
Definition post_registrations (env : Env) (body : value) (st : Store)
    : Response Registration.t * Store :=
  if negb (ToBoolean (get body "eventId"))
     || not_string (get body "eventId")
     || negb (ToBoolean (get body "volunteerId"))
     || not_string (get body "volunteerId")
     || negb (ToBoolean (get body "status"))
     || not_string (get body "status")
  then (json_error 400 registration_invalid_input, st)
  else
    let registration :=
      Registration.new env (get body "eventId") (get body "volunteerId")
        (get body "status") in
    (json_ok 201 "Registration created successfully" registration,
     insert_registration registration st).

(** [app.get("/registrations")].  A registration holds text, a date and
    [null] only: nothing in the [try] throws. *)
Definition get_registrations (st : Store) : Response (list Registration.t) :=
  json_ok 200 "Registrations retrieved successfully"
    (values (registrationsStorage st)).

(** [app.post("/feedbacks")].  Nothing in the [try] throws. *)
Definition post_feedbacks (env : Env) (body : value) (st : Store)
    : Response Feedback.t * Store :=
  if negb (ToBoolean (get body "volunteerId"))
     || not_string (get body "volunteerId")
     || negb (ToBoolean (get body "eventId"))
     || not_string (get body "eventId")
     || negb (ToBoolean (get body "feedback"))
     || not_string (get body "feedback")
     || negb (ToBoolean (get body "rating"))
     || not_number (get body "rating")
  then (json_error 400 feedback_invalid_input, st)
  else
    let feedback :=
      Feedback.new env (get body "volunteerId") (get body "eventId")
        (get body "feedback") (get body "rating") in
    (json_ok 201 "Feedback created successfully" feedback,
     insert_feedback feedback st).

(** [app.get("/feedbacks")].  A feedback holds text, a number and a date
    only: nothing in the [try] throws.  The record listed is the one the map
    holds; [JSON_shows] below tells how a response prints its rating. *)
Definition get_feedbacks (st : Store) : Response (list Feedback.t) :=
  json_ok 200 "Feedback retrieved successfully" (values (feedbacksStorage st)).

End Handlers.

(* ===================================================================== *)
(** * The service as a transition system *)
(* ===================================================================== *)

Inductive Request : Type :=
| POST_volunteers (body : value)
| GET_volunteer (id : string)
| GET_volunteers
| POST_events (body : value)
| GET_events
| POST_registrations (body : value)
| GET_registrations
| POST_feedbacks (body : value)
| GET_feedbacks.

Inductive Payload : Type :=
| a_volunteer (v : Volunteer.t)
| got_volunteer (o : option (Read_back Volunteer.t))
| all_volunteers (l : list (Read_back Volunteer.t))
| an_event (e : Event.t)
| all_events (l : list Event.t)
| a_registration (r : Registration.t)
| all_registrations (l : list Registration.t)
| a_feedback (f : Feedback.t)
| all_feedbacks (l : list Feedback.t).

Definition Response_map {A B : Type} (f : A -> B) (r : Response A) : Response B :=
  match r with
  | json_error status error => json_error status error
  | json_ok status message payload => json_ok status message (f payload)
  | uncaught => uncaught
  end.

Section Service.
Context {rt : Runtime}.

(** One request, served to completion. *)
Definition handle (env : Env) (req : Request) (st : Store)
    : Response Payload * Store :=
  match req with
  | POST_volunteers body =>
      let '(r, st') := post_volunteers env body st in (Response_map a_volunteer r, st')
  | GET_volunteer id => (Response_map got_volunteer (get_volunteer id st), st)
  | GET_volunteers => (Response_map all_volunteers (get_volunteers st), st)
  | POST_events body =>
      let '(r, st') := post_events env body st in (Response_map an_event r, st')
  | GET_events => (Response_map all_events (get_events st), st)
  | POST_registrations body =>
      let '(r, st') := post_registrations env body st in
      (Response_map a_registration r, st')
  | GET_registrations => (Response_map all_registrations (get_registrations st), st)
  | POST_feedbacks body =>
      let '(r, st') := post_feedbacks env body st in (Response_map a_feedback r, st')
  | GET_feedbacks => (Response_map all_feedbacks (get_feedbacks st), st)
  end.

(** The requests of a run are served one at a time, in order. *)
Fixpoint run (trace : list (Env * Request)) (st : Store) : Store :=
  match trace with
  | [] => st
  | (env, req) :: rest => run rest (handle env req st).2
  end.

Definition reachable (st : Store) : Prop :=
  exists trace, run trace empty_store = st.

End Service.

(* ===================================================================== *)
(** * The specification's words *)
(* ===================================================================== *)

(** A run of one or more characters that are neither white space nor [@]. *)
Definition is_run (s : string) : Prop :=
  s <> "" /\ forall c, In c (list_ascii_of_string s) -> not_space_at c = true.

(** "at least one non-whitespace/non-@ run, an @, another such run, a ., a
    final such run" *)
Definition email_pattern (s : string) : Prop :=
  exists a b c, s = a ++ "@" ++ b ++ "." ++ c /\ is_run a /\ is_run b /\ is_run c.

(** "name/email/contact non-empty text" *)
Definition nonempty_text (v : value) : Prop :=
  exists s, v = VStr s /\ s <> "".

(** "skills is a sequence -- empty sequence is accepted" *)
Definition is_sequence (v : value) : Prop :=
  exists l, v = VArr l.

(** "All four fields present and of correct shape (name/email/contact
    non-empty text; skills is a sequence)" *)
Definition volunteer_shape_of_spec (body : value) : Prop :=
  nonempty_text (get body "name") /\
  nonempty_text (get body "email") /\
  nonempty_text (get body "contact") /\
  is_sequence (get body "skills").

(** What the first test of the volunteer handler lets through: of the email
    it asks only that it be truthy. *)
Definition volunteer_shape_checked (body : value) : Prop :=
  nonempty_text (get body "name") /\
  ToBoolean (get body "email") = true /\
  nonempty_text (get body "contact") /\
  is_sequence (get body "skills").

Section Outcomes.
Context {rt : Runtime}.

(** Every stored volunteer can be revived. *)
Definition volunteers_readable (st : Store) : Prop :=
  forall i w, volunteersStorage st !! i = Some w -> volunteer_reading w <> Read_throws.

(** The six ways a volunteer request can end. *)
Inductive volunteer_outcome (env : Env) (body : value) (st : Store)
  : Response Volunteer.t * Store -> Prop :=
| bad_shape :
    ~ volunteer_shape_checked body ->
    volunteer_outcome env body st (json_error 400 volunteer_invalid_input, st)
| email_throws :
    volunteer_shape_checked body ->
    ToString (get body "email") = None ->
    volunteer_outcome env body st (uncaught, st)
| bad_email text :
    volunteer_shape_checked body ->
    ToString (get body "email") = Some text ->
    RegExp.test emailRegex text = false ->
    volunteer_outcome env body st (json_error 400 volunteer_invalid_email, st)
| store_unreadable text i w :
    volunteer_shape_checked body ->
    ToString (get body "email") = Some text ->
    RegExp.test emailRegex text = true ->
    volunteersStorage st !! i = Some w ->
    volunteer_reading w = Read_throws ->
    volunteer_outcome env body st (uncaught, st)
| email_taken text i w :
    volunteer_shape_checked body ->
    ToString (get body "email") = Some text ->
    RegExp.test emailRegex text = true ->
    volunteers_readable st ->
    volunteersStorage st !! i = Some w ->
    strict_eq (Volunteer.email w) (get body "email") = true ->
    volunteer_outcome env body st (json_error 400 volunteer_email_exists, st)
| created text :
    volunteer_shape_checked body ->
    ToString (get body "email") = Some text ->
    RegExp.test emailRegex text = true ->
    volunteers_readable st ->
    (forall i w, volunteersStorage st !! i = Some w ->
                 strict_eq (Volunteer.email w) (get body "email") = false) ->
    let volunteer :=
      Volunteer.new env (get body "name") (get body "email")
        (get body "contact") (get body "skills") in
    volunteer_outcome env body st
      (json_ok 201 "Volunteer created successfully" volunteer,
       insert_volunteer volunteer st).

End Outcomes.

(** "No two volunteers share an email." *)
Definition emails_unique (st : Store) : Prop :=
  forall i j v w,
    volunteersStorage st !! i = Some v ->
    volunteersStorage st !! j = Some w ->
    Volunteer.email v = Volunteer.email w -> i = j.

(** The same, for the volunteers whose email is text. *)
Definition text_emails_unique (st : Store) : Prop :=
  forall i j v w e,
    volunteersStorage st !! i = Some v ->
    volunteersStorage st !! j = Some w ->
    Volunteer.email v = VStr e -> Volunteer.email w = VStr e -> i = j.

(** Letter case folded away, for comparing two emails up to case. *)
Definition lower (c : ascii) : ascii :=
  let n := nat_of_ascii c in
  if Nat.leb 65 n && Nat.leb n 90 then ascii_of_nat (n + 32) else c.

Fixpoint lowercase (s : string) : string :=
  match s with
  | EmptyString => EmptyString
  | String c s' => String (lower c) (lowercase s')
  end.

Definition differ_only_in_case (a b : string) : Prop :=
  a <> b /\ lowercase a = lowercase b.

(** What a response shows for a value that a record took from the request:
    [JSON.stringify] writes an infinite number as [null] and the negative
    zero as [0], and everything else as it is. *)
Fixpoint JSON_shows (v : value) : value :=
  match v with
  | Undefined => Null
  | VNum (Infinity _) => Null
  | VNum (Zero _) => VNum (Zero false)
  | VArr elems =>
      VArr ((fix each (l : list value) : list value :=
               match l with
               | [] => []
               | x :: rest => JSON_shows x :: each rest
               end) elems)
  | VObj props =>
      VObj ((fix each (l : list (string * value)) : list (string * value) :=
               match l with
               | [] => []
               | (k, x) :: rest => (k, JSON_shows x) :: each rest
               end) props)
  | _ => v
  end.

(** The four fields a volunteer request supplies are plain. *)
Definition plain_volunteer_fields (body : value) : Prop :=
  plain (get body "name") = true /\ plain (get body "email") = true /\
  plain (get body "contact") = true /\ plain (get body "skills") = true.

(** The fields of a stored volunteer are plain. *)
Definition plain_volunteer (v : Volunteer.t) : Prop :=
  plain (Volunteer.name v) = true /\ plain (Volunteer.email v) = true /\
  plain (Volunteer.contact v) = true /\ plain (Volunteer.skills v) = true.

Section Round_trip_words.
Context {rt : Runtime}.

(** The list-all request for volunteers can answer: every stored volunteer
    can be revived and printed. *)
Definition volunteers_listable (st : Store) : Prop :=
  forall i w, volunteersStorage st !! i = Some w ->
              volunteer_reading w <> Read_throws /\
              volunteer_reading w <> Reads_unprintable.

(** "each field supplied in the request appears unchanged in the returned
    created record", entity by entity.  A date field is compared as the
    response shows it. *)
Definition volunteer_fields_unchanged (body : value) (v : Volunteer.t) : Prop :=
  Volunteer.name v = get body "name" /\
  Volunteer.email v = get body "email" /\
  Volunteer.contact v = get body "contact" /\
  Volunteer.skills v = get body "skills".

Definition event_fields_unchanged (body : value) (e : Event.t) : Prop :=
  Event.title e = get body "title" /\
  Event.description e = get body "description" /\
  Date_toJSON (Event.dateTime e) = get body "dateTime" /\
  Event.location e = get body "location" /\
  Event.organizerId e = get body "organizerId".

Definition registration_fields_unchanged (body : value) (r : Registration.t) : Prop :=
  Registration.eventId r = get body "eventId" /\
  Registration.volunteerId r = get body "volunteerId" /\
  Registration.status r = get body "status".

Definition feedback_fields_unchanged (body : value) (f : Feedback.t) : Prop :=
  Feedback.volunteerId f = get body "volunteerId" /\
  Feedback.eventId f = get body "eventId" /\
  Feedback.feedback f = get body "feedback" /\
  Feedback.rating f = get body "rating".

(** What the event handler does instead: the text fields are kept and the
    date is the one constructed from the supplied value. *)
Definition event_fields_kept (body : value) (e : Event.t) : Prop :=
  Event.title e = get body "title" /\
  Event.description e = get body "description" /\
  new_Date_of (get body "dateTime") = Some (Event.dateTime e) /\
  Event.location e = get body "location" /\
  Event.organizerId e = get body "organizerId".

End Round_trip_words.

(** The collection a request is about. *)
Inductive collection : Type := Volunteers | Events | Registrations | Feedbacks.

Definition collection_of (req : Request) : collection :=
  match req with
  | POST_volunteers _ | GET_volunteer _ | GET_volunteers => Volunteers
  | POST_events _ | GET_events => Events
  | POST_registrations _ | GET_registrations => Registrations
  | POST_feedbacks _ | GET_feedbacks => Feedbacks
  end.

(** Two stores hold the same collection [c]. *)
Definition agree_on (c : collection) (st1 st2 : Store) : Prop :=
  match c with
  | Volunteers => volunteersStorage st1 = volunteersStorage st2
  | Events => eventsStorage st1 = eventsStorage st2
  | Registrations => registrationsStorage st1 = registrationsStorage st2
  | Feedbacks => feedbacksStorage st1 = feedbacksStorage st2
  end.

(** Two stores hold the same three collections other than [c]. *)
Definition agree_off (c : collection) (st1 st2 : Store) : Prop :=
  forall c', c' <> c -> agree_on c' st1 st2.

(** The store [st'] is [st] with the one record of the payload inserted
    under its id into the record's own collection. *)
Definition inserted (p : Payload) (st st' : Store) : Prop :=
  match p with
  | a_volunteer v =>
      volunteersStorage st' = <[Volunteer.id v := v]> (volunteersStorage st)
  | an_event e =>
      eventsStorage st' = <[Event.id e := e]> (eventsStorage st)
  | a_registration r =>
      registrationsStorage st' = <[Registration.id r := r]> (registrationsStorage st)
  | a_feedback f =>
      feedbacksStorage st' = <[Feedback.id f := f]> (feedbacksStorage st)
  | _ => False
  end.

(** The identifiers generated for the later requests of a run are all
    different from [id]. *)
Definition generates_other_ids (id : string) (trace : list (Env * Request)) : Prop :=
  Forall (fun step => uuidv4 step.1 <> id) trace.

(* ===================================================================== *)
(** * What the handlers let through, and what the maps then hold *)
(* ===================================================================== *)

(** What the test of the event handler lets through. *)
Definition event_shape_checked (body : value) : Prop :=
  nonempty_text (get body "title") /\
  nonempty_text (get body "description") /\
  ToBoolean (get body "dateTime") = true /\
  nonempty_text (get body "location") /\
  nonempty_text (get body "organizerId").

(** What the test of the registration handler lets through. *)
Definition registration_shape_checked (body : value) : Prop :=
  nonempty_text (get body "eventId") /\
  nonempty_text (get body "volunteerId") /\
  nonempty_text (get body "status").

(** A number that is not zero. *)
Definition nonzero_number (v : value) : Prop :=
  exists n, v = VNum n /\ number_is_zero n = false.

(** What the test of the feedback handler lets through. *)
Definition feedback_shape_checked (body : value) : Prop :=
  nonempty_text (get body "volunteerId") /\
  nonempty_text (get body "eventId") /\
  nonempty_text (get body "feedback") /\
  nonzero_number (get body "rating").

Definition is_valid_date (d : Date) : Prop := exists t, d = Date_at t.

Section Stored_records.
Context {rt : Runtime}.

(** The volunteers the handler can have stored under the key [k]. *)
Definition volunteer_as_stored (k : string) (v : Volunteer.t) : Prop :=
  Volunteer.id v = k /\
  nonempty_text (Volunteer.name v) /\
  ToBoolean (Volunteer.email v) = true /\
  (exists text, ToString (Volunteer.email v) = Some text /\
                RegExp.test emailRegex text = true) /\
  nonempty_text (Volunteer.contact v) /\
  is_sequence (Volunteer.skills v) /\
  is_valid_date (Volunteer.createdAt v).

Definition event_as_stored (k : string) (e : Event.t) : Prop :=
  Event.id e = k /\
  nonempty_text (Event.title e) /\
  nonempty_text (Event.description e) /\
  nonempty_text (Event.location e) /\
  nonempty_text (Event.organizerId e) /\
  is_valid_date (Event.createdAt e).

Definition registration_as_stored (k : string) (r : Registration.t) : Prop :=
  Registration.id r = k /\
  nonempty_text (Registration.eventId r) /\
  nonempty_text (Registration.volunteerId r) /\
  nonempty_text (Registration.status r) /\
  is_valid_date (Registration.registeredAt r) /\
  Registration.attendedAt r = None.

Definition feedback_as_stored (k : string) (f : Feedback.t) : Prop :=
  Feedback.id f = k /\
  nonempty_text (Feedback.volunteerId f) /\
  nonempty_text (Feedback.eventId f) /\
  nonempty_text (Feedback.feedback f) /\
  nonzero_number (Feedback.rating f) /\
  is_valid_date (Feedback.createdAt f).

End Stored_records.

(** The identifiers that the requests of a run were given. *)
Definition generated_ids (trace : list (Env * Request)) : list string :=
  map (fun step => uuidv4 step.1) trace.

(** Two bodies that agree on the properties named in [keys]. *)
Definition same_fields (keys : list string) (body1 body2 : value) : Prop :=
  forall k, In k keys -> get body1 k = get body2 k.

(** The properties each create handler reads. *)
Definition fields_read (req : Request) : list string :=
  match req with
  | POST_volunteers _ => ["name"; "email"; "contact"; "skills"]
  | POST_events _ => ["title"; "description"; "dateTime"; "location"; "organizerId"]
  | POST_registrations _ => ["eventId"; "volunteerId"; "status"]
  | POST_feedbacks _ => ["volunteerId"; "eventId"; "feedback"; "rating"]
  | _ => []
  end.

(** The answers to the requests of a run, in order. *)
Fixpoint answers {rt : Runtime} (trace : list (Env * Request)) (st : Store)
    : list (Response Payload) :=
  match trace with
  | [] => []
  | (env, req) :: rest => (handle env req st).1 :: answers rest (handle env req st).2
  end.

(** How many of the answers are 201. *)
Definition created_count (l : list (Response Payload)) : nat :=
  length (List.filter (fun r => Z.eqb (status_of r) 201) l).

(** How many records the four collections hold together. *)
Definition total_stored (st : Store) : nat :=
  length (values (volunteersStorage st)) + length (values (eventsStorage st)) +
  length (values (registrationsStorage st)) + length (values (feedbacksStorage st)).

(** No collection has a record under the key [k]. *)
Definition unused_key (k : string) (st : Store) : Prop :=
  volunteersStorage st !! k = None /\ eventsStorage st !! k = None /\
  registrationsStorage st !! k = None /\ feedbacksStorage st !! k = None.

(** How often the character [c] occurs in [s]. *)
Fixpoint occurrences (c : ascii) (s : string) : nat :=
  match s with
  | EmptyString => 0
  | String c' s' => (if Ascii.eqb c' c then 1 else 0) + occurrences c s'
  end.

(* ===================================================================== *)
(** * Requests used in the examples *)
(* ===================================================================== *)

Definition first_call : Env := {| uuidv4 := "id-1"; now := 1000 |}.
Definition second_call : Env := {| uuidv4 := "id-2"; now := 2000 |}.

Definition volunteer_body (name email contact skills : value) : value :=
  VObj [("name", name); ("email", email); ("contact", contact); ("skills", skills)].

(** [{name: "Ann", email: "ann@x.com", contact: "555", skills: ["first-aid"]}] *)
Definition ann : value :=
  volunteer_body (VStr "Ann") (VStr "ann@x.com") (VStr "555") (VArr [VStr "first-aid"]).

(** The same request with the email written as a one-element array:
    [{name: "Ann", email: ["a@b.co"], contact: "555", skills: []}] *)
Definition ann_array_email : value :=
  volunteer_body (VStr "Ann") (VArr [VStr "a@b.co"]) (VStr "555") (VArr []).

Definition event_body (title description dateTime location organizerId : value) : value :=
  VObj [("title", title); ("description", description); ("dateTime", dateTime);
        ("location", location); ("organizerId", organizerId)].

Definition registration_body (eventId volunteerId status : value) : value :=
  VObj [("eventId", eventId); ("volunteerId", volunteerId); ("status", status)].

Definition feedback_body (volunteerId eventId feedback rating : value) : value :=
  VObj [("volunteerId", volunteerId); ("eventId", eventId);
        ("feedback", feedback); ("rating", rating)].

(** An event whose date is given as milliseconds since the epoch:
    [{title: "Cleanup", description: "Beach cleanup", dateTime: 1714521600000,
      location: "Pier 3", organizerId: "id-1"}] *)
Definition cleanup : value :=
  event_body (VStr "Cleanup") (VStr "Beach cleanup") (num 1714521600000)
    (VStr "Pier 3") (VStr "id-1").

(** The same event with a date that cannot be converted:
    [dateTime: {"toString": 1}] *)
Definition cleanup_unconvertible : value :=
  event_body (VStr "Cleanup") (VStr "Beach cleanup") (VObj [("toString", num 1)])
    (VStr "Pier 3") (VStr "id-1").

(** A volunteer whose skills hold an object that the stable map revives as
    a principal, from a text that is none:
    [{name: "Eve", email: "eve@x.com", contact: "557",
      skills: [{"__principal__": "x"}]}] *)
Definition eve : value :=
  volunteer_body (VStr "Eve") (VStr "eve@x.com") (VStr "557")
    (VArr [VObj [("__principal__", VStr "x")]]).

(** A volunteer whose skills hold an object that the stable map revives as
    a big integer:
    [{name: "Mallory", email: "mallory@x.com", contact: "558",
      skills: [{"__bigint__": "5"}]}] *)
Definition mallory : value :=
  volunteer_body (VStr "Mallory") (VStr "mallory@x.com") (VStr "558")
    (VArr [VObj [("__bigint__", VStr "5")]]).

(** The same event with a date that is no date: [dateTime: "next tuesday"] *)
Definition cleanup_next_tuesday : value :=
  event_body (VStr "Cleanup") (VStr "Beach cleanup") (VStr "next tuesday")
    (VStr "Pier 3") (VStr "id-1").

(* ===================================================================== *)
(** * A run time for closed examples *)
(* ===================================================================== *)

(** The theorems below hold for every run time, unless they name this one.
    A closed example needs one: this one prints a number by its exact
    decimal expansion and understands the calendar dates [YYYY-MM-DD] of the
    ISO format, read as UTC midnight; the examples use these only where
    ECMAScript prescribes the same result.  It reads a stored value back as
    the reviver of the stable map's JSON encoding does for the objects that
    encoding reserves: [{"__bigint__": text}], [{"__principal__": text}] and
    [{"__nan__": "__nan__"}]. *)
Module Example_runtime.

Fixpoint odd_part (m : positive) (e : Z) : positive * Z :=
  match m with
  | xO p => odd_part p (e + 1)
  | _ => (m, e)
  end.

Definition print_magnitude (m : positive) (e : Z) : string :=
  let '(m, e) := odd_part m e in
  if (0 <=? e)%Z then pretty (Z.pos m * 2 ^ e)%Z
  else
    let k := (- e)%Z in
    let n := (Z.pos m * 5 ^ k)%Z in
    pretty (n / 10 ^ k)%Z ++ "." ++
    match pretty (10 ^ k + n mod 10 ^ k)%Z with
    | String _ digits => digits
    | EmptyString => EmptyString
    end.

Definition print_number (n : number) : string :=
  match n with
  | Zero _ => "0"
  | Infinity false => "Infinity"
  | Infinity true => "-Infinity"
  | Finite false m e => print_magnitude m e
  | Finite true m e => "-" ++ print_magnitude m e
  end.

Definition digit (c : ascii) : option Z :=
  let n := nat_of_ascii c in
  if Nat.leb 48 n && Nat.leb n 57 then Some (Z.of_nat n - 48)%Z else None.

Fixpoint digits (acc : Z) (l : list ascii) : option Z :=
  match l with
  | [] => Some acc
  | c :: rest =>
      match digit c with
      | Some d => digits (10 * acc + d)%Z rest
      | None => None
      end
  end.

Definition leap (y : Z) : bool :=
  ((y mod 4 =? 0) && negb (y mod 100 =? 0) || (y mod 400 =? 0))%Z.

Definition days_in_month (y m : Z) : Z :=
  (if m =? 2 then (if leap y then 29 else 28)
   else if (m =? 4) || (m =? 6) || (m =? 9) || (m =? 11) then 30
   else 31)%Z.

(** Days from 1970-01-01 to the given civil date. *)
Definition days_from_civil (y m d : Z) : Z :=
  (let y' := if m <=? 2 then y - 1 else y in
   let era := y' / 400 in
   let yoe := y' - era * 400 in
   let doy := (153 * (if 2 <? m then m - 3 else m + 9) + 2) / 5 + d - 1 in
   let doe := yoe * 365 + yoe / 4 - yoe / 100 + doy in
   era * 146097 + doe - 719468)%Z.

Definition parse_date (s : string) : Date :=
  match list_ascii_of_string s with
  | [y1; y2; y3; y4; "-"%char; m1; m2; "-"%char; d1; d2] =>
      match digits 0 [y1; y2; y3; y4], digits 0 [m1; m2], digits 0 [d1; d2] with
      | Some y, Some m, Some d =>
          if ((1 <=? m) && (m <=? 12) && (1 <=? d) && (d <=? days_in_month y m))%Z
          then Date_at (days_from_civil y m d * 86400000)
          else Invalid_Date
      | _, _, _ => Invalid_Date
      end
  | _ => Invalid_Date
  end.

(** The civil date of a day count from 1970-01-01. *)
Definition civil_from_days (days : Z) : Z * Z * Z :=
  (let z := days + 719468 in
   let era := z / 146097 in
   let doe := z - era * 146097 in
   let yoe := (doe - doe / 1460 + doe / 36524 - doe / 146096) / 365 in
   let doy := doe - (365 * yoe + yoe / 4 - yoe / 100) in
   let mp := (5 * doy + 2) / 153 in
   let d := doy - (153 * mp + 2) / 5 + 1 in
   let m := if mp <? 10 then mp + 3 else mp - 9 in
   (if m <=? 2 then yoe + era * 400 + 1 else yoe + era * 400, m, d))%Z.

(** [n] in decimal on [width] digits, for [0 <= n < 10 ^ width]. *)
Definition padded (width n : Z) : string :=
  match pretty (10 ^ width + n)%Z with
  | String _ digits => digits
  | EmptyString => EmptyString
  end.

Definition print_iso (ms : Z) : string :=
  let '(y, m, d) := civil_from_days (ms / 86400000) in
  let t := (ms mod 86400000)%Z in
  (if (0 <=? y)%Z && (y <=? 9999)%Z then padded 4 y
   else if (y <? 0)%Z then "-" ++ padded 6 (- y) else "+" ++ padded 6 y)
  ++ "-" ++ padded 2 m ++ "-" ++ padded 2 d
  ++ "T" ++ padded 2 (t / 3600000) ++ ":" ++ padded 2 (t / 60000 mod 60)
  ++ ":" ++ padded 2 (t / 1000 mod 60) ++ "." ++ padded 3 (t mod 1000) ++ "Z".

Definition is_text (v : value) : bool :=
  match v with VStr _ => true | _ => false end.

(** The text of an integer: an optional sign and decimal digits. *)
Definition integer_text (v : value) : bool :=
  match v with
  | VStr (String "-" s) | VStr (String "+" s) | VStr s =>
      match digits 0 (list_ascii_of_string s) with Some _ => true | None => false end
  | _ => false
  end.

(** Reading a stored value back.  The values inside an array or object are
    revived first.  Then an object with a text under [__bigint__] becomes a
    big integer (or throws when the text is no integer), one with a text
    under [__principal__] throws (no text is a principal here), and one with
    the text [__nan__] under [__nan__] becomes the number that is none. *)
Fixpoint revive (v : value) : Reading :=
  match v with
  | VArr elems =>
      (fix all (l : list value) : Reading :=
         match l with
         | [] => Reads_same
         | x :: rest => worse (revive x) (all rest)
         end) elems
  | VObj props =>
      let inside :=
        (fix all (l : list (string * value)) : Reading :=
           match l with
           | [] => Reads_same
           | (_, x) :: rest => worse (revive x) (all rest)
           end) props in
      if throws inside then Read_throws
      else if is_text (lookup_prop "__bigint__" props)
      then (if integer_text (lookup_prop "__bigint__" props)
            then Reads_unprintable else Read_throws)
      else if is_text (lookup_prop "__principal__" props) then Read_throws
      else match lookup_prop "__nan__" props with
           | VStr "__nan__" => Reads_altered
           | _ => inside
           end
  | _ => Reads_same
  end.

#[export, refine] Instance runtime : Runtime :=
  {| Number_toString := print_number;
     Date_parse := parse_date;
     Date_toISOString := print_iso;
     reading := revive |}.
Proof.
  fix IH 1. intros [| |b|n|s|l|o]; simpl; try done.
  induction l as [|x l IHl]; simpl; [done|].
  intros [Hx Hl]%andb_prop. by rewrite (IH x Hx), (IHl Hl).
Defined.

End Example_runtime.

(* ===================================================================== *)
(** * Strings and regular expressions: the matcher reads what it denotes *)
(* ===================================================================== *)

Lemma append_nil_r (s : string) : s ++ "" = s.
Proof. induction s as [|c s IH]; [reflexivity|]. change (String c (s ++ "") = String c s). by rewrite IH. Qed.

Lemma append_assoc (s t u : string) : (s ++ t) ++ u = s ++ t ++ u.
Proof.
  induction s as [|c s IH]; [reflexivity|].
  change (String c ((s ++ t) ++ u) = String c (s ++ t ++ u)). by rewrite IH.
Qed.

Lemma append_eq_nil (s t : string) : s ++ t = "" -> s = "" /\ t = "".
Proof.
  destruct s as [|c s]; [|discriminate].
  change (t = "" -> "" = "" /\ t = ""). by intros ->.
Qed.

Lemma chars_append (s t : string) :
  list_ascii_of_string (s ++ t) = (list_ascii_of_string s ++ list_ascii_of_string t)%list.
Proof.
  induction s as [|c s IH]; [reflexivity|].
  change (c :: list_ascii_of_string (s ++ t) = c :: (list_ascii_of_string s ++ list_ascii_of_string t)%list).
  by rewrite IH.
Qed.

Module RegExpFacts.
Import RegExp.

Lemma nullable_sound r : nullable r = true -> lang r "".
Proof.
  induction r as [| |p|r1 IH1 r2 IH2|r1 IH1 r2 IH2|r IH]; simpl; intros H;
    try discriminate.
  - constructor.
  - apply andb_prop in H as [H1 H2].
    change "" with ("" ++ ""). constructor; auto.
  - apply orb_prop in H as [H|H]; [apply lang_alt_l|apply lang_alt_r]; auto.
  - constructor.
Qed.

Lemma nullable_complete r s : lang r s -> s = "" -> nullable r = true.
Proof.
  induction 1 as [|p c Hp|r1 r2 s1 s2 _ IH1 _ IH2|r1 r2 s _ IH|r1 r2 s _ IH| |r s1 s2 _ _ _ _];
    intros E; simpl; try reflexivity; try discriminate.
  - apply append_eq_nil in E as [-> ->]. by rewrite IH1, IH2.
  - by rewrite IH.
  - rewrite IH by done. apply orb_true_r.
Qed.

Lemma deriv_sound c r : forall s, lang (deriv c r) s -> lang r (String c s).
Proof.
  induction r as [| |p|r1 IH1 r2 IH2|r1 IH1 r2 IH2|r IH]; simpl; intros s H.
  - inversion H.
  - inversion H.
  - destruct (p c) eqn:Hp; inversion H; subst. by constructor.
  - assert (Hleft : forall t, lang (Seq (deriv c r1) r2) t -> lang (Seq r1 r2) (String c t)).
    { intros t Ht. inversion Ht as [| |? ? s1 s2 Ha Hb| | | |]; subst.
      change (String c (s1 ++ s2)) with (String c s1 ++ s2). constructor; auto. }
    destruct (nullable r1) eqn:Hn; [|by apply Hleft].
    inversion H; subst; [by apply Hleft|].
    change (String c s) with ("" ++ String c s).
    constructor; [by apply nullable_sound|auto].
  - inversion H; subst; [apply lang_alt_l|apply lang_alt_r]; auto.
  - inversion H as [| |? ? s1 s2 Ha Hb| | | |]; subst.
    change (String c (s1 ++ s2)) with (String c s1 ++ s2). constructor; auto.
Qed.

Lemma deriv_complete r t :
  lang r t -> forall c s, t = String c s -> lang (deriv c r) s.
Proof.
  induction 1 as [|p a Hp|r1 r2 s1 s2 H1 IH1 H2 IH2|r1 r2 u _ IH|r1 r2 u _ IH|
                  |r s1 s2 H1 IH1 H2 IH2]; intros c s E; simpl.
  - discriminate.
  - injection E as -> <-. rewrite Hp. constructor.
  - destruct s1 as [|a s1].
    + change (s2 = String c s) in E.
      rewrite (nullable_complete _ _ H1 eq_refl). apply lang_alt_r. by apply IH2.
    + change (String a (s1 ++ s2) = String c s) in E. injection E as -> <-.
      assert (lang (Seq (deriv c r1) r2) (s1 ++ s2)) by (constructor; auto).
      destruct (nullable r1); [by apply lang_alt_l|done].
  - apply lang_alt_l. by apply IH.
  - apply lang_alt_r. by apply IH.
  - discriminate.
  - destruct s1 as [|a s1].
    + change (s2 = String c s) in E. by apply IH2.
    + change (String a (s1 ++ s2) = String c s) in E. injection E as -> <-.
      constructor; auto.
Qed.

(** The matcher accepts exactly the strings the expression denotes. *)
Lemma test_lang r s : test r s = true <-> lang r s.
Proof.
  revert r. induction s as [|c s IH]; intros r; simpl.
  - split; [apply nullable_sound|]. intros H. by eapply nullable_complete.
  - rewrite IH. split; [apply deriv_sound|]. intros H. by eapply deriv_complete.
Qed.

Lemma lang_star_class p s :
  lang (Star (Class p)) s <-> forall c, In c (list_ascii_of_string s) -> p c = true.
Proof.
  split.
  - intros H. remember (Star (Class p)) as r eqn:Er.
    induction H as [| | | | | |r s1 s2 H1 _ H2 IH2]; try discriminate.
    + intros c [].
    + injection Er as ->. inversion H1; subst.
      intros c' [<-|Hin]; [done|]. by apply IH2.
  - induction s as [|c s IH]; intros H; [constructor|].
    change (String c s) with (String c "" ++ s). constructor.
    + constructor. apply H. by left.
    + apply IH. intros c' Hc'. apply H. by right.
Qed.

Lemma lang_plus_class p s :
  lang (Plus (Class p)) s <->
  s <> "" /\ forall c, In c (list_ascii_of_string s) -> p c = true.
Proof.
  split.
  - intros H. inversion H as [| |? ? s1 s2 H1 H2| | | |]; subst.
    inversion H1; subst. split; [discriminate|].
    pose proof (proj1 (lang_star_class _ _) H2) as Hall.
    intros c' [<-|Hin]; [done|]. by apply Hall.
  - intros [Hne H]. destruct s as [|c s]; [done|].
    change (String c s) with (String c "" ++ s). constructor.
    + constructor. apply H. by left.
    + apply lang_star_class. intros c' Hc'. apply H. by right.
Qed.

Lemma lang_chr c s : lang (Chr c) s <-> s = String c "".
Proof.
  split.
  - intros H. inversion H; subst. by apply Ascii.eqb_eq in H1 as ->.
  - intros ->. constructor. apply Ascii.eqb_refl.
Qed.

End RegExpFacts.

(** The expression of the source reads exactly the strings that the
    specification describes. *)
Lemma emailRegex_pattern (s : string) :
  RegExp.test emailRegex s = true <-> email_pattern s.
Proof.
  rewrite RegExpFacts.test_lang. unfold emailRegex, email_pattern, is_run. split.
  - intros H.
    inversion H as [| |? ? a s1 Ha H1| | | |]; subst.
    inversion H1 as [| |? ? at_ s2 Hat H2| | | |]; subst.
    inversion H2 as [| |? ? b s3 Hb H3| | | |]; subst.
    inversion H3 as [| |? ? dot c Hdot Hc| | | |]; subst.
    apply (proj1 (RegExpFacts.lang_chr _ _)) in Hat as ->.
    apply (proj1 (RegExpFacts.lang_chr _ _)) in Hdot as ->.
    apply (proj1 (RegExpFacts.lang_plus_class _ _)) in Ha, Hb, Hc.
    exists a, b, c. done.
  - intros (a & b & c & -> & Ha & Hb & Hc).
    apply (proj2 (RegExpFacts.lang_plus_class _ _)) in Ha, Hb, Hc.
    repeat (constructor; try done); by apply RegExpFacts.lang_chr.
Qed.

(* ===================================================================== *)
(** * Values, truthiness and the stable maps *)
(* ===================================================================== *)

Lemma nonempty_text_checks (v : value) :
  nonempty_text v -> ToBoolean v = true /\ not_string v = false.
Proof.
  intros (s & -> & Hs). split; [|reflexivity]. simpl.
  destruct (String.eqb_spec s ""); [done|reflexivity].
Qed.

Lemma checks_nonempty_text (v : value) :
  ToBoolean v = true -> not_string v = false -> nonempty_text v.
Proof.
  destruct v as [| |b|n|s|l|o]; try discriminate. simpl. intros H _.
  exists s. split; [done|]. intros ->. discriminate.
Qed.

Lemma is_sequence_checks (v : value) :
  is_sequence v <-> ToBoolean v = true /\ Array_isArray v = true.
Proof.
  split.
  - by intros [l ->].
  - destruct v; intros [_ H]; try discriminate. by eexists.
Qed.

Lemma strict_eq_text (stored : value) (e : string) :
  strict_eq stored (VStr e) = true <-> stored = VStr e.
Proof.
  destruct stored as [| |b|n|s|l|o]; simpl; try (split; [discriminate|discriminate]).
  rewrite String.eqb_eq. split; [by intros ->|by intros [= ->]].
Qed.

Lemma In_values {A : Type} (m : gmap string A) (x : A) :
  In x (values m) <-> exists i, m !! i = Some x.
Proof.
  unfold values. rewrite <- list_elem_of_In, list_elem_of_fmap. split.
  - intros ([i y] & -> & H). exists i. by apply elem_of_map_to_list.
  - intros (i & H). exists (i, x). split; [done|]. by apply elem_of_map_to_list.
Qed.

Lemma find_values_None {A : Type} (f : A -> bool) (m : gmap string A) :
  List.find f (values m) = None <-> forall i x, m !! i = Some x -> f x = false.
Proof.
  split.
  - intros H i x Hx. eapply find_none; [exact H|]. apply In_values. eauto.
  - intros H. destruct (List.find f (values m)) as [x|] eqn:E; [|done].
    apply find_some in E as [Hin Hf]. apply In_values in Hin as (i & Hi).
    rewrite (H _ _ Hi) in Hf. discriminate.
Qed.

Lemma find_values_Some {A : Type} (f : A -> bool) (m : gmap string A) (i : string) (x : A) :
  m !! i = Some x -> f x = true -> exists y, List.find f (values m) = Some y.
Proof.
  intros Hx Hf. destruct (List.find f (values m)) as [y|] eqn:E; [by eexists|].
  rewrite (proj1 (find_values_None f m) E _ _ Hx) in Hf. discriminate.
Qed.

(* ===================================================================== *)
(** * The volunteer handler, branch by branch *)
(* ===================================================================== *)

Section Volunteer_facts.
Context {rt : Runtime}.

Lemma volunteer_guard (body : value) :
  negb (ToBoolean (get body "name"))
  || not_string (get body "name")
  || negb (ToBoolean (get body "email"))
  || negb (ToBoolean (get body "contact"))
  || not_string (get body "contact")
  || negb (ToBoolean (get body "skills"))
  || negb (Array_isArray (get body "skills")) = false
  <-> volunteer_shape_checked body.
Proof.
  unfold volunteer_shape_checked. rewrite is_sequence_checks. split.
  - intros H. repeat (apply orb_false_elim in H as [H ?]).
    repeat match goal with H : negb _ = false |- _ => apply negb_false_iff in H end.
    repeat split; auto using checks_nonempty_text.
  - intros (Hn & He & Hc & Hs1 & Hs2).
    apply nonempty_text_checks in Hn as [-> ->], Hc as [-> ->].
    by rewrite He, Hs1, Hs2.
Qed.

Lemma values_throw_false (m : gmap string Volunteer.t) :
  values_throw m = false <->
  forall i w, m !! i = Some w -> volunteer_reading w <> Read_throws.
Proof.
  unfold values_throw. split.
  - intros H i w Hi Hw.
    assert (Hin : In w (values m)) by (apply In_values; eauto).
    assert (existsb (fun v => throws (volunteer_reading v)) (values m) = true).
    { apply existsb_exists. exists w. by rewrite Hw. }
    congruence.
  - intros H. destruct (existsb _ (values m)) eqn:E; [|done].
    apply existsb_exists in E as (w & [i Hi]%In_values & Hw).
    destruct (volunteer_reading w) eqn:Er; try discriminate. by destruct (H i w Hi).
Qed.

Lemma values_throw_true (m : gmap string Volunteer.t) :
  values_throw m = true <->
  exists i w, m !! i = Some w /\ volunteer_reading w = Read_throws.
Proof.
  unfold values_throw. rewrite existsb_exists. split.
  - intros (w & [i Hi]%In_values & Hw). exists i, w. split; [done|].
    by destruct (volunteer_reading w).
  - intros (i & w & Hi & Hw). exists w. split; [apply In_values; eauto|by rewrite Hw].
Qed.

Lemma worse_same (a b : Reading) :
  worse a b = Reads_same <-> a = Reads_same /\ b = Reads_same.
Proof. destruct a, b; simpl; split; (intros [? ?] || intros ?); done. Qed.

(** A volunteer whose four fields are plain reads back as it was stored. *)
Lemma plain_volunteer_reading (v : Volunteer.t) :
  plain_volunteer v -> volunteer_reading v = Reads_same.
Proof.
  intros (Hn & He & Hc & Hs). unfold volunteer_reading.
  by rewrite !reading_plain.
Qed.

Lemma post_volunteers_outcome (env : Env) (body : value) (st : Store) :
  volunteer_outcome env body st (post_volunteers env body st).
Proof.
  unfold post_volunteers.
  destruct (_ || negb (Array_isArray (get body "skills"))) eqn:Hguard.
  - apply bad_shape. intros Hshape. apply volunteer_guard in Hshape. congruence.
  - apply volunteer_guard in Hguard.
    destruct (ToString (get body "email")) as [text|] eqn:Htext;
      [|by apply email_throws].
    destruct (RegExp.test emailRegex text) eqn:Hre; simpl; [|by eapply bad_email].
    destruct (values_throw (volunteersStorage st)) eqn:Hread.
    + apply values_throw_true in Hread as (i & w & Hi & Hw). by eapply store_unreadable.
    + pose proof (proj1 (values_throw_false _) Hread) as Hreadable.
      destruct (List.find _ (values (volunteersStorage st))) as [w|] eqn:Hfind.
      * apply find_some in Hfind as [Hin Heq]. apply In_values in Hin as [i Hi].
        by eapply email_taken.
      * eapply created; try done. by apply find_values_None.
Qed.

Lemma post_volunteers_created (env : Env) (body : value) (st : Store) (text : string) :
  volunteer_shape_checked body ->
  ToString (get body "email") = Some text ->
  RegExp.test emailRegex text = true ->
  volunteers_readable st ->
  (forall i w, volunteersStorage st !! i = Some w ->
               strict_eq (Volunteer.email w) (get body "email") = false) ->
  post_volunteers env body st =
    (json_ok 201 "Volunteer created successfully"
       (Volunteer.new env (get body "name") (get body "email")
          (get body "contact") (get body "skills")),
     insert_volunteer
       (Volunteer.new env (get body "name") (get body "email")
          (get body "contact") (get body "skills")) st).
Proof.
  intros Hshape Htext Hre Hread Hfresh.
  destruct (post_volunteers_outcome env body st)
    as [Hno|_ Hno|t _ Ht Hno|t i w _ _ _ Hi Hw|t i w _ _ _ _ Hi Heq|t _ _ _ _ _];
    try done; try congruence.
  - by destruct (Hread i w Hi).
  - rewrite (Hfresh _ _ Hi) in Heq. discriminate.
Qed.

Lemma post_volunteers_bad_email (env : Env) (body : value) (st : Store) (text : string) :
  volunteer_shape_checked body ->
  ToString (get body "email") = Some text ->
  RegExp.test emailRegex text = false ->
  post_volunteers env body st = (json_error 400 volunteer_invalid_email, st).
Proof.
  intros Hshape Htext Hre.
  destruct (post_volunteers_outcome env body st)
    as [Hno|_ Hno|t _ Ht Hno|t i w _ Ht Hyes _ _|t i w _ Ht Hyes _ _ _|t _ Ht Hyes _ _];
    try done; congruence.
Qed.

Lemma post_volunteers_email_throws (env : Env) (body : value) (st : Store) :
  volunteer_shape_checked body ->
  ToString (get body "email") = None ->
  post_volunteers env body st = (uncaught, st).
Proof.
  intros Hshape Htext.
  destruct (post_volunteers_outcome env body st)
    as [Hno|_ Hno|t _ Ht Hno|t i w _ Ht Hyes _ _|t i w _ Ht Hyes _ _ _|t _ Ht Hyes _ _];
    try done; congruence.
Qed.

Lemma post_volunteers_bad_shape (env : Env) (body : value) (st : Store) :
  ~ volunteer_shape_checked body ->
  post_volunteers env body st = (json_error 400 volunteer_invalid_input, st).
Proof.
  intros Hno. by destruct (post_volunteers_outcome env body st).
Qed.

Lemma post_volunteers_store_unreadable
    (env : Env) (body : value) (st : Store) (text : string) i w :
  volunteer_shape_checked body ->
  ToString (get body "email") = Some text ->
  RegExp.test emailRegex text = true ->
  volunteersStorage st !! i = Some w ->
  volunteer_reading w = Read_throws ->
  post_volunteers env body st = (uncaught, st).
Proof.
  intros Hshape Htext Hre Hi Hw.
  destruct (post_volunteers_outcome env body st)
    as [Hno|_ Hno|t _ Ht Hno|t j x _ Ht Hyes _ _|t j x _ Ht Hyes Hread _ _|t _ Ht Hyes Hread _];
    try done; try congruence.
  - by destruct (Hread i w Hi).
  - by destruct (Hread i w Hi).
Qed.

Lemma post_volunteers_email_taken
    (env : Env) (body : value) (st : Store) (text : string) i w :
  volunteer_shape_checked body ->
  ToString (get body "email") = Some text ->
  RegExp.test emailRegex text = true ->
  volunteers_readable st ->
  volunteersStorage st !! i = Some w ->
  strict_eq (Volunteer.email w) (get body "email") = true ->
  post_volunteers env body st = (json_error 400 volunteer_email_exists, st).
Proof.
  intros Hshape Htext Hre Hread Hi Heq.
  destruct (post_volunteers_outcome env body st)
    as [Hno|_ Hno|t _ Ht Hno|t j x _ _ _ Hj Hx|t j x _ _ _ _ _ _|t _ _ _ _ Hfresh];
    try done; try congruence.
  - by destruct (Hread j x Hj).
  - rewrite (Hfresh _ _ Hi) in Heq. discriminate.
Qed.

Lemma post_volunteers_text_created (env : Env) (body : value) (st : Store) (e : string) :
  volunteer_shape_of_spec body ->
  get body "email" = VStr e ->
  email_pattern e ->
  volunteers_readable st ->
  (forall i w, volunteersStorage st !! i = Some w -> Volunteer.email w <> VStr e) ->
  post_volunteers env body st =
    (json_ok 201 "Volunteer created successfully"
       (Volunteer.new env (get body "name") (VStr e)
          (get body "contact") (get body "skills")),
     insert_volunteer
       (Volunteer.new env (get body "name") (VStr e)
          (get body "contact") (get body "skills")) st).
Proof.
  intros (Hname & Hemail & Hcontact & Hskills) He Hpat Hread Hfresh.
  rewrite <- He. apply (post_volunteers_created env body st e).
  - split_and!; try done. by apply nonempty_text_checks.
  - by rewrite He.
  - by apply emailRegex_pattern.
  - done.
  - intros i w Hi. rewrite He.
    destruct (strict_eq (Volunteer.email w) (VStr e)) eqn:E; [|done].
    apply strict_eq_text in E. by destruct (Hfresh _ _ Hi).
Qed.

(** Nothing but a created volunteer changes the store. *)
Lemma post_volunteers_store (env : Env) (body : value) (st : Store) :
  (post_volunteers env body st).2 = st \/
  exists text,
    volunteer_shape_checked body /\
    ToString (get body "email") = Some text /\
    RegExp.test emailRegex text = true /\
    volunteers_readable st /\
    (forall i w, volunteersStorage st !! i = Some w ->
                 strict_eq (Volunteer.email w) (get body "email") = false) /\
    post_volunteers env body st =
      (json_ok 201 "Volunteer created successfully"
         (Volunteer.new env (get body "name") (get body "email")
            (get body "contact") (get body "skills")),
       insert_volunteer
         (Volunteer.new env (get body "name") (get body "email")
            (get body "contact") (get body "skills")) st).
Proof.
  destruct (post_volunteers_outcome env body st)
    as [| | | | |text Hshape Htext Hre Hread Hfresh volunteer]; auto.
  right. exists text. by split_and!.
Qed.

End Volunteer_facts.

(* ===================================================================== *)
(** * Emails of stored volunteers *)
(* ===================================================================== *)

Section Email_uniqueness.
Context {rt : Runtime}.

Lemma handle_volunteers (env : Env) (req : Request) (st : Store) :
  volunteersStorage (handle env req st).2 = volunteersStorage st \/
  exists body, req = POST_volunteers body /\
               (handle env req st).2 = (post_volunteers env body st).2.
Proof.
  destruct req as [body| | |body| |body| |body|]; simpl; auto.
  - right. exists body. split; [done|]. by destruct (post_volunteers env body st).
  - left. unfold post_events. destruct (_ || _); [done|].
    by destruct (new_Date_of _).
  - left. unfold post_registrations. by destruct (_ || _).
  - left. unfold post_feedbacks. by destruct (_ || _).
Qed.

Lemma post_volunteers_text_unique (env : Env) (body : value) (st : Store) :
  text_emails_unique st -> text_emails_unique (post_volunteers env body st).2.
Proof.
  intros Hinv.
  destruct (post_volunteers_store env body st)
    as [->|(text & _ & _ & _ & _ & Hfresh & ->)]; [done|].
  intros i j v w e. simpl. rewrite !lookup_insert. simpl.
  assert (Hclash : forall k x, volunteersStorage st !! k = Some x ->
                               Volunteer.email x = VStr e -> get body "email" = VStr e -> False).
  { intros k x Hk Hx Hb. specialize (Hfresh _ _ Hk). rewrite Hx, Hb in Hfresh.
    simpl in Hfresh. by rewrite String.eqb_refl in Hfresh. }
  repeat case_decide; subst; intros Hv Hw Hev Hew; simplify_eq; try done.
  - exfalso. eauto.
  - exfalso. eauto.
  - eauto.
Qed.

Lemma handle_text_unique (env : Env) (req : Request) (st : Store) :
  text_emails_unique st -> text_emails_unique (handle env req st).2.
Proof.
  intros Hinv. destruct (handle_volunteers env req st) as [E|(body & _ & E)].
  - unfold text_emails_unique. rewrite E. apply Hinv.
  - rewrite E. by apply post_volunteers_text_unique.
Qed.

Lemma run_text_unique (trace : list (Env * Request)) (st : Store) :
  text_emails_unique st -> text_emails_unique (run trace st).
Proof.
  revert st. induction trace as [|[env req] trace IH]; intros st Hinv; [done|].
  simpl. apply IH. by apply handle_text_unique.
Qed.

(** Among the volunteers whose email is text, no two share an email, in
    every state the service can reach. *)
Lemma reachable_text_emails_unique (st : Store) :
  reachable st -> text_emails_unique st.
Proof.
  intros [trace <-]. apply run_text_unique. intros i j v w e Hi.
  simpl in Hi. by rewrite lookup_empty in Hi.
Qed.

(** A request whose email is the text of a stored volunteer's email is
    never accepted and stores nothing: it is answered 400, or 500 when the
    stored volunteers cannot all be revived.  When they can and the request
    passes the two earlier checks, the error is the one of the duplicate
    test. *)
Lemma duplicate_text_email_rejected (env : Env) (body : value) (st : Store) i w e :
  volunteersStorage st !! i = Some w ->
  Volunteer.email w = VStr e ->
  get body "email" = VStr e ->
  (status_of (post_volunteers env body st).1 = 400%Z \/
   status_of (post_volunteers env body st).1 = 500%Z) /\
  (volunteers_readable st -> status_of (post_volunteers env body st).1 = 400%Z) /\
  (post_volunteers env body st).2 = st /\
  (volunteer_shape_checked body -> email_pattern e -> volunteers_readable st ->
   post_volunteers env body st = (json_error 400 volunteer_email_exists, st)).
Proof.
  intros Hi Hw He.
  assert (Heq : strict_eq (Volunteer.email w) (get body "email") = true).
  { rewrite Hw, He. by apply strict_eq_text. }
  split_and!.
  - destruct (post_volunteers_outcome env body st)
      as [| | | | |text _ _ _ _ Hfresh volunteer]; auto.
    rewrite (Hfresh _ _ Hi) in Heq. discriminate.
  - intros Hread.
    destruct (post_volunteers_outcome env body st)
      as [|_ Hno| |text j x _ _ _ Hj Hx| |text _ _ _ _ Hfresh volunteer]; auto.
    + rewrite He in Hno. discriminate.
    + by destruct (Hread j x Hj).
    + rewrite (Hfresh _ _ Hi) in Heq. discriminate.
  - destruct (post_volunteers_outcome env body st)
      as [| | | | |text _ _ _ _ Hfresh volunteer]; auto.
    rewrite (Hfresh _ _ Hi) in Heq. discriminate.
  - intros Hshape Hpat Hread. eapply (post_volunteers_email_taken _ _ _ e); eauto.
    + by rewrite He.
    + by apply emailRegex_pattern.
Qed.

End Email_uniqueness.

Example emailRegex_a_b_co : RegExp.test emailRegex "a@b.co" = true.
Proof. reflexivity. Qed.
Example emailRegex_not_an_email : RegExp.test emailRegex "not-an-email" = false.
Proof. reflexivity. Qed.

Example runtime_examples :
  Example_runtime.print_number (Finite false 6 0) = "6" /\
  Example_runtime.print_number (Finite true 3 (-1)) = "-1.5" /\
  Example_runtime.print_number (Finite false 1 (-4)) = "0.0625" /\
  Example_runtime.parse_date "2024-05-01" = Date_at 1714521600000 /\
  Example_runtime.parse_date "1970-01-01" = Date_at 0 /\
  Example_runtime.parse_date "2023-02-29" = Invalid_Date /\
  Example_runtime.parse_date "next tuesday" = Invalid_Date /\
  Example_runtime.print_iso 1714521600000 = "2024-05-01T00:00:00.000Z" /\
  Example_runtime.print_iso 1700000000123 = "2023-11-14T22:13:20.123Z" /\
  Example_runtime.print_iso (-1) = "1969-12-31T23:59:59.999Z".
Proof. repeat split; vm_compute; reflexivity. Qed.

Example revive_examples :
  Example_runtime.revive (VArr [VStr "first-aid"]) = Reads_same /\
  Example_runtime.revive (VArr [VObj [("__bigint__", VStr "5")]]) = Reads_unprintable /\
  Example_runtime.revive (VArr [VObj [("__principal__", VStr "x")]]) = Read_throws /\
  Example_runtime.revive (VArr [VObj [("__nan__", VStr "__nan__")]]) = Reads_altered /\
  Example_runtime.revive (VArr [VObj [("level", num 3)]]) = Reads_same.
Proof. repeat split; reflexivity. Qed.

(* ===================================================================== *)
(** * C1 and C2: an email that is not text *)
(* ===================================================================== *)

(** C1, evaluated where the code departs from it.  The same request, whose
    email is the one-element array [["a@b.co"]], is served twice from the
    empty store: the handler answers 201 both times, and the state reached
    holds two volunteers with the same email, so "no two volunteers share an
    email" fails there.  The first test of the handler asks of the email only
    that it be truthy, the expression then reads the array as the text
    [a@b.co], and [===] never equates the array of the request with the one
    read back from the map. *)
Theorem array_email_stored_twice {rt : Runtime} :
  let st1 := (post_volunteers first_call ann_array_email empty_store).2 in
  let st2 := (post_volunteers second_call ann_array_email st1).2 in
  status_of (post_volunteers first_call ann_array_email empty_store).1 = 201%Z /\
  status_of (post_volunteers second_call ann_array_email st1).1 = 201%Z /\
  reachable st2 /\
  (exists v w,
      volunteersStorage st2 !! "id-1" = Some v /\
      volunteersStorage st2 !! "id-2" = Some w /\
      Volunteer.email v = VArr [VStr "a@b.co"] /\
      Volunteer.email w = VArr [VStr "a@b.co"]) /\
  ~ emails_unique st2.
Proof.
  assert (Hshape : volunteer_shape_checked ann_array_email).
  { split_and!; try done; by eexists. }
  assert (E1 : post_volunteers first_call ann_array_email empty_store =
    (json_ok 201 "Volunteer created successfully"
       (Volunteer.new first_call (VStr "Ann") (VArr [VStr "a@b.co"]) (VStr "555") (VArr [])),
     insert_volunteer
       (Volunteer.new first_call (VStr "Ann") (VArr [VStr "a@b.co"]) (VStr "555") (VArr []))
       empty_store)).
  { apply (post_volunteers_created first_call ann_array_email empty_store "a@b.co");
      try done.
    all: intros i w Hi; simpl in Hi; by rewrite lookup_empty in Hi. }
  assert (E2 : post_volunteers second_call ann_array_email
                 (post_volunteers first_call ann_array_email empty_store).2 =
    (json_ok 201 "Volunteer created successfully"
       (Volunteer.new second_call (VStr "Ann") (VArr [VStr "a@b.co"]) (VStr "555") (VArr [])),
     insert_volunteer
       (Volunteer.new second_call (VStr "Ann") (VArr [VStr "a@b.co"]) (VStr "555") (VArr []))
       (post_volunteers first_call ann_array_email empty_store).2)).
  { rewrite E1.
    apply (post_volunteers_created second_call ann_array_email _ "a@b.co"); try done.
    - intros i w. simpl. rewrite lookup_insert. case_decide; [|by rewrite lookup_empty].
      intros [= <-]. by rewrite plain_volunteer_reading.
    - intros i w. simpl. rewrite lookup_insert. case_decide; [|by rewrite lookup_empty].
      by intros [= <-]. }
  assert (Hrun : run [(first_call, POST_volunteers ann_array_email);
                      (second_call, POST_volunteers ann_array_email)] empty_store =
                 (post_volunteers second_call ann_array_email
                    (post_volunteers first_call ann_array_email empty_store).2).2).
  { assert (H : forall env body st,
              (handle env (POST_volunteers body) st).2 = (post_volunteers env body st).2).
    { intros env body st. simpl. by destruct (post_volunteers env body st). }
    cbn [run]. by rewrite !H. }
  cbv zeta. split_and!.
  - by rewrite E1.
  - by rewrite E2.
  - by eexists.
  - rewrite E2, E1. cbn [fst snd]. unfold insert_volunteer.
    cbn [volunteersStorage Volunteer.id Volunteer.new uuidv4 first_call second_call].
    do 2 eexists. split_and!.
    + rewrite lookup_insert_ne by done. apply lookup_insert_eq.
    + apply lookup_insert_eq.
    + done.
    + done.
  - rewrite E2, E1. cbn [fst snd]. unfold insert_volunteer.
    cbn [volunteersStorage Volunteer.id Volunteer.new uuidv4 first_call second_call].
    intros Huniq.
    assert (E : "id-1" = "id-2"); [|discriminate].
    eapply Huniq; cbn [volunteersStorage].
    + rewrite lookup_insert_ne by done. apply lookup_insert_eq.
    + apply lookup_insert_eq.
    + done.
Qed.

(** C2, evaluated where the code departs from it.  A request whose email is
    an array is not "non-empty text", so the first check of the specification
    rejects it; the handler has no [typeof] test for the email, lets the
    request through all three checks and stores the record.  A request whose
    email is the number 42 fails the specification's first check as well, and
    is answered with the error of the second (shown with the example run
    time, which prints 42 as every run time does). *)
Theorem array_email_passes_shape_check {rt : Runtime} :
  ~ volunteer_shape_of_spec ann_array_email /\
  volunteer_shape_checked ann_array_email /\
  post_volunteers first_call ann_array_email empty_store =
    (json_ok 201 "Volunteer created successfully"
       (Volunteer.new first_call (VStr "Ann") (VArr [VStr "a@b.co"]) (VStr "555") (VArr [])),
     insert_volunteer
       (Volunteer.new first_call (VStr "Ann") (VArr [VStr "a@b.co"]) (VStr "555") (VArr []))
       empty_store) /\
  ~ volunteer_shape_of_spec (volunteer_body (VStr "Ann") (num 42) (VStr "555") (VArr [])) /\
  post_volunteers (rt := Example_runtime.runtime) first_call
    (volunteer_body (VStr "Ann") (num 42) (VStr "555") (VArr [])) empty_store =
    (json_error 400 volunteer_invalid_email, empty_store).
Proof.
  assert (Hshape : forall email, ToBoolean email = true ->
            volunteer_shape_checked (volunteer_body (VStr "Ann") email (VStr "555") (VArr []))).
  { intros email He. repeat split; try done; by eexists. }
  split_and!.
  - intros (_ & (s & Hs & _) & _). discriminate.
  - by apply Hshape.
  - apply (post_volunteers_created first_call ann_array_email empty_store "a@b.co");
      [by apply Hshape|reflexivity|reflexivity| |].
    all: intros i w Hi; simpl in Hi; by rewrite lookup_empty in Hi.
  - intros (_ & (s & Hs & _) & _). discriminate.
  - reflexivity.
Qed.

(* ===================================================================== *)
(** * C3: the email format *)
(* ===================================================================== *)

Lemma email_pattern_nonempty (e : string) : email_pattern e -> e <> "".
Proof. intros H%emailRegex_pattern ->. discriminate. Qed.


(** X19.  In a volunteer request whose name and contact are non-empty text,
    whose skills are a sequence, and whose email is a text that no stored
    volunteer has, served on a store whose volunteers can all be read back:
    the email is accepted exactly when it has the shape [run @ run . run].
    If it has, the answer is 201 and the record is stored; if it has not,
    the answer is a 400 and nothing is stored, and it is the invalid-email
    error unless the text is empty.  The text [a@b.co] has the shape and
    [not-an-email] has not. *)
Theorem email_accepted_iff_pattern {rt : Runtime}
    (env : Env) (body : value) (st : Store) (e : string) :
  nonempty_text (get body "name") ->
  nonempty_text (get body "contact") ->
  is_sequence (get body "skills") ->
  get body "email" = VStr e ->
  volunteers_readable st ->
  (forall i w, volunteersStorage st !! i = Some w -> Volunteer.email w <> VStr e) ->
  (status_of (post_volunteers env body st).1 = 201%Z <-> email_pattern e) /\
  (email_pattern e ->
   exists v, post_volunteers env body st =
               (json_ok 201 "Volunteer created successfully" v, insert_volunteer v st) /\
             Volunteer.email v = VStr e) /\
  (~ email_pattern e ->
   status_of (post_volunteers env body st).1 = 400%Z /\
   (post_volunteers env body st).2 = st) /\
  (~ email_pattern e -> e <> "" ->
   post_volunteers env body st = (json_error 400 volunteer_invalid_email, st)) /\
  email_pattern "a@b.co" /\
  ~ email_pattern "not-an-email".
Proof.
  intros Hname Hcontact Hskills Hemail Hread Hfresh.
  assert (Hyes : email_pattern e ->
            post_volunteers env body st =
              (json_ok 201 "Volunteer created successfully"
                 (Volunteer.new env (get body "name") (get body "email")
                    (get body "contact") (get body "skills")),
               insert_volunteer
                 (Volunteer.new env (get body "name") (get body "email")
                    (get body "contact") (get body "skills")) st)).
  { intros Hpat. apply (post_volunteers_created env body st e).
    - split_and!; try done. rewrite Hemail. simpl.
      apply email_pattern_nonempty in Hpat. by destruct (String.eqb_spec e "").
    - by rewrite Hemail.
    - by apply emailRegex_pattern.
    - done.
    - intros i w Hi. rewrite Hemail.
      destruct (strict_eq (Volunteer.email w) (VStr e)) eqn:E; [|done].
      apply strict_eq_text in E. by destruct (Hfresh _ _ Hi). }
  assert (Hno : ~ email_pattern e ->
            post_volunteers env body st =
              (json_error 400 (if String.eqb e "" then volunteer_invalid_input
                               else volunteer_invalid_email), st)).
  { intros Hpat. destruct (String.eqb_spec e "") as [->|Hne].
    - apply post_volunteers_bad_shape. intros (_ & He & _). by rewrite Hemail in He.
    - apply (post_volunteers_bad_email env body st e).
      + split_and!; try done. rewrite Hemail. simpl. by destruct (String.eqb_spec e "").
      + by rewrite Hemail.
      + destruct (RegExp.test emailRegex e) eqn:E; [|done].
        by apply emailRegex_pattern in E. }
  split_and!.
  - split.
    + intros Hst. destruct (RegExp.test emailRegex e) eqn:E; [by apply emailRegex_pattern|].
      rewrite Hno in Hst; [discriminate|]. intros Hpat%emailRegex_pattern. congruence.
    + intros Hpat. by rewrite Hyes.
  - intros Hpat. eexists. split; [by apply Hyes|]. simpl. done.
  - intros Hpat. by rewrite Hno.
  - intros Hpat Hne. rewrite Hno by done. by destruct (String.eqb_spec e "").
  - by apply emailRegex_pattern.
  - intros Hpat%emailRegex_pattern. discriminate.
Qed.

Lemma email_accepted_iff_pattern_witness :
  nonempty_text (get (volunteer_body (VStr "Ann") (VStr "a@b.co") (VStr "555") (VArr [])) "name") /\
  (forall i w, volunteersStorage empty_store !! i = Some w ->
               Volunteer.email w <> VStr "a@b.co") /\
  (status_of
     (post_volunteers (rt := Example_runtime.runtime) first_call
        (volunteer_body (VStr "Ann") (VStr "a@b.co") (VStr "555") (VArr []))
        empty_store).1 = 201%Z
   <-> email_pattern "a@b.co").
Proof.
  assert (Hfresh : forall i w, volunteersStorage empty_store !! i = Some w ->
                               Volunteer.email w <> VStr "a@b.co").
  { intros i w Hi. simpl in Hi. rewrite lookup_empty in Hi. discriminate. }
  split; [|split; [exact Hfresh|]].
  - exists "Ann". split; [reflexivity|discriminate].
  - apply (email_accepted_iff_pattern (rt := Example_runtime.runtime) first_call
             (volunteer_body (VStr "Ann") (VStr "a@b.co") (VStr "555") (VArr []))
             empty_store "a@b.co").
    + exists "Ann". split; [reflexivity|discriminate].
    + exists "555". split; [reflexivity|discriminate].
    + exists []. reflexivity.
    + reflexivity.
    + intros i w Hi. simpl in Hi. rewrite lookup_empty in Hi. discriminate.
    + exact Hfresh.
Defined.

(* ===================================================================== *)
(** * C4: looking a volunteer up *)
(* ===================================================================== *)

Lemma get_volunteer_same {rt : Runtime} (id : string) (st : Store) (v : Volunteer.t) :
  volunteersStorage st !! id = Some v ->
  volunteer_reading v = Reads_same ->
  get_volunteer id st =
    json_ok 200 "Volunteer retrieved successfully" (Some (as_stored v)).
Proof.
  intros Hv Hsame. unfold get_volunteer, read_back. by rewrite Hv, Hsame.
Qed.

Lemma get_volunteer_absent {rt : Runtime} (id : string) (st : Store) :
  volunteersStorage st !! id = None ->
  get_volunteer id st = json_error 404 volunteer_not_found.
Proof. intros Hnone. unfold get_volunteer. by rewrite Hnone. Qed.


(** X20.  Getting a volunteer by id never changes the store.  An unknown id
    is answered with the 404 error.  A stored id whose record reads back as
    it was stored, as every record of plain fields does, is answered 200
    with the record the map holds for it.  The id of a volunteer that was
    just created from plain fields is answered 200 with exactly the record
    that the creation returned.  In general the answer is the 404 error, a
    200 with the record under that id, the 500 error of the [catch], or the
    500 of a request that threw. *)
Theorem get_volunteer_total {rt : Runtime} (env : Env) (id : string) (st : Store) :
  (handle env (GET_volunteer id) st).2 = st /\
  (forall v, volunteersStorage st !! id = Some v ->
             volunteer_reading v = Reads_same ->
             get_volunteer id st =
               json_ok 200 "Volunteer retrieved successfully" (Some (as_stored v))) /\
  (forall v, volunteersStorage st !! id = Some v ->
             plain_volunteer v ->
             get_volunteer id st =
               json_ok 200 "Volunteer retrieved successfully" (Some (as_stored v))) /\
  (volunteersStorage st !! id = None ->
   get_volunteer id st = json_error 404 volunteer_not_found) /\
  (get_volunteer id st = json_error 404 volunteer_not_found \/
   (exists r, get_volunteer id st =
                json_ok 200 "Volunteer retrieved successfully" (Some r) /\
              volunteersStorage st !! id = Some (stored_record r)) \/
   get_volunteer id st = json_error 500 volunteer_retrieve_failed \/
   get_volunteer id st = uncaught) /\
  (forall body message v st',
      post_volunteers env body st = (json_ok 201 message v, st') ->
      plain_volunteer_fields body ->
      get_volunteer (Volunteer.id v) st' =
        json_ok 200 "Volunteer retrieved successfully" (Some (as_stored v))).
Proof.
  split_and!.
  - reflexivity.
  - intros v Hv Hsame. by apply get_volunteer_same.
  - intros v Hv Hplain. apply get_volunteer_same; [done|].
    by apply plain_volunteer_reading.
  - apply get_volunteer_absent.
  - unfold get_volunteer, read_back.
    destruct (volunteersStorage st !! id) as [v|]; [|by left].
    destruct (volunteer_reading v); right; eauto.
  - intros body message v st' Hpost Hplain.
    destruct (post_volunteers_outcome env body st) as [| | | | |text ? ? ? ? ? volunteer];
      try discriminate.
    injection Hpost as _ <- <-. apply get_volunteer_same.
    + simpl. by rewrite lookup_insert_eq.
    + by apply plain_volunteer_reading.
Qed.

Lemma get_volunteer_total_witness :
  volunteersStorage empty_store !! "id-9" = None /\
  get_volunteer (rt := Example_runtime.runtime) "id-9" empty_store =
    json_error 404 volunteer_not_found /\
  plain_volunteer_fields ann /\
  get_volunteer (rt := Example_runtime.runtime) "id-1"
    (post_volunteers (rt := Example_runtime.runtime) first_call ann empty_store).2 =
    json_ok 200 "Volunteer retrieved successfully"
      (Some (as_stored
               (Volunteer.new first_call (VStr "Ann") (VStr "ann@x.com") (VStr "555")
                  (VArr [VStr "first-aid"])))).
Proof.
  assert (Hnone : volunteersStorage empty_store !! "id-9" = None) by reflexivity.
  assert (Hplain : plain_volunteer_fields ann) by (by split_and!).
  split; [exact Hnone|]. split; [|split; [exact Hplain|]].
  - exact (proj1 (proj2 (proj2 (proj2
      (get_volunteer_total (rt := Example_runtime.runtime) first_call "id-9"
         empty_store)))) Hnone).
  - exact (proj2 (proj2 (proj2 (proj2 (proj2
      (get_volunteer_total (rt := Example_runtime.runtime) first_call "id-1"
         empty_store)))))
      ann "Volunteer created successfully"
      (Volunteer.new first_call (VStr "Ann") (VStr "ann@x.com") (VStr "555")
         (VArr [VStr "first-aid"]))
      _ eq_refl Hplain).
Defined.

(* ===================================================================== *)
(** * C5: registrations *)
(* ===================================================================== *)

(** C5.  A registration request whose eventId, volunteerId and status are
    non-empty text is answered 201 in every store, whatever the three texts
    are: the record keeps them, its [attendedAt] is null, and its
    [registeredAt] is the time read while the request is served, which is
    not before any time [start] that the clock showed earlier. *)
Theorem registration_created (env : Env) (body : value) (st : Store) (start : Z) :
  nonempty_text (get body "eventId") ->
  nonempty_text (get body "volunteerId") ->
  nonempty_text (get body "status") ->
  (start <= now env)%Z ->
  exists r t,
    post_registrations env body st =
      (json_ok 201 "Registration created successfully" r, insert_registration r st) /\
    registration_fields_unchanged body r /\
    Registration.attendedAt r = None /\
    Registration.registeredAt r = Date_at t /\
    (start <= t)%Z.
Proof.
  intros [He1 He2]%nonempty_text_checks [Hv1 Hv2]%nonempty_text_checks
         [Hs1 Hs2]%nonempty_text_checks Hclock.
  exists (Registration.new env (get body "eventId") (get body "volunteerId")
            (get body "status")), (now env).
  unfold post_registrations. rewrite He1, He2, Hv1, Hv2, Hs1, Hs2. simpl.
  by split_and!.
Qed.

Lemma registration_created_witness :
  (500 <= now first_call)%Z /\
  exists r t,
    post_registrations first_call
      (registration_body (VStr "no-such-event") (VStr "no-such-volunteer") (VStr "Maybe"))
      empty_store =
      (json_ok 201 "Registration created successfully" r,
       insert_registration r empty_store) /\
    registration_fields_unchanged
      (registration_body (VStr "no-such-event") (VStr "no-such-volunteer") (VStr "Maybe")) r /\
    Registration.attendedAt r = None /\
    Registration.registeredAt r = Date_at t /\
    (500 <= t)%Z.
Proof.
  assert (Hclock : (500 <= now first_call)%Z) by (simpl; lia).
  split; [exact Hclock|].
  apply (registration_created first_call
           (registration_body (VStr "no-such-event") (VStr "no-such-volunteer") (VStr "Maybe"))
           empty_store 500).
  - exists "no-such-event". split; [reflexivity|discriminate].
  - exists "no-such-volunteer". split; [reflexivity|discriminate].
  - exists "Maybe". split; [reflexivity|discriminate].
  - exact Hclock.
Defined.

(* ===================================================================== *)
(** * C6: the rating of a feedback *)
(* ===================================================================== *)

(** C6.  In a feedback request whose volunteerId, eventId and feedback are
    non-empty text: a missing rating and a rating of zero are both answered
    with the 400 validation error and nothing is stored; every number that is
    not zero is accepted with 201 and stored as the rating, with no test of
    its range. *)
Theorem feedback_rating_truthiness (env : Env) (body : value) (st : Store) :
  nonempty_text (get body "volunteerId") ->
  nonempty_text (get body "eventId") ->
  nonempty_text (get body "feedback") ->
  (get body "rating" = Undefined ->
   post_feedbacks env body st = (json_error 400 feedback_invalid_input, st)) /\
  (forall neg, get body "rating" = VNum (Zero neg) ->
   post_feedbacks env body st = (json_error 400 feedback_invalid_input, st)) /\
  (forall n, get body "rating" = VNum n -> number_is_zero n = false ->
   exists f,
     post_feedbacks env body st =
       (json_ok 201 "Feedback created successfully" f, insert_feedback f st) /\
     Feedback.rating f = VNum n).
Proof.
  intros [Hv1 Hv2]%nonempty_text_checks [He1 He2]%nonempty_text_checks
         [Hf1 Hf2]%nonempty_text_checks.
  unfold post_feedbacks. rewrite Hv1, Hv2, He1, He2, Hf1, Hf2. simpl.
  split_and!.
  - by intros ->.
  - by intros neg ->.
  - intros n -> Hn. simpl. rewrite Hn. simpl. by eexists.
Qed.

Lemma feedback_rating_truthiness_witness :
  post_feedbacks first_call
    (feedback_body (VStr "v-1") (VStr "e-1") (VStr "Great") (num 0)) empty_store =
    (json_error 400 feedback_invalid_input, empty_store) /\
  post_feedbacks first_call
    (VObj [("volunteerId", VStr "v-1"); ("eventId", VStr "e-1"); ("feedback", VStr "Great")])
    empty_store =
    (json_error 400 feedback_invalid_input, empty_store) /\
  (exists f,
     post_feedbacks first_call
       (feedback_body (VStr "v-1") (VStr "e-1") (VStr "Great") (num 6)) empty_store =
       (json_ok 201 "Feedback created successfully" f, insert_feedback f empty_store) /\
     Feedback.rating f = num 6) /\
  (exists f,
     post_feedbacks first_call
       (feedback_body (VStr "v-1") (VStr "e-1") (VStr "Great") (num (-1))) empty_store =
       (json_ok 201 "Feedback created successfully" f, insert_feedback f empty_store) /\
     Feedback.rating f = num (-1)).
Proof.
  assert (Htexts : forall body,
            get body "volunteerId" = VStr "v-1" -> get body "eventId" = VStr "e-1" ->
            get body "feedback" = VStr "Great" ->
            nonempty_text (get body "volunteerId") /\ nonempty_text (get body "eventId") /\
            nonempty_text (get body "feedback")).
  { intros body -> -> ->.
    repeat split; eexists; (split; [reflexivity|discriminate]). }
  split; [|split; [|split]].
  - destruct (Htexts (feedback_body (VStr "v-1") (VStr "e-1") (VStr "Great") (num 0))
                eq_refl eq_refl eq_refl) as (H1 & H2 & H3).
    exact (proj1 (proj2 (feedback_rating_truthiness first_call _ empty_store H1 H2 H3))
             false eq_refl).
  - destruct (Htexts (VObj [("volunteerId", VStr "v-1"); ("eventId", VStr "e-1");
                            ("feedback", VStr "Great")])
                eq_refl eq_refl eq_refl) as (H1 & H2 & H3).
    exact (proj1 (feedback_rating_truthiness first_call _ empty_store H1 H2 H3) eq_refl).
  - destruct (Htexts (feedback_body (VStr "v-1") (VStr "e-1") (VStr "Great") (num 6))
                eq_refl eq_refl eq_refl) as (H1 & H2 & H3).
    exact (proj2 (proj2 (feedback_rating_truthiness first_call _ empty_store H1 H2 H3))
             (Finite false 6 0) eq_refl eq_refl).
  - destruct (Htexts (feedback_body (VStr "v-1") (VStr "e-1") (VStr "Great") (num (-1)))
                eq_refl eq_refl eq_refl) as (H1 & H2 & H3).
    exact (proj2 (proj2 (feedback_rating_truthiness first_call _ empty_store H1 H2 H3))
             (Finite true 1 0) eq_refl eq_refl).
Defined.

(* ===================================================================== *)
(** * C7: the date of an event *)
(* ===================================================================== *)

(** C7 as the specification has it fails.  An event request whose four text
    fields are non-empty text and whose dateTime is the truthy value
    [{"toString": 1}] is not accepted: [new Date(dateTime)] throws inside the
    [try], the answer is the 500 error of the [catch], and nothing is
    stored. *)
Lemma unconvertible_date_is_answered_500 :
  event_shape_checked cleanup_unconvertible /\
  ToBoolean (get cleanup_unconvertible "dateTime") = true /\
  post_events (rt := Example_runtime.runtime) first_call cleanup_unconvertible
    empty_store =
    (json_error 500 event_create_failed, empty_store) /\
  status_of
    (post_events (rt := Example_runtime.runtime) first_call cleanup_unconvertible
       empty_store).1 <> 201%Z.
Proof.
  split_and!; try reflexivity; try discriminate.
  split_and!; try (eexists; split; [reflexivity|discriminate]). reflexivity.
Qed.

(** C7, amended.  An event request whose title, description, location and
    organizerId are non-empty text and whose dateTime is any truthy value
    that [new Date(dateTime)] converts without throwing is answered 201 and
    stored.  The date of the stored event is [new Date(dateTime)]; when that
    is the invalid date, the event is stored with the invalid date, not
    rejected.  When the conversion throws, the answer is the 500 error and
    nothing is stored. *)
Theorem event_created_whatever_the_date {rt : Runtime}
    (env : Env) (body : value) (st : Store) :
  nonempty_text (get body "title") ->
  nonempty_text (get body "description") ->
  nonempty_text (get body "location") ->
  nonempty_text (get body "organizerId") ->
  ToBoolean (get body "dateTime") = true ->
  (forall d, new_Date_of (get body "dateTime") = Some d ->
     exists e,
       post_events env body st =
         (json_ok 201 "Event created successfully" e, insert_event e st) /\
       eventsStorage (insert_event e st) !! Event.id e = Some e /\
       Event.dateTime e = d /\
       (d = Invalid_Date -> Event.dateTime e = Invalid_Date)) /\
  (new_Date_of (get body "dateTime") = None ->
   post_events env body st = (json_error 500 event_create_failed, st)).
Proof.
  intros [Ht1 Ht2]%nonempty_text_checks [Hd1 Hd2]%nonempty_text_checks
         [Hl1 Hl2]%nonempty_text_checks [Ho1 Ho2]%nonempty_text_checks Hdate.
  split.
  - intros d Hd. eexists. unfold post_events.
    rewrite Ht1, Ht2, Hd1, Hd2, Hl1, Hl2, Ho1, Ho2, Hdate, Hd.
    cbn [negb orb]. split_and!; try done. simpl. by rewrite lookup_insert_eq.
  - intros Hd. unfold post_events.
    by rewrite Ht1, Ht2, Hd1, Hd2, Hl1, Hl2, Ho1, Ho2, Hdate, Hd.
Qed.

Lemma event_created_whatever_the_date_witness :
  ToBoolean (VStr "next tuesday") = true /\
  new_Date_of (rt := Example_runtime.runtime) (VStr "next tuesday") = Some Invalid_Date /\
  exists e,
    post_events (rt := Example_runtime.runtime) first_call
      (event_body (VStr "Cleanup") (VStr "Beach cleanup") (VStr "next tuesday")
         (VStr "Pier 3") (VStr "id-1")) empty_store =
      (json_ok 201 "Event created successfully" e, insert_event e empty_store) /\
    eventsStorage (insert_event e empty_store) !! Event.id e = Some e /\
    Event.dateTime e = Invalid_Date.
Proof.
  split; [reflexivity|]. split; [reflexivity|].
  destruct (event_created_whatever_the_date (rt := Example_runtime.runtime) first_call
              (event_body (VStr "Cleanup") (VStr "Beach cleanup") (VStr "next tuesday")
                 (VStr "Pier 3") (VStr "id-1")) empty_store)
    as [Hsome _].
  - exists "Cleanup". split; [reflexivity|discriminate].
  - exists "Beach cleanup". split; [reflexivity|discriminate].
  - exists "Pier 3". split; [reflexivity|discriminate].
  - exists "id-1". split; [reflexivity|discriminate].
  - reflexivity.
  - destruct (Hsome Invalid_Date eq_refl) as (e & Hpost & Hstored & _ & Hinvalid).
    exists e. split; [exact Hpost|]. split; [exact Hstored|].
    apply Hinvalid. reflexivity.
Defined.

(* ===================================================================== *)
(** * C9: one collection per request *)
(* ===================================================================== *)

Section Frame.
Context {rt : Runtime}.

Lemma handle_frame (env : Env) (req : Request) (st : Store) :
  ((handle env req st).2 = st /\ status_of (handle env req st).1 <> 201%Z) \/
  (exists message p,
      (handle env req st).1 = json_ok 201 message p /\
      inserted p st (handle env req st).2 /\
      agree_off (collection_of req) st (handle env req st).2).
Proof.
  destruct req as [body|id| |body| |body| |body|]; simpl;
    try (left; split; [reflexivity|discriminate]).
  - destruct (post_volunteers_outcome env body st) as [| | | | |text ? ? ? ? ? volunteer];
      try (left; split; [reflexivity|discriminate]).
    right. do 2 eexists. split_and!; try done. by intros [] Hc.
  - left. split; [reflexivity|]. unfold get_volunteer.
    destruct (volunteersStorage st !! id) as [v|]; [|discriminate].
    by destruct (volunteer_reading v).
  - left. split; [reflexivity|]. unfold get_volunteers.
    by destruct (_ || _).
  - unfold post_events. destruct (_ || _);
      [left; split; [reflexivity|discriminate]|].
    destruct (new_Date_of _); [|left; split; [reflexivity|discriminate]].
    right. do 2 eexists. split_and!; try done. by intros [] Hc.
  - unfold post_registrations. destruct (_ || _);
      [left; split; [reflexivity|discriminate]|].
    right. do 2 eexists. split_and!; try done. by intros [] Hc.
  - unfold post_feedbacks. destruct (_ || _);
      [left; split; [reflexivity|discriminate]|].
    right. do 2 eexists. split_and!; try done. by intros [] Hc.
Qed.

Lemma handle_reads_one (env : Env) (req : Request) (st1 st2 : Store) :
  agree_on (collection_of req) st1 st2 ->
  (handle env req st1).1 = (handle env req st2).1.
Proof.
  destruct req as [body|id| |body| |body| |body|]; simpl; intros E.
  - unfold post_volunteers. rewrite E.
    destruct (_ || negb (Array_isArray _)); [done|].
    destruct (ToString _); [|done].
    destruct (negb _); [done|]. destruct (values_throw _); [done|].
    by destruct (List.find _ _).
  - unfold get_volunteer. by rewrite E.
  - unfold get_volunteers. by rewrite E.
  - unfold post_events. destruct (_ || _); [done|]. by destruct (new_Date_of _).
  - unfold get_events. by rewrite E.
  - unfold post_registrations. by destruct (_ || _).
  - unfold get_registrations. by rewrite E.
  - unfold post_feedbacks. by destruct (_ || _).
  - unfold get_feedbacks. by rewrite E.
Qed.

End Frame.

(** C9.  Every request works on one collection.  The three other collections
    are the same after it as before.  A request answered 400 leaves the whole
    store as it was, and so does every request not answered 201.  A request
    answered 201 inserts the one record it returns, under the record's id,
    into its own collection.  The answer depends on no collection but the
    request's own. *)
Theorem one_collection_per_request {rt : Runtime}
    (env : Env) (req : Request) (st : Store) :
  agree_off (collection_of req) st (handle env req st).2 /\
  (status_of (handle env req st).1 = 400%Z -> (handle env req st).2 = st) /\
  (status_of (handle env req st).1 <> 201%Z -> (handle env req st).2 = st) /\
  (status_of (handle env req st).1 = 201%Z ->
   exists message p,
     (handle env req st).1 = json_ok 201 message p /\
     inserted p st (handle env req st).2) /\
  (forall st2, agree_on (collection_of req) st st2 ->
               (handle env req st).1 = (handle env req st2).1).
Proof.
  destruct (handle_frame env req st) as [[Hsame Hstatus]|(message & p & Hr & Hins & Hoff)].
  - split_and!.
    + rewrite Hsame. by intros [] _.
    + done.
    + done.
    + done.
    + apply handle_reads_one.
  - split_and!.
    + done.
    + rewrite Hr. discriminate.
    + rewrite Hr. done.
    + eauto.
    + apply handle_reads_one.
Qed.

Lemma one_collection_per_request_witness :
  status_of
    (handle (rt := Example_runtime.runtime) first_call
       (POST_feedbacks (VObj [("volunteerId", VStr "v-1")])) empty_store).1 = 400%Z /\
  (handle (rt := Example_runtime.runtime) first_call
     (POST_feedbacks (VObj [("volunteerId", VStr "v-1")])) empty_store).2 = empty_store /\
  exists message p,
    (handle (rt := Example_runtime.runtime) first_call
       (POST_registrations
          (registration_body (VStr "e-1") (VStr "id-1") (VStr "Registered")))
       empty_store).1 = json_ok 201 message p /\
    inserted p empty_store
      (handle (rt := Example_runtime.runtime) first_call
         (POST_registrations
            (registration_body (VStr "e-1") (VStr "id-1") (VStr "Registered")))
         empty_store).2.
Proof.
  split; [reflexivity|]. split.
  - exact (proj1 (proj2
      (one_collection_per_request (rt := Example_runtime.runtime) first_call
         (POST_feedbacks (VObj [("volunteerId", VStr "v-1")])) empty_store)) eq_refl).
  - exact (proj1 (proj2 (proj2 (proj2
      (one_collection_per_request (rt := Example_runtime.runtime) first_call
         (POST_registrations
            (registration_body (VStr "e-1") (VStr "id-1") (VStr "Registered")))
         empty_store)))) eq_refl).
Defined.

(* ===================================================================== *)
(** * C10: emails that differ in letter case *)
(* ===================================================================== *)


(** X21.  On a store whose volunteers can all be read back, two volunteer
    requests that are valid, whose emails differ only in letter case and are
    held by no stored volunteer, which are given different identifiers, and
    the first of which has plain skills, are both answered 201, one after
    the other, and both records are in the store afterwards: the duplicate
    test compares the emails exactly. *)
Theorem emails_differing_in_case_both_stored {rt : Runtime}
    (env1 env2 : Env) (body1 body2 : value) (st : Store) (e1 e2 : string) :
  volunteer_shape_of_spec body1 ->
  volunteer_shape_of_spec body2 ->
  get body1 "email" = VStr e1 ->
  get body2 "email" = VStr e2 ->
  email_pattern e1 ->
  email_pattern e2 ->
  differ_only_in_case e1 e2 ->
  volunteers_readable st ->
  plain (get body1 "skills") = true ->
  (forall i w, volunteersStorage st !! i = Some w ->
               Volunteer.email w <> VStr e1 /\ Volunteer.email w <> VStr e2) ->
  uuidv4 env1 <> uuidv4 env2 ->
  exists v1 v2 st1 st2,
    post_volunteers env1 body1 st =
      (json_ok 201 "Volunteer created successfully" v1, st1) /\
    post_volunteers env2 body2 st1 =
      (json_ok 201 "Volunteer created successfully" v2, st2) /\
    Volunteer.email v1 = VStr e1 /\
    Volunteer.email v2 = VStr e2 /\
    volunteersStorage st2 !! uuidv4 env1 = Some v1 /\
    volunteersStorage st2 !! uuidv4 env2 = Some v2.
Proof.
  intros Hshape1 Hshape2 He1 He2 Hpat1 Hpat2 [Hne _] Hread Hskills Hfresh Hids.
  do 4 eexists. split_and!.
  - apply (post_volunteers_text_created env1 body1 st e1); try done.
    intros i w Hi. by apply (Hfresh i w).
  - apply (post_volunteers_text_created env2 body2 _ e2); try done.
    + intros i w. simpl. rewrite lookup_insert. case_decide.
      * intros [= <-]. rewrite plain_volunteer_reading; [done|].
        destruct Hshape1 as ((n & -> & _) & _ & (c & -> & _) & _).
        by split_and!.
      * apply Hread.
    + intros i w. simpl. rewrite lookup_insert. case_decide.
      * intros [= <-]. simpl. congruence.
      * intros Hi. by apply (Hfresh i w).
  - done.
  - done.
  - simpl. rewrite lookup_insert_ne by done. by rewrite lookup_insert_eq.
  - simpl. by rewrite lookup_insert_eq.
Qed.

Lemma emails_differing_in_case_both_stored_witness :
  differ_only_in_case "ann@x.com" "Ann@x.com" /\
  exists v1 v2 st1 st2,
    post_volunteers (rt := Example_runtime.runtime) first_call ann empty_store =
      (json_ok 201 "Volunteer created successfully" v1, st1) /\
    post_volunteers (rt := Example_runtime.runtime) second_call
      (volunteer_body (VStr "Ann") (VStr "Ann@x.com") (VStr "556") (VArr [])) st1 =
      (json_ok 201 "Volunteer created successfully" v2, st2) /\
    Volunteer.email v1 = VStr "ann@x.com" /\
    Volunteer.email v2 = VStr "Ann@x.com" /\
    volunteersStorage st2 !! uuidv4 first_call = Some v1 /\
    volunteersStorage st2 !! uuidv4 second_call = Some v2.
Proof.
  assert (Hcase : differ_only_in_case "ann@x.com" "Ann@x.com")
    by (split; [discriminate|reflexivity]).
  split; [exact Hcase|].
  apply (emails_differing_in_case_both_stored (rt := Example_runtime.runtime)
           first_call second_call ann
           (volunteer_body (VStr "Ann") (VStr "Ann@x.com") (VStr "556") (VArr []))
           empty_store "ann@x.com" "Ann@x.com").
  - repeat split; try (eexists; split; [reflexivity|discriminate]).
    eexists; reflexivity.
  - repeat split; try (eexists; split; [reflexivity|discriminate]).
    eexists; reflexivity.
  - reflexivity.
  - reflexivity.
  - apply emailRegex_pattern. reflexivity.
  - apply emailRegex_pattern. reflexivity.
  - exact Hcase.
  - intros i w Hi. simpl in Hi. rewrite lookup_empty in Hi. discriminate.
  - reflexivity.
  - intros i w Hi. simpl in Hi. rewrite lookup_empty in Hi. discriminate.
  - discriminate.
Defined.

(* ===================================================================== *)
(** * C8: what was supplied, returned, listed and fetched *)
(* ===================================================================== *)

(** A plain value is shown in a response as it is. *)
Lemma plain_shows (v : value) : plain v = true -> JSON_shows v = v.
Proof.
  revert v. fix IH 1. intros [| |b|[s| |s m e]|s|l|o]; simpl; try done.
  - by destruct s.
  - intros Hl. f_equal. induction l as [|x l IHl]; [done|].
    apply andb_prop in Hl as [Hx Hl]. by rewrite (IH x Hx), (IHl Hl).
Qed.

Section Round_trip.
Context {rt : Runtime}.

(** A record stays under its id while the identifiers generated later
    differ from it. *)
Lemma handle_keeps (id : string) (env : Env) (req : Request) (st : Store) :
  uuidv4 env <> id ->
  (forall v, volunteersStorage st !! id = Some v ->
             volunteersStorage (handle env req st).2 !! id = Some v) /\
  (forall e, eventsStorage st !! id = Some e ->
             eventsStorage (handle env req st).2 !! id = Some e) /\
  (forall r, registrationsStorage st !! id = Some r ->
             registrationsStorage (handle env req st).2 !! id = Some r) /\
  (forall f, feedbacksStorage st !! id = Some f ->
             feedbacksStorage (handle env req st).2 !! id = Some f).
Proof.
  intros Hid.
  destruct req as [body|k| |body| |body| |body|]; simpl; try done.
  - destruct (post_volunteers_outcome env body st) as [| | | | |text ? ? ? ? ? volunteer];
      try done.
    split_and!; try done. intros v Hv. simpl. by rewrite lookup_insert_ne.
  - unfold post_events. destruct (_ || _); [done|].
    destruct (new_Date_of _); [|done].
    split_and!; try done. intros e He. simpl. by rewrite lookup_insert_ne.
  - unfold post_registrations. destruct (_ || _); [done|].
    split_and!; try done. intros r Hr. simpl. by rewrite lookup_insert_ne.
  - unfold post_feedbacks. destruct (_ || _); [done|].
    split_and!; try done. intros f Hf. simpl. by rewrite lookup_insert_ne.
Qed.

Lemma run_keeps (id : string) (trace : list (Env * Request)) (st : Store) :
  generates_other_ids id trace ->
  (forall v, volunteersStorage st !! id = Some v ->
             volunteersStorage (run trace st) !! id = Some v) /\
  (forall e, eventsStorage st !! id = Some e ->
             eventsStorage (run trace st) !! id = Some e) /\
  (forall r, registrationsStorage st !! id = Some r ->
             registrationsStorage (run trace st) !! id = Some r) /\
  (forall f, feedbacksStorage st !! id = Some f ->
             feedbacksStorage (run trace st) !! id = Some f).
Proof.
  revert st. induction trace as [|[env req] trace IH]; intros st Hids; [done|].
  apply Forall_cons in Hids as [Hid Hids]. simpl in Hid.
  destruct (handle_keeps id env req st Hid) as (Hv & He & Hr & Hf).
  destruct (IH (handle env req st).2 Hids) as (Hv' & He' & Hr' & Hf').
  simpl. split_and!; eauto.
Qed.

Lemma listed {A : Type} (m : gmap string A) (id : string) (x : A) :
  m !! id = Some x -> In x (values m).
Proof. intros H. apply In_values. eauto. Qed.

(** What the list-all request for volunteers answers. *)
Lemma get_volunteers_listed (st : Store) (message : string)
    (l : list (Read_back Volunteer.t)) :
  get_volunteers st = json_ok 200 message l ->
  l = map read_back (values (volunteersStorage st)).
Proof.
  unfold get_volunteers. destruct (_ || _); [discriminate|]. by intros [= _ <-].
Qed.

Lemma get_volunteers_listable (st : Store) :
  volunteers_listable st ->
  get_volunteers st =
    json_ok 200 "Volunteers retrieved successfully"
      (map read_back (values (volunteersStorage st))).
Proof.
  intros Hlist. unfold get_volunteers.
  destruct (existsb _ _ || existsb _ _) eqn:E; [|done].
  apply orb_prop in E as [E|E];
    apply existsb_exists in E as (w & [i Hi]%In_values & Hw);
    destruct (Hlist i w Hi) as [H1 H2];
    by destruct (volunteer_reading w).
Qed.

Lemma get_volunteers_answers (st : Store) :
  get_volunteers st = json_error 500 volunteers_retrieve_failed \/
  get_volunteers st =
    json_ok 200 "Volunteers retrieved successfully"
      (map read_back (values (volunteersStorage st))).
Proof. unfold get_volunteers. destruct (_ || _); eauto. Qed.

Lemma listed_as_stored (m : gmap string Volunteer.t) (id : string) (v : Volunteer.t) :
  m !! id = Some v ->
  volunteer_reading v = Reads_same ->
  In (as_stored v) (map read_back (values m)).
Proof.
  intros Hv Hsame. apply in_map_iff. exists v. split; [|by eapply listed].
  unfold read_back. by rewrite Hsame.
Qed.

End Round_trip.

(** C8, as the code has it.  For each of the four entities, the record that
    a request answered 201 returns holds every field it takes from the
    request exactly as supplied, with one exception: the date of an event is
    [new Date(dateTime)], not the supplied value.  When the supplied fields
    of a volunteer, or the rating of a feedback, are plain (text, booleans,
    null, finite numbers other than the negative zero, arrays of these),
    the response shows them as supplied.  After any later requests that
    generate other identifiers (none, in particular), the list-all request
    of the entity returns a list that contains that same record, and for a
    volunteer of plain fields the request by id returns it; the list-all
    request for volunteers does so whenever it is answered 200, which it is
    when every stored volunteer can be read back and printed. *)
Theorem created_record_round_trip {rt : Runtime}
    (env : Env) (body : value) (st : Store) :
  (forall message v st',
      post_volunteers env body st = (json_ok 201 message v, st') ->
      plain_volunteer_fields body ->
      volunteer_fields_unchanged body v /\
      JSON_shows (Volunteer.name v) = get body "name" /\
      JSON_shows (Volunteer.email v) = get body "email" /\
      JSON_shows (Volunteer.contact v) = get body "contact" /\
      JSON_shows (Volunteer.skills v) = get body "skills" /\
      forall trace, generates_other_ids (Volunteer.id v) trace ->
        get_volunteer (Volunteer.id v) (run trace st') =
          json_ok 200 "Volunteer retrieved successfully" (Some (as_stored v)) /\
        (forall l, get_volunteers (run trace st') =
                     json_ok 200 "Volunteers retrieved successfully" l ->
                   In (as_stored v) l) /\
        (volunteers_listable (run trace st') ->
         exists l, get_volunteers (run trace st') =
                     json_ok 200 "Volunteers retrieved successfully" l /\
                   In (as_stored v) l)) /\
  (forall message e st',
      post_events env body st = (json_ok 201 message e, st') ->
      event_fields_kept body e /\
      forall trace, generates_other_ids (Event.id e) trace ->
        exists l, get_events (run trace st') =
                    json_ok 200 "Events retrieved successfully" l /\ In e l) /\
  (forall message r st',
      post_registrations env body st = (json_ok 201 message r, st') ->
      registration_fields_unchanged body r /\
      forall trace, generates_other_ids (Registration.id r) trace ->
        exists l, get_registrations (run trace st') =
                    json_ok 200 "Registrations retrieved successfully" l /\ In r l) /\
  (forall message f st',
      post_feedbacks env body st = (json_ok 201 message f, st') ->
      plain (get body "rating") = true ->
      feedback_fields_unchanged body f /\
      JSON_shows (Feedback.rating f) = get body "rating" /\
      forall trace, generates_other_ids (Feedback.id f) trace ->
        exists l, get_feedbacks (run trace st') =
                    json_ok 200 "Feedback retrieved successfully" l /\ In f l).
Proof.
  split_and!.
  - intros message v st' Hpost (Hn & He & Hc & Hs).
    destruct (post_volunteers_outcome env body st) as [| | | | |text ? ? ? ? ? volunteer];
      try discriminate.
    injection Hpost as _ <- <-.
    assert (Hsame : volunteer_reading volunteer = Reads_same)
      by (by apply plain_volunteer_reading).
    split_and!; try done; try (by apply plain_shows).
    intros trace Hids.
    destruct (run_keeps _ trace (insert_volunteer volunteer st) Hids) as (Hkeep & _).
    specialize (Hkeep volunteer (lookup_insert_eq _ _ _)).
    split_and!.
    + by apply get_volunteer_same.
    + intros l ->%get_volunteers_listed. by eapply listed_as_stored.
    + intros Hlist. eexists. split; [by apply get_volunteers_listable|].
      by eapply listed_as_stored.
  - intros message e st'. unfold post_events. destruct (_ || _); [discriminate|].
    destruct (new_Date_of (get body "dateTime")) as [d|] eqn:Hd; [|discriminate].
    intros [= _ <- <-]. split; [by split_and!|]. intros trace Hids.
    eexists. split; [reflexivity|]. eapply listed.
    apply (proj1 (proj2 (run_keeps _ _ _ Hids))). apply lookup_insert_eq.
  - intros message r st'. unfold post_registrations. destruct (_ || _); [discriminate|].
    intros [= _ <- <-]. split; [done|]. intros trace Hids.
    eexists. split; [reflexivity|]. eapply listed.
    apply (proj1 (proj2 (proj2 (run_keeps _ _ _ Hids)))). apply lookup_insert_eq.
  - intros message f st'. unfold post_feedbacks. destruct (_ || _); [discriminate|].
    intros [= _ <- <-] Hplain. split; [done|]. split; [by apply plain_shows|].
    intros trace Hids.
    eexists. split; [reflexivity|]. eapply listed.
    apply (proj2 (proj2 (proj2 (run_keeps _ _ _ Hids)))). apply lookup_insert_eq.
Qed.

Lemma created_record_round_trip_witness :
  generates_other_ids "id-1"
    [(second_call,
      POST_volunteers (volunteer_body (VStr "Bob") (VStr "bob@x.com") (VStr "556") (VArr [])))] /\
  plain_volunteer_fields ann /\
  volunteer_fields_unchanged ann
    (Volunteer.new first_call (VStr "Ann") (VStr "ann@x.com") (VStr "555")
       (VArr [VStr "first-aid"])) /\
  event_fields_kept (rt := Example_runtime.runtime) cleanup
    (Event.new first_call (VStr "Cleanup") (VStr "Beach cleanup") (Date_at 1714521600000)
       (VStr "Pier 3") (VStr "id-1")) /\
  get_volunteer (rt := Example_runtime.runtime) "id-1"
    (run (rt := Example_runtime.runtime)
       [(second_call,
         POST_volunteers
           (volunteer_body (VStr "Bob") (VStr "bob@x.com") (VStr "556") (VArr [])))]
       (post_volunteers (rt := Example_runtime.runtime) first_call ann empty_store).2) =
    json_ok 200 "Volunteer retrieved successfully"
      (Some (as_stored
               (Volunteer.new first_call (VStr "Ann") (VStr "ann@x.com") (VStr "555")
                  (VArr [VStr "first-aid"])))).
Proof.
  assert (Hids : generates_other_ids "id-1"
            [(second_call,
              POST_volunteers
                (volunteer_body (VStr "Bob") (VStr "bob@x.com") (VStr "556") (VArr [])))]).
  { repeat constructor. discriminate. }
  assert (Hplain : plain_volunteer_fields ann) by (by split_and!).
  split; [exact Hids|]. split; [exact Hplain|].
  pose proof (created_record_round_trip (rt := Example_runtime.runtime)
                first_call ann empty_store) as (Hvolunteer & _).
  pose proof (created_record_round_trip (rt := Example_runtime.runtime)
                first_call cleanup empty_store) as (_ & Hevent & _).
  specialize (Hvolunteer _ _ _ eq_refl Hplain) as (Hfields & _ & _ & _ & _ & Hlater).
  specialize (Hevent _ _ _ eq_refl) as (Hkept & _).
  split; [exact Hfields|]. split; [exact Hkept|].
  exact (proj1 (Hlater _ Hids)).
Defined.

(** C8 as it is worded fails.  (1) A request that supplies the date of an
    event as the number 1714521600000 is answered 201, and the record
    returned holds a date object, which the response shows as the text
    [2024-05-01T00:00:00.000Z].  (2) A request that supplies the text
    [next tuesday] is answered 201 as well, and the record returned holds
    the invalid date, which the response shows as [null].  In neither does
    the supplied field appear unchanged.  (3) A feedback request whose
    rating is the infinite number is answered 201, and the response shows
    the rating as [null].  (4) A volunteer request whose skills hold the
    object [{"__bigint__": "5"}] is answered 201, and neither the request by
    the id it was given nor the list-all request returns the record: both
    are answered 500. *)
Lemma event_date_is_not_returned_unchanged :
  (exists e st',
      post_events (rt := Example_runtime.runtime) first_call cleanup empty_store =
        (json_ok 201 "Event created successfully" e, st') /\
      get cleanup "dateTime" = num 1714521600000 /\
      Date_toJSON (rt := Example_runtime.runtime) (Event.dateTime e) =
        VStr "2024-05-01T00:00:00.000Z" /\
      ~ event_fields_unchanged (rt := Example_runtime.runtime) cleanup e) /\
  (exists e st',
      post_events (rt := Example_runtime.runtime) first_call cleanup_next_tuesday
        empty_store =
        (json_ok 201 "Event created successfully" e, st') /\
      get cleanup_next_tuesday "dateTime" = VStr "next tuesday" /\
      Date_toJSON (rt := Example_runtime.runtime) (Event.dateTime e) = Null /\
      ~ event_fields_unchanged (rt := Example_runtime.runtime) cleanup_next_tuesday e) /\
  (exists f st',
      post_feedbacks first_call
        (feedback_body (VStr "id-1") (VStr "e-1") (VStr "Well run")
           (VNum (Infinity false))) empty_store =
        (json_ok 201 "Feedback created successfully" f, st') /\
      Feedback.rating f = VNum (Infinity false) /\
      JSON_shows (Feedback.rating f) = Null) /\
  (exists v st',
      post_volunteers (rt := Example_runtime.runtime) first_call mallory empty_store =
        (json_ok 201 "Volunteer created successfully" v, st') /\
      Volunteer.id v = "id-1" /\
      get_volunteer (rt := Example_runtime.runtime) "id-1" st' =
        json_error 500 volunteer_retrieve_failed /\
      get_volunteers (rt := Example_runtime.runtime) st' =
        json_error 500 volunteers_retrieve_failed).
Proof.
  split_and!.
  - do 2 eexists. split_and!; try reflexivity.
    intros (_ & _ & Hdate & _). vm_compute in Hdate. discriminate.
  - do 2 eexists. split_and!; try reflexivity.
    intros (_ & _ & Hdate & _). vm_compute in Hdate. discriminate.
  - do 2 eexists. split_and!; reflexivity.
  - do 2 eexists. split_and!; [vm_compute; reflexivity|reflexivity| |];
      vm_compute; reflexivity.
Qed.

(* ===================================================================== *)
(** * The tests of the event, registration and feedback handlers *)
(* ===================================================================== *)

Lemma nonzero_number_checks (v : value) :
  nonzero_number v <-> ToBoolean v = true /\ not_number v = false.
Proof.
  split.
  - intros (n & -> & Hn). simpl. by rewrite Hn.
  - destruct v as [| |b|n|s|l|o]; intros [Ht Hn]; try discriminate.
    exists n. split; [done|]. simpl in Ht. by destruct (number_is_zero n).
Qed.

Ltac split_guard H :=
  repeat (apply orb_false_elim in H as [H ?]);
  repeat match goal with H' : negb _ = false |- _ => apply negb_false_iff in H' end.

Lemma event_guard (body : value) :
  negb (ToBoolean (get body "title"))
  || not_string (get body "title")
  || negb (ToBoolean (get body "description"))
  || not_string (get body "description")
  || negb (ToBoolean (get body "dateTime"))
  || negb (ToBoolean (get body "location"))
  || not_string (get body "location")
  || negb (ToBoolean (get body "organizerId"))
  || not_string (get body "organizerId") = false
  <-> event_shape_checked body.
Proof.
  unfold event_shape_checked. split.
  - intros H. split_guard H. split_and!; auto using checks_nonempty_text.
  - intros (Ht & Hd & Hdate & Hl & Ho).
    apply nonempty_text_checks in Ht as [-> ->], Hd as [-> ->],
      Hl as [-> ->], Ho as [-> ->].
    by rewrite Hdate.
Qed.

Lemma registration_guard (body : value) :
  negb (ToBoolean (get body "eventId"))
  || not_string (get body "eventId")
  || negb (ToBoolean (get body "volunteerId"))
  || not_string (get body "volunteerId")
  || negb (ToBoolean (get body "status"))
  || not_string (get body "status") = false
  <-> registration_shape_checked body.
Proof.
  unfold registration_shape_checked. split.
  - intros H. split_guard H. split_and!; auto using checks_nonempty_text.
  - intros (He & Hv & Hs).
    by apply nonempty_text_checks in He as [-> ->], Hv as [-> ->], Hs as [-> ->].
Qed.

Lemma feedback_guard (body : value) :
  negb (ToBoolean (get body "volunteerId"))
  || not_string (get body "volunteerId")
  || negb (ToBoolean (get body "eventId"))
  || not_string (get body "eventId")
  || negb (ToBoolean (get body "feedback"))
  || not_string (get body "feedback")
  || negb (ToBoolean (get body "rating"))
  || not_number (get body "rating") = false
  <-> feedback_shape_checked body.
Proof.
  unfold feedback_shape_checked. rewrite nonzero_number_checks. split.
  - intros H. split_guard H. split_and!; auto using checks_nonempty_text.
  - intros (Hv & He & Hf & Hr1 & Hr2).
    apply nonempty_text_checks in Hv as [-> ->], He as [-> ->], Hf as [-> ->].
    by rewrite Hr1, Hr2.
Qed.

Section Outcome_facts.
Context {rt : Runtime}.

Lemma post_events_outcome (env : Env) (body : value) (st : Store) :
  (event_shape_checked body /\
   exists d,
     new_Date_of (get body "dateTime") = Some d /\
     post_events env body st =
       (json_ok 201 "Event created successfully"
          (Event.new env (get body "title") (get body "description") d
             (get body "location") (get body "organizerId")),
        insert_event
          (Event.new env (get body "title") (get body "description") d
             (get body "location") (get body "organizerId")) st)) \/
  (event_shape_checked body /\
   new_Date_of (get body "dateTime") = None /\
   post_events env body st = (json_error 500 event_create_failed, st)) \/
  (~ event_shape_checked body /\
   post_events env body st = (json_error 400 event_invalid_input, st)).
Proof.
  unfold post_events.
  destruct (_ || not_string (get body "organizerId")) eqn:Hguard.
  - right. right. split; [|done]. intros H%event_guard. congruence.
  - apply event_guard in Hguard.
    destruct (new_Date_of (get body "dateTime")) as [d|]; [left|right; left]; eauto.
Qed.

Lemma post_registrations_outcome (env : Env) (body : value) (st : Store) :
  (registration_shape_checked body /\
   post_registrations env body st =
     (json_ok 201 "Registration created successfully"
        (Registration.new env (get body "eventId") (get body "volunteerId")
           (get body "status")),
      insert_registration
        (Registration.new env (get body "eventId") (get body "volunteerId")
           (get body "status")) st)) \/
  (~ registration_shape_checked body /\
   post_registrations env body st = (json_error 400 registration_invalid_input, st)).
Proof.
  unfold post_registrations.
  destruct (_ || not_string (get body "status")) eqn:Hguard.
  - right. split; [|done]. intros H%registration_guard. congruence.
  - left. split; [by apply registration_guard|done].
Qed.

Lemma post_feedbacks_outcome (env : Env) (body : value) (st : Store) :
  (feedback_shape_checked body /\
   post_feedbacks env body st =
     (json_ok 201 "Feedback created successfully"
        (Feedback.new env (get body "volunteerId") (get body "eventId")
           (get body "feedback") (get body "rating")),
      insert_feedback
        (Feedback.new env (get body "volunteerId") (get body "eventId")
           (get body "feedback") (get body "rating")) st)) \/
  (~ feedback_shape_checked body /\
   post_feedbacks env body st = (json_error 400 feedback_invalid_input, st)).
Proof.
  unfold post_feedbacks.
  destruct (_ || not_number (get body "rating")) eqn:Hguard.
  - right. split; [|done]. intros H%feedback_guard. congruence.
  - left. split; [by apply feedback_guard|done].
Qed.

End Outcome_facts.

(* ===================================================================== *)
(** * What every reachable store satisfies *)
(* ===================================================================== *)

Section Reachable_stores.
Context {rt : Runtime}.

Lemma run_invariant (P : Store -> Prop) :
  (forall env req st, P st -> P (handle env req st).2) ->
  forall trace st, P st -> P (run trace st).
Proof.
  intros Hstep trace. induction trace as [|[env req] trace IH]; intros st Hst; [done|].
  simpl. apply IH. by apply Hstep.
Qed.

Lemma reachable_invariant (P : Store -> Prop) :
  P empty_store ->
  (forall env req st, P st -> P (handle env req st).2) ->
  forall st, reachable st -> P st.
Proof. intros Hempty Hstep st [trace <-]. by apply run_invariant. Qed.

(** The store after one request, handler by handler. *)
Lemma handle_store (env : Env) (req : Request) (st : Store) :
  (handle env req st).2 =
    match req with
    | POST_volunteers body => (post_volunteers env body st).2
    | POST_events body => (post_events env body st).2
    | POST_registrations body => (post_registrations env body st).2
    | POST_feedbacks body => (post_feedbacks env body st).2
    | _ => st
    end.
Proof.
  destruct req as [body|id| |body| |body| |body|]; simpl; try done.
  - by destruct (post_volunteers env body st).
  - by destruct (post_events env body st).
  - by destruct (post_registrations env body st).
  - by destruct (post_feedbacks env body st).
Qed.

Lemma stored_volunteer_step (env : Env) (req : Request) (st : Store) k v :
  volunteersStorage (handle env req st).2 !! k = Some v ->
  volunteersStorage st !! k = Some v \/
  exists body,
    req = POST_volunteers body /\ volunteer_shape_checked body /\
    (exists text, ToString (get body "email") = Some text /\
                  RegExp.test emailRegex text = true) /\
    k = uuidv4 env /\
    v = Volunteer.new env (get body "name") (get body "email")
          (get body "contact") (get body "skills").
Proof.
  rewrite handle_store. destruct req as [body|id| |body| |body| |body|]; auto.
  - destruct (post_volunteers_outcome env body st)
      as [| | | | |text Hshape Htext Hre _ _ volunteer]; auto.
    simpl. rewrite lookup_insert. case_decide; auto.
    intros [= <-]. right. exists body. split_and!; eauto.
  - destruct (post_events_outcome env body st)
      as [(_ & d & _ & ->)|[(_ & _ & ->)|[_ ->]]]; auto.
  - destruct (post_registrations_outcome env body st) as [[_ ->]|[_ ->]]; auto.
  - destruct (post_feedbacks_outcome env body st) as [[_ ->]|[_ ->]]; auto.
Qed.

Lemma stored_event_step (env : Env) (req : Request) (st : Store) k e :
  eventsStorage (handle env req st).2 !! k = Some e ->
  eventsStorage st !! k = Some e \/
  exists body,
    req = POST_events body /\ event_shape_checked body /\ k = uuidv4 env /\
    exists d,
      new_Date_of (get body "dateTime") = Some d /\
      e = Event.new env (get body "title") (get body "description") d
            (get body "location") (get body "organizerId").
Proof.
  rewrite handle_store. destruct req as [body|id| |body| |body| |body|]; auto.
  - destruct (post_volunteers_outcome env body st); auto.
  - destruct (post_events_outcome env body st)
      as [(Hshape & d & Hd & ->)|[(_ & _ & ->)|[_ ->]]]; auto.
    simpl. rewrite lookup_insert. case_decide; auto.
    intros [= <-]. right. exists body. split_and!; eauto.
  - destruct (post_registrations_outcome env body st) as [[_ ->]|[_ ->]]; auto.
  - destruct (post_feedbacks_outcome env body st) as [[_ ->]|[_ ->]]; auto.
Qed.

Lemma stored_registration_step (env : Env) (req : Request) (st : Store) k r :
  registrationsStorage (handle env req st).2 !! k = Some r ->
  registrationsStorage st !! k = Some r \/
  exists body,
    req = POST_registrations body /\ registration_shape_checked body /\ k = uuidv4 env /\
    r = Registration.new env (get body "eventId") (get body "volunteerId")
          (get body "status").
Proof.
  rewrite handle_store. destruct req as [body|id| |body| |body| |body|]; auto.
  - destruct (post_volunteers_outcome env body st); auto.
  - destruct (post_events_outcome env body st)
      as [(_ & d & _ & ->)|[(_ & _ & ->)|[_ ->]]]; auto.
  - destruct (post_registrations_outcome env body st) as [[Hshape ->]|[_ ->]]; auto.
    simpl. rewrite lookup_insert. case_decide; auto.
    intros [= <-]. right. exists body. by split_and!.
  - destruct (post_feedbacks_outcome env body st) as [[_ ->]|[_ ->]]; auto.
Qed.

Lemma stored_feedback_step (env : Env) (req : Request) (st : Store) k f :
  feedbacksStorage (handle env req st).2 !! k = Some f ->
  feedbacksStorage st !! k = Some f \/
  exists body,
    req = POST_feedbacks body /\ feedback_shape_checked body /\ k = uuidv4 env /\
    f = Feedback.new env (get body "volunteerId") (get body "eventId")
          (get body "feedback") (get body "rating").
Proof.
  rewrite handle_store. destruct req as [body|id| |body| |body| |body|]; auto.
  - destruct (post_volunteers_outcome env body st); auto.
  - destruct (post_events_outcome env body st)
      as [(_ & d & _ & ->)|[(_ & _ & ->)|[_ ->]]]; auto.
  - destruct (post_registrations_outcome env body st) as [[_ ->]|[_ ->]]; auto.
  - destruct (post_feedbacks_outcome env body st) as [[Hshape ->]|[_ ->]]; auto.
    simpl. rewrite lookup_insert. case_decide; auto.
    intros [= <-]. right. exists body. by split_and!.
Qed.

End Reachable_stores.

(** X1.  In every store the service can reach, a volunteer is stored under
    its own id, its name and contact are non-empty text, its skills are an
    array, its email is truthy and reads as text of the email format, and its
    creation date is a valid date.  Whenever the list-all request is
    answered 200, the same holds of the stored record behind every volunteer
    it returns; and whenever the request by id is answered 200, the record
    behind the volunteer returned is the one stored under that id, and it
    has that id. *)
Theorem stored_volunteers_passed_the_checks {rt : Runtime} (st : Store) :
  reachable st ->
  (forall k v, volunteersStorage st !! k = Some v -> volunteer_as_stored k v) /\
  (forall message l,
      get_volunteers st = json_ok 200 message l ->
      forall r, In r l ->
        volunteer_as_stored (Volunteer.id (stored_record r)) (stored_record r)) /\
  (forall k message r,
      get_volunteer k st = json_ok 200 message (Some r) ->
      volunteersStorage st !! k = Some (stored_record r) /\
      Volunteer.id (stored_record r) = k).
Proof.
  intros Hreach.
  assert (Hinv : forall k v, volunteersStorage st !! k = Some v -> volunteer_as_stored k v).
  { revert st Hreach. apply (reachable_invariant
      (fun st => forall k v, volunteersStorage st !! k = Some v ->
                             volunteer_as_stored k v)).
    - intros k v Hk. simpl in Hk. by rewrite lookup_empty in Hk.
    - intros env req st' IH k v Hk.
      apply stored_volunteer_step in Hk
        as [Hk|(body & _ & (Hn & He & Hc & Hs) & Hre & -> & ->)]; [by apply IH|].
      split_and!; try done. by eexists. }
  split_and!; [done| |].
  - intros message l ->%get_volunteers_listed r (v & <- & [k Hk]%In_values)%in_map_iff.
    assert (Hr : stored_record (read_back v) = v)
      by (unfold read_back; by destruct (volunteer_reading v)).
    rewrite Hr. destruct (Hinv k v Hk) as [-> _]. by apply Hinv.
  - intros k message r. unfold get_volunteer, read_back.
    destruct (volunteersStorage st !! k) as [w|] eqn:Hk; [|discriminate].
    destruct (volunteer_reading w); try discriminate;
      intros [= _ <-]; simpl; split; try done; by destruct (Hinv k w Hk).
Qed.

Lemma stored_volunteers_passed_the_checks_witness :
  volunteer_as_stored (rt := Example_runtime.runtime) "id-1"
    (Volunteer.new first_call (VStr "Ann") (VStr "ann@x.com") (VStr "555")
       (VArr [VStr "first-aid"])).
Proof.
  apply (proj1 (stored_volunteers_passed_the_checks (rt := Example_runtime.runtime)
           (post_volunteers (rt := Example_runtime.runtime) first_call ann empty_store).2
           (ex_intro _ [(first_call, POST_volunteers ann)] eq_refl))).
  reflexivity.
Defined.

(** X2.  In every store the service can reach, an event is stored under its
    own id, its title, description, location and organizerId are non-empty
    text, and its creation date is a valid date; its dateTime can be any
    date, the invalid one included.  The same holds of every event that the
    list-all request returns. *)
Theorem stored_events_passed_the_checks {rt : Runtime} (st : Store) :
  reachable st ->
  (forall k e, eventsStorage st !! k = Some e -> event_as_stored k e) /\
  (exists l, get_events st = json_ok 200 "Events retrieved successfully" l /\
             forall e, In e l -> event_as_stored (Event.id e) e).
Proof.
  intros Hreach.
  assert (Hinv : forall k e, eventsStorage st !! k = Some e -> event_as_stored k e).
  { revert st Hreach. apply (reachable_invariant
      (fun st => forall k e, eventsStorage st !! k = Some e -> event_as_stored k e)).
    - intros k e Hk. simpl in Hk. by rewrite lookup_empty in Hk.
    - intros env req st' IH k e Hk.
      apply stored_event_step in Hk
        as [Hk|(body & _ & (Ht & Hd & _ & Hl & Ho) & -> & d & _ & ->)]; [by apply IH|].
      split_and!; try done. by eexists. }
  split; [done|].
  eexists. split; [reflexivity|]. intros e [k Hk]%In_values.
  destruct (Hinv k e Hk) as [-> _]. by apply Hinv.
Qed.

Lemma stored_events_passed_the_checks_witness :
  event_as_stored "id-1"
    (Event.new first_call (VStr "Cleanup") (VStr "Beach cleanup") Invalid_Date
       (VStr "Pier 3") (VStr "id-1")).
Proof.
  apply (proj1 (stored_events_passed_the_checks (rt := Example_runtime.runtime)
           (post_events (rt := Example_runtime.runtime) first_call cleanup_next_tuesday
              empty_store).2
           (ex_intro _ [(first_call, POST_events cleanup_next_tuesday)] eq_refl))).
  reflexivity.
Defined.

(** X3.  In every store the service can reach, a registration is stored
    under its own id, its eventId, volunteerId and status are non-empty text,
    its registeredAt is a valid date and its attendedAt is null: no request
    ever sets it.  The same holds of every registration that the list-all
    request returns. *)
Theorem stored_registrations_passed_the_checks {rt : Runtime} (st : Store) :
  reachable st ->
  (forall k r, registrationsStorage st !! k = Some r -> registration_as_stored k r) /\
  (exists l, get_registrations st =
               json_ok 200 "Registrations retrieved successfully" l /\
             forall r, In r l -> registration_as_stored (Registration.id r) r).
Proof.
  intros Hreach.
  assert (Hinv : forall k r, registrationsStorage st !! k = Some r ->
                             registration_as_stored k r).
  { revert st Hreach. apply (reachable_invariant
      (fun st => forall k r, registrationsStorage st !! k = Some r ->
                             registration_as_stored k r)).
    - intros k r Hk. simpl in Hk. by rewrite lookup_empty in Hk.
    - intros env req st' IH k r Hk.
      apply stored_registration_step in Hk
        as [Hk|(body & _ & (He & Hv & Hs) & -> & ->)]; [by apply IH|].
      split_and!; try done. by eexists. }
  split; [done|].
  eexists. split; [reflexivity|]. intros r [k Hk]%In_values.
  destruct (Hinv k r Hk) as [-> _]. by apply Hinv.
Qed.

Lemma stored_registrations_passed_the_checks_witness :
  registration_as_stored "id-1"
    (Registration.new first_call (VStr "e-1") (VStr "id-7") (VStr "Registered")).
Proof.
  apply (proj1 (stored_registrations_passed_the_checks (rt := Example_runtime.runtime)
           (post_registrations first_call
              (registration_body (VStr "e-1") (VStr "id-7") (VStr "Registered"))
              empty_store).2
           (ex_intro _
              [(first_call,
                POST_registrations
                  (registration_body (VStr "e-1") (VStr "id-7") (VStr "Registered")))]
              eq_refl))).
  reflexivity.
Defined.

(** X4.  In every store the service can reach, a feedback is stored under
    its own id, its volunteerId, eventId and feedback are non-empty text, its
    rating is a number other than zero, and its creation date is a valid
    date.  The same holds of every feedback that the list-all request
    returns. *)
Theorem stored_feedbacks_passed_the_checks {rt : Runtime} (st : Store) :
  reachable st ->
  (forall k f, feedbacksStorage st !! k = Some f -> feedback_as_stored k f) /\
  (exists l, get_feedbacks st = json_ok 200 "Feedback retrieved successfully" l /\
             forall f, In f l -> feedback_as_stored (Feedback.id f) f).
Proof.
  intros Hreach.
  assert (Hinv : forall k f, feedbacksStorage st !! k = Some f -> feedback_as_stored k f).
  { revert st Hreach. apply (reachable_invariant
      (fun st => forall k f, feedbacksStorage st !! k = Some f -> feedback_as_stored k f)).
    - intros k f Hk. simpl in Hk. by rewrite lookup_empty in Hk.
    - intros env req st' IH k f Hk.
      apply stored_feedback_step in Hk
        as [Hk|(body & _ & (Hv & He & Hf & Hr) & -> & ->)]; [by apply IH|].
      split_and!; try done. by eexists. }
  split; [done|].
  eexists. split; [reflexivity|]. intros f [k Hk]%In_values.
  destruct (Hinv k f Hk) as [-> _]. by apply Hinv.
Qed.

Lemma stored_feedbacks_passed_the_checks_witness :
  feedback_as_stored "id-1"
    (Feedback.new first_call (VStr "v-1") (VStr "e-1") (VStr "Great") (num 6)).
Proof.
  apply (proj1 (stored_feedbacks_passed_the_checks (rt := Example_runtime.runtime)
           (post_feedbacks first_call
              (feedback_body (VStr "v-1") (VStr "e-1") (VStr "Great") (num 6))
              empty_store).2
           (ex_intro _
              [(first_call,
                POST_feedbacks
                  (feedback_body (VStr "v-1") (VStr "e-1") (VStr "Great") (num 6)))]
              eq_refl))).
  reflexivity.
Defined.

(* ===================================================================== *)
(** * Which requests are answered 400, and with which error *)
(* ===================================================================== *)

(** X5.  The volunteer handler makes its checks in order and stops at the
    first that fails, with nothing stored: first the shape (name and contact
    non-empty text, skills an array, email truthy), answered with the first
    400 error; then the email format on the email read as text, answered
    with the second 400 error, or with 500 when reading the email as text
    throws; then the stored volunteers are read, answered with 500 when one
    of them cannot be read back; then the search for a stored volunteer
    whose email is [===] to the request's, answered with the third 400
    error.  Only a request that passes all of them is answered 201.  So a
    request that lacks a name is answered with the first error even when its
    email is malformed or taken, and a malformed email is answered with the
    second error even when it is taken. *)
Theorem volunteer_checks_run_in_order {rt : Runtime}
    (env : Env) (body : value) (st : Store) :
  (~ volunteer_shape_checked body ->
   post_volunteers env body st = (json_error 400 volunteer_invalid_input, st)) /\
  (volunteer_shape_checked body ->
   ToString (get body "email") = None ->
   post_volunteers env body st = (uncaught, st)) /\
  (forall text,
      volunteer_shape_checked body ->
      ToString (get body "email") = Some text ->
      RegExp.test emailRegex text = false ->
      post_volunteers env body st = (json_error 400 volunteer_invalid_email, st)) /\
  (forall text,
      volunteer_shape_checked body ->
      ToString (get body "email") = Some text ->
      RegExp.test emailRegex text = true ->
      (exists k w, volunteersStorage st !! k = Some w /\
                   volunteer_reading w = Read_throws) ->
      post_volunteers env body st = (uncaught, st)) /\
  (forall text,
      volunteer_shape_checked body ->
      ToString (get body "email") = Some text ->
      RegExp.test emailRegex text = true ->
      volunteers_readable st ->
      (exists k w, volunteersStorage st !! k = Some w /\
                   strict_eq (Volunteer.email w) (get body "email") = true) ->
      post_volunteers env body st = (json_error 400 volunteer_email_exists, st)) /\
  (status_of (post_volunteers env body st).1 = 201%Z <->
   volunteer_shape_checked body /\
   (exists text, ToString (get body "email") = Some text /\
                 RegExp.test emailRegex text = true) /\
   volunteers_readable st /\
   forall k w, volunteersStorage st !! k = Some w ->
               strict_eq (Volunteer.email w) (get body "email") = false) /\
  volunteer_invalid_input <> volunteer_invalid_email /\
  volunteer_invalid_input <> volunteer_email_exists /\
  volunteer_invalid_email <> volunteer_email_exists.
Proof.
  split_and!; try discriminate.
  - apply post_volunteers_bad_shape.
  - apply post_volunteers_email_throws.
  - intros text. apply post_volunteers_bad_email.
  - intros text Hshape Htext Hre (k & w & Hk & Hw).
    by eapply post_volunteers_store_unreadable.
  - intros text Hshape Htext Hre Hread (k & w & Hk & Heq).
    by eapply post_volunteers_email_taken.
  - split.
    + intros Hst.
      destruct (post_volunteers_outcome env body st); try discriminate.
      split_and!; eauto.
    + intros (Hshape & (text & Htext & Hre) & Hread & Hfresh).
      by rewrite (post_volunteers_created env body st text).
Qed.

Lemma volunteer_checks_run_in_order_witness :
  post_volunteers (rt := Example_runtime.runtime) second_call
    (VObj [("email", VStr "ann@x.com")])
    (post_volunteers (rt := Example_runtime.runtime) first_call ann empty_store).2 =
    (json_error 400 volunteer_invalid_input,
     (post_volunteers (rt := Example_runtime.runtime) first_call ann empty_store).2) /\
  post_volunteers (rt := Example_runtime.runtime) second_call ann
    (post_volunteers (rt := Example_runtime.runtime) first_call ann empty_store).2 =
    (json_error 400 volunteer_email_exists,
     (post_volunteers (rt := Example_runtime.runtime) first_call ann empty_store).2).
Proof.
  split.
  - apply (proj1 (volunteer_checks_run_in_order (rt := Example_runtime.runtime)
                    second_call (VObj [("email", VStr "ann@x.com")]) _)).
    intros ((s & Hs & _) & _). discriminate.
  - apply (proj1 (proj2 (proj2 (proj2 (proj2 (volunteer_checks_run_in_order
             (rt := Example_runtime.runtime) second_call ann _))))) "ann@x.com").
    + repeat split; try (eexists; split; [reflexivity|discriminate]).
      eexists; reflexivity.
    + reflexivity.
    + reflexivity.
    + unfold volunteers_readable. apply (proj1 (values_throw_false _)).
      vm_compute. reflexivity.
    + exists "id-1", (Volunteer.new first_call (VStr "Ann") (VStr "ann@x.com") (VStr "555")
                        (VArr [VStr "first-aid"])).
      split; reflexivity.
Defined.

(** X6.  An event request is answered 201 exactly when title, description,
    location and organizerId are non-empty text, dateTime is truthy and
    [new Date(dateTime)] does not throw, and is then stored.  A request of
    that shape whose dateTime cannot be converted is answered with the 500
    error; every other request (a field missing, empty, or of another type;
    a body that is no object) is answered with the 400 error.  In both
    nothing is stored.  The dateTime may be of any type. *)
Theorem event_request_accepted_iff {rt : Runtime}
    (env : Env) (body : value) (st : Store) :
  (status_of (post_events env body st).1 = 201%Z <->
   event_shape_checked body /\
   exists d, new_Date_of (get body "dateTime") = Some d) /\
  (forall d,
      event_shape_checked body ->
      new_Date_of (get body "dateTime") = Some d ->
      exists e, post_events env body st =
                  (json_ok 201 "Event created successfully" e, insert_event e st) /\
                Event.dateTime e = d) /\
  (event_shape_checked body ->
   new_Date_of (get body "dateTime") = None ->
   post_events env body st = (json_error 500 event_create_failed, st)) /\
  (~ event_shape_checked body ->
   post_events env body st = (json_error 400 event_invalid_input, st)) /\
  ((forall k, get body k = Undefined) ->
   post_events env body st = (json_error 400 event_invalid_input, st)).
Proof.
  destruct (post_events_outcome env body st)
    as [(Hshape & d & Hd & E)|[(Hshape & Hd & E)|[Hshape E]]]; rewrite E.
  - split_and!; try done.
    + split; [eauto|done].
    + intros d' _ Hd'. eexists. split; [done|]. simpl. congruence.
    + congruence.
    + intros Hnone. destruct Hshape as ((s & Hs & _) & _). rewrite Hnone in Hs.
      discriminate.
  - split_and!; try done.
    + split; [discriminate|]. intros (_ & d & Hd'). congruence.
    + intros d _ Hd'. congruence.
    + intros Hnone. destruct Hshape as ((s & Hs & _) & _). rewrite Hnone in Hs.
      discriminate.
  - split_and!; try done. split; [discriminate|]. by intros [? _].
Qed.

Lemma event_request_accepted_iff_witness :
  post_events (rt := Example_runtime.runtime) first_call
    (event_body (num 5) (VStr "Beach cleanup") (VBool true) (VStr "Pier 3") (VStr "id-1"))
    empty_store = (json_error 400 event_invalid_input, empty_store) /\
  post_events (rt := Example_runtime.runtime) first_call (VArr []) empty_store =
    (json_error 400 event_invalid_input, empty_store) /\
  post_events (rt := Example_runtime.runtime) first_call cleanup_unconvertible
    empty_store = (json_error 500 event_create_failed, empty_store) /\
  exists e,
    post_events (rt := Example_runtime.runtime) first_call
      (event_body (VStr "Cleanup") (VStr "Beach cleanup") (VBool true) (VStr "Pier 3")
         (VStr "id-1"))
      empty_store =
      (json_ok 201 "Event created successfully" e, insert_event e empty_store) /\
    Event.dateTime e = Date_at 1.
Proof.
  split; [|split; [|split]].
  - apply (proj1 (proj2 (proj2 (proj2 (event_request_accepted_iff
             (rt := Example_runtime.runtime) first_call _ empty_store))))).
    intros ((s & Hs & _) & _). discriminate.
  - apply (proj2 (proj2 (proj2 (proj2 (event_request_accepted_iff
             (rt := Example_runtime.runtime) first_call _ empty_store))))).
    reflexivity.
  - apply (proj1 (proj2 (proj2 (event_request_accepted_iff
             (rt := Example_runtime.runtime) first_call _ empty_store)))).
    + repeat split; try (eexists; split; [reflexivity|discriminate]).
    + reflexivity.
  - apply (proj1 (proj2 (event_request_accepted_iff
             (rt := Example_runtime.runtime) first_call _ empty_store))).
    + repeat split; try (eexists; split; [reflexivity|discriminate]).
    + reflexivity.
Defined.

(** X7.  A registration request is answered 201 exactly when eventId,
    volunteerId and status are non-empty text, and is then stored; every
    other request is answered with the 400 error and nothing is stored. *)
Theorem registration_request_accepted_iff
    (env : Env) (body : value) (st : Store) :
  (status_of (post_registrations env body st).1 = 201%Z <->
   registration_shape_checked body) /\
  (registration_shape_checked body ->
   exists r, post_registrations env body st =
               (json_ok 201 "Registration created successfully" r,
                insert_registration r st)) /\
  (~ registration_shape_checked body ->
   post_registrations env body st = (json_error 400 registration_invalid_input, st)) /\
  ((forall k, get body k = Undefined) ->
   post_registrations env body st = (json_error 400 registration_invalid_input, st)).
Proof.
  destruct (post_registrations_outcome env body st) as [[Hshape E]|[Hshape E]]; rewrite E.
  - split_and!; try done; [by eexists|].
    intros Hnone. destruct Hshape as ((s & Hs & _) & _). rewrite Hnone in Hs. discriminate.
  - by split_and!.
Qed.

Lemma registration_request_accepted_iff_witness :
  post_registrations first_call
    (registration_body (VStr "e-1") (VStr "id-1") (VStr "")) empty_store =
    (json_error 400 registration_invalid_input, empty_store) /\
  post_registrations first_call (VObj []) empty_store =
    (json_error 400 registration_invalid_input, empty_store) /\
  exists r,
    post_registrations first_call
      (registration_body (VStr "e-1") (VStr "id-1") (VStr "Registered")) empty_store =
      (json_ok 201 "Registration created successfully" r,
       insert_registration r empty_store).
Proof.
  split; [|split].
  - apply (proj1 (proj2 (proj2 (registration_request_accepted_iff
             first_call _ empty_store)))).
    intros (_ & _ & (s & [= <-] & Hs)). done.
  - apply (proj2 (proj2 (proj2 (registration_request_accepted_iff
             first_call _ empty_store)))).
    reflexivity.
  - apply (proj1 (proj2 (registration_request_accepted_iff first_call _ empty_store))).
    repeat split; try (eexists; split; [reflexivity|discriminate]).
Defined.

(** X8.  A feedback request is answered 201 exactly when volunteerId,
    eventId and feedback are non-empty text and rating is a number other than
    zero, and is then stored; every other request (a rating given as text
    among them) is answered with the 400 error and nothing is stored. *)
Theorem feedback_request_accepted_iff
    (env : Env) (body : value) (st : Store) :
  (status_of (post_feedbacks env body st).1 = 201%Z <-> feedback_shape_checked body) /\
  (feedback_shape_checked body ->
   exists f, post_feedbacks env body st =
               (json_ok 201 "Feedback created successfully" f, insert_feedback f st)) /\
  (~ feedback_shape_checked body ->
   post_feedbacks env body st = (json_error 400 feedback_invalid_input, st)) /\
  ((forall k, get body k = Undefined) ->
   post_feedbacks env body st = (json_error 400 feedback_invalid_input, st)).
Proof.
  destruct (post_feedbacks_outcome env body st) as [[Hshape E]|[Hshape E]]; rewrite E.
  - split_and!; try done; [by eexists|].
    intros Hnone. destruct Hshape as ((s & Hs & _) & _). rewrite Hnone in Hs. discriminate.
  - by split_and!.
Qed.

Lemma feedback_request_accepted_iff_witness :
  post_feedbacks first_call
    (feedback_body (VStr "v-1") (VStr "e-1") (VStr "Great") (VStr "5")) empty_store =
    (json_error 400 feedback_invalid_input, empty_store) /\
  post_feedbacks first_call Null empty_store =
    (json_error 400 feedback_invalid_input, empty_store) /\
  exists f,
    post_feedbacks first_call
      (feedback_body (VStr "v-1") (VStr "e-1") (VStr "Great") (num 5)) empty_store =
      (json_ok 201 "Feedback created successfully" f, insert_feedback f empty_store).
Proof.
  split; [|split].
  - apply (proj1 (proj2 (proj2 (feedback_request_accepted_iff first_call _ empty_store)))).
    intros (_ & _ & _ & (n & Hn & _)). discriminate.
  - apply (proj2 (proj2 (proj2 (feedback_request_accepted_iff first_call _ empty_store)))).
    reflexivity.
  - apply (proj1 (proj2 (feedback_request_accepted_iff first_call _ empty_store))).
    repeat split; try (eexists; split; [reflexivity|discriminate]).
    eexists. split; reflexivity.
Defined.

(* ===================================================================== *)
(** * What a handler reads of the body *)
(* ===================================================================== *)

(** X9.  Each create handler reads only its own named properties of the
    body: two bodies that agree on them get the same answer and leave the
    same store.  Whatever else a body carries (an [id], a [createdAt], an
    [attendedAt]) is ignored, so a client cannot choose those. *)
Theorem only_the_named_fields_are_read {rt : Runtime}
    (env : Env) (st : Store) (body1 body2 : value) :
  (same_fields (fields_read (POST_volunteers body1)) body1 body2 ->
   post_volunteers env body1 st = post_volunteers env body2 st) /\
  (same_fields (fields_read (POST_events body1)) body1 body2 ->
   post_events env body1 st = post_events env body2 st) /\
  (same_fields (fields_read (POST_registrations body1)) body1 body2 ->
   post_registrations env body1 st = post_registrations env body2 st) /\
  (same_fields (fields_read (POST_feedbacks body1)) body1 body2 ->
   post_feedbacks env body1 st = post_feedbacks env body2 st).
Proof.
  split_and!; intros Hsame.
  - unfold post_volunteers.
    by rewrite (Hsame "name"), (Hsame "email"), (Hsame "contact"), (Hsame "skills")
      by (simpl; tauto).
  - unfold post_events.
    by rewrite (Hsame "title"), (Hsame "description"), (Hsame "dateTime"),
      (Hsame "location"), (Hsame "organizerId") by (simpl; tauto).
  - unfold post_registrations.
    by rewrite (Hsame "eventId"), (Hsame "volunteerId"), (Hsame "status")
      by (simpl; tauto).
  - unfold post_feedbacks.
    by rewrite (Hsame "volunteerId"), (Hsame "eventId"), (Hsame "feedback"),
      (Hsame "rating") by (simpl; tauto).
Qed.

Lemma only_the_named_fields_are_read_witness :
  post_registrations first_call
    (VObj [("id", VStr "chosen"); ("attendedAt", VStr "2024-05-01");
           ("eventId", VStr "e-1"); ("volunteerId", VStr "id-7");
           ("status", VStr "Attended")]) empty_store =
  post_registrations first_call
    (registration_body (VStr "e-1") (VStr "id-7") (VStr "Attended")) empty_store.
Proof.
  apply (proj1 (proj2 (proj2 (only_the_named_fields_are_read
           (rt := Example_runtime.runtime) first_call empty_store _ _)))).
  intros k [<-|[<-|[<-|[]]]]; reflexivity.
Defined.

(* ===================================================================== *)
(** * Requests one after another *)
(* ===================================================================== *)

Section Composition.
Context {rt : Runtime}.

Lemma collection_eq_dec (c1 c2 : collection) : {c1 = c2} + {c1 <> c2}.
Proof. decide equality. Defined.

Lemma agree_on_sym c st1 st2 : agree_on c st1 st2 -> agree_on c st2 st1.
Proof. by destruct c. Qed.

Lemma agree_on_trans c st1 st2 st3 :
  agree_on c st1 st2 -> agree_on c st2 st3 -> agree_on c st1 st3.
Proof. destruct c; simpl; congruence. Qed.

Lemma agree_everywhere st1 st2 : (forall c, agree_on c st1 st2) -> st1 = st2.
Proof.
  intros H. destruct st1, st2.
  pose proof (H Volunteers). pose proof (H Events).
  pose proof (H Registrations). pose proof (H Feedbacks).
  simpl in *. congruence.
Qed.

Lemma handle_off (env : Env) (req : Request) (st : Store) :
  agree_off (collection_of req) st (handle env req st).2.
Proof.
  destruct (handle_frame env req st) as [[-> _]|(_ & _ & _ & _ & Hoff)]; [|done].
  by intros [] _.
Qed.

Lemma handle_own (env : Env) (req : Request) (st1 st2 : Store) :
  agree_on (collection_of req) st1 st2 ->
  agree_on (collection_of req) (handle env req st1).2 (handle env req st2).2.
Proof.
  rewrite !handle_store.
  destruct req as [body|id| |body| |body| |body|]; simpl; intros E; try done.
  - unfold post_volunteers. rewrite E.
    destruct (_ || negb (Array_isArray _)); [done|].
    destruct (ToString _); [|done].
    destruct (negb _); [done|]. destruct (values_throw _); [done|].
    destruct (List.find _ _); [done|]. simpl. by rewrite E.
  - unfold post_events. destruct (_ || _); simpl; [done|].
    destruct (new_Date_of _); [|done]. simpl. by rewrite E.
  - unfold post_registrations. destruct (_ || _); simpl; [done|]. by rewrite E.
  - unfold post_feedbacks. destruct (_ || _); simpl; [done|]. by rewrite E.
Qed.

(** The keys other than the generated one are bound as before. *)
Lemma handle_other_keys (k : string) (env : Env) (req : Request) (st : Store) :
  uuidv4 env <> k ->
  volunteersStorage (handle env req st).2 !! k = volunteersStorage st !! k /\
  eventsStorage (handle env req st).2 !! k = eventsStorage st !! k /\
  registrationsStorage (handle env req st).2 !! k = registrationsStorage st !! k /\
  feedbacksStorage (handle env req st).2 !! k = feedbacksStorage st !! k.
Proof.
  intros Hk. rewrite handle_store.
  destruct req as [body|id| |body| |body| |body|]; try done.
  - destruct (post_volunteers_outcome env body st); try done.
    simpl. by rewrite lookup_insert_ne.
  - destruct (post_events_outcome env body st)
      as [(_ & d & _ & ->)|[(_ & _ & ->)|[_ ->]]]; try done.
    simpl. by rewrite lookup_insert_ne.
  - destruct (post_registrations_outcome env body st) as [[_ ->]|[_ ->]]; try done.
    simpl. by rewrite lookup_insert_ne.
  - destruct (post_feedbacks_outcome env body st) as [[_ ->]|[_ ->]]; try done.
    simpl. by rewrite lookup_insert_ne.
Qed.

Lemma run_other_keys (k : string) (trace : list (Env * Request)) (st : Store) :
  ~ In k (generated_ids trace) ->
  volunteersStorage (run trace st) !! k = volunteersStorage st !! k /\
  eventsStorage (run trace st) !! k = eventsStorage st !! k /\
  registrationsStorage (run trace st) !! k = registrationsStorage st !! k /\
  feedbacksStorage (run trace st) !! k = feedbacksStorage st !! k.
Proof.
  revert st. induction trace as [|[env req] trace IH]; intros st Hk; [done|].
  simpl in Hk. apply Decidable.not_or in Hk as [Hne Hk].
  destruct (handle_other_keys k env req st Hne) as (Hv & He & Hr & Hf).
  destruct (IH (handle env req st).2 Hk) as (Hv' & He' & Hr' & Hf').
  simpl. by rewrite Hv', He', Hr', Hf'.
Qed.

End Composition.

(** X10.  Two requests about different collections can be served in either
    order: the store reached is the same, and each request gets the answer it
    would have got had the other not been served. *)
Theorem requests_on_different_collections_commute {rt : Runtime}
    (env1 env2 : Env) (req1 req2 : Request) (st : Store) :
  collection_of req1 <> collection_of req2 ->
  (handle env2 req2 (handle env1 req1 st).2).2 =
    (handle env1 req1 (handle env2 req2 st).2).2 /\
  (handle env1 req1 (handle env2 req2 st).2).1 = (handle env1 req1 st).1 /\
  (handle env2 req2 (handle env1 req1 st).2).1 = (handle env2 req2 st).1.
Proof.
  intros Hne.
  assert (H12 : agree_on (collection_of req1) st (handle env2 req2 st).2).
  { by apply (handle_off env2 req2 st). }
  assert (H21 : agree_on (collection_of req2) st (handle env1 req1 st).2).
  { by apply (handle_off env1 req1 st). }
  split_and!.
  - apply agree_everywhere. intros c.
    destruct (collection_eq_dec c (collection_of req1)) as [->|Hc1];
      [|destruct (collection_eq_dec c (collection_of req2)) as [->|Hc2]].
    + eapply agree_on_trans.
      * apply agree_on_sym. by apply (handle_off env2 req2).
      * by apply handle_own.
    + eapply agree_on_trans.
      * apply handle_own. by apply agree_on_sym.
      * by apply (handle_off env1 req1).
    + eapply agree_on_trans; [|eapply agree_on_trans].
      * apply agree_on_sym. by apply (handle_off env2 req2).
      * apply agree_on_sym. by apply (handle_off env1 req1).
      * eapply agree_on_trans; [by apply (handle_off env2 req2)|].
        by apply (handle_off env1 req1).
  - symmetry. by apply handle_reads_one.
  - symmetry. by apply handle_reads_one.
Qed.

Lemma requests_on_different_collections_commute_witness :
  (handle (rt := Example_runtime.runtime) second_call (POST_events cleanup)
     (handle (rt := Example_runtime.runtime) first_call (POST_volunteers ann)
        empty_store).2).2 =
  (handle (rt := Example_runtime.runtime) first_call (POST_volunteers ann)
     (handle (rt := Example_runtime.runtime) second_call (POST_events cleanup)
        empty_store).2).2.
Proof.
  apply (requests_on_different_collections_commute (rt := Example_runtime.runtime)
           first_call second_call (POST_volunteers ann) (POST_events cleanup) empty_store).
  discriminate.
Defined.

(** X11.  A key of any collection is an identifier that was generated for
    one of the requests served.  So, after any run from the empty store, an
    id that was never generated is bound in no collection, and getting a
    volunteer by it is answered 404. *)
Theorem ids_never_generated_are_not_found {rt : Runtime}
    (trace : list (Env * Request)) (k : string) :
  ~ In k (generated_ids trace) ->
  unused_key k (run trace empty_store) /\
  get_volunteer k (run trace empty_store) = json_error 404 volunteer_not_found.
Proof.
  intros Hk. destruct (run_other_keys k trace empty_store Hk) as (Hv & He & Hr & Hf).
  simpl in Hv, He, Hr, Hf.
  rewrite lookup_empty in Hv. rewrite lookup_empty in He.
  rewrite lookup_empty in Hr. rewrite lookup_empty in Hf.
  split; [done|]. unfold get_volunteer. by rewrite Hv.
Qed.

Lemma ids_never_generated_are_not_found_witness :
  get_volunteer (rt := Example_runtime.runtime) "id-2"
    (run (rt := Example_runtime.runtime)
       [(first_call, POST_volunteers ann); (first_call, POST_events cleanup)]
       empty_store) = json_error 404 volunteer_not_found.
Proof.
  apply (ids_never_generated_are_not_found (rt := Example_runtime.runtime)
           [(first_call, POST_volunteers ann); (first_call, POST_events cleanup)] "id-2").
  intros [H|[H|[]]]; discriminate.
Defined.

Section Created.
Context {rt : Runtime}.

Lemma post_events_created (env : Env) (body : value) (st : Store) (d : Date) :
  event_shape_checked body ->
  new_Date_of (get body "dateTime") = Some d ->
  post_events env body st =
    (json_ok 201 "Event created successfully"
       (Event.new env (get body "title") (get body "description") d
          (get body "location") (get body "organizerId")),
     insert_event
       (Event.new env (get body "title") (get body "description") d
          (get body "location") (get body "organizerId")) st).
Proof.
  intros H Hd.
  destruct (post_events_outcome env body st)
    as [(_ & d' & Hd' & ->)|[(_ & Hd' & _)|[? _]]]; try done; congruence.
Qed.

Lemma post_events_bad_shape (env : Env) (body : value) (st : Store) :
  ~ event_shape_checked body ->
  post_events env body st = (json_error 400 event_invalid_input, st).
Proof.
  intros H.
  by destruct (post_events_outcome env body st) as [(? & _)|[(? & _)|[_ ->]]].
Qed.

Lemma post_registrations_created (env : Env) (body : value) (st : Store) :
  registration_shape_checked body ->
  post_registrations env body st =
    (json_ok 201 "Registration created successfully"
       (Registration.new env (get body "eventId") (get body "volunteerId")
          (get body "status")),
     insert_registration
       (Registration.new env (get body "eventId") (get body "volunteerId")
          (get body "status")) st).
Proof. intros H. by destruct (post_registrations_outcome env body st) as [[_ ->]|[? _]]. Qed.

Lemma post_feedbacks_created (env : Env) (body : value) (st : Store) :
  feedback_shape_checked body ->
  post_feedbacks env body st =
    (json_ok 201 "Feedback created successfully"
       (Feedback.new env (get body "volunteerId") (get body "eventId")
          (get body "feedback") (get body "rating")),
     insert_feedback
       (Feedback.new env (get body "volunteerId") (get body "eventId")
          (get body "feedback") (get body "rating")) st).
Proof. intros H. by destruct (post_feedbacks_outcome env body st) as [[_ ->]|[? _]]. Qed.

End Created.

(** X12.  Events, registrations and feedback have no duplicate test: a valid
    request that is sent a second time (and given another identifier) is
    answered 201 again, and the collection then holds two records with the
    same fields, one under each identifier.  So a volunteer can be registered
    for the same event any number of times.  For an event this is so when
    its dateTime can be converted, that is when the first request was
    answered 201. *)
Theorem a_repeated_request_is_stored_again {rt : Runtime}
    (env1 env2 : Env) (body : value) (st : Store) :
  uuidv4 env1 <> uuidv4 env2 ->
  (forall d,
   event_shape_checked body ->
   new_Date_of (get body "dateTime") = Some d ->
   status_of (post_events env2 body (post_events env1 body st).2).1 = 201%Z /\
   eventsStorage (post_events env2 body (post_events env1 body st).2).2
     !! uuidv4 env1 =
     Some (Event.new env1 (get body "title") (get body "description") d
             (get body "location") (get body "organizerId")) /\
   eventsStorage (post_events env2 body (post_events env1 body st).2).2
     !! uuidv4 env2 =
     Some (Event.new env2 (get body "title") (get body "description") d
             (get body "location") (get body "organizerId"))) /\
  (registration_shape_checked body ->
   status_of (post_registrations env2 body (post_registrations env1 body st).2).1
     = 201%Z /\
   registrationsStorage (post_registrations env2 body (post_registrations env1 body st).2).2
     !! uuidv4 env1 =
     Some (Registration.new env1 (get body "eventId") (get body "volunteerId")
             (get body "status")) /\
   registrationsStorage (post_registrations env2 body (post_registrations env1 body st).2).2
     !! uuidv4 env2 =
     Some (Registration.new env2 (get body "eventId") (get body "volunteerId")
             (get body "status"))) /\
  (feedback_shape_checked body ->
   status_of (post_feedbacks env2 body (post_feedbacks env1 body st).2).1 = 201%Z /\
   feedbacksStorage (post_feedbacks env2 body (post_feedbacks env1 body st).2).2
     !! uuidv4 env1 =
     Some (Feedback.new env1 (get body "volunteerId") (get body "eventId")
             (get body "feedback") (get body "rating")) /\
   feedbacksStorage (post_feedbacks env2 body (post_feedbacks env1 body st).2).2
     !! uuidv4 env2 =
     Some (Feedback.new env2 (get body "volunteerId") (get body "eventId")
             (get body "feedback") (get body "rating"))).
Proof.
  intros Hids. split_and!.
  - intros d Hshape Hd. rewrite !(post_events_created _ _ _ d) by done. simpl.
    rewrite lookup_insert_ne by done. by rewrite !lookup_insert_eq.
  - intros Hshape. rewrite !post_registrations_created by done. simpl.
    rewrite lookup_insert_ne by done. by rewrite !lookup_insert_eq.
  - intros Hshape. rewrite !post_feedbacks_created by done. simpl.
    rewrite lookup_insert_ne by done. by rewrite !lookup_insert_eq.
Qed.

Lemma a_repeated_request_is_stored_again_witness :
  status_of
    (post_registrations second_call
       (registration_body (VStr "e-1") (VStr "id-7") (VStr "Registered"))
       (post_registrations first_call
          (registration_body (VStr "e-1") (VStr "id-7") (VStr "Registered"))
          empty_store).2).1 = 201%Z /\
  registrationsStorage
    (post_registrations second_call
       (registration_body (VStr "e-1") (VStr "id-7") (VStr "Registered"))
       (post_registrations first_call
          (registration_body (VStr "e-1") (VStr "id-7") (VStr "Registered"))
          empty_store).2).2 !! "id-1" =
    Some (Registration.new first_call (VStr "e-1") (VStr "id-7") (VStr "Registered")) /\
  registrationsStorage
    (post_registrations second_call
       (registration_body (VStr "e-1") (VStr "id-7") (VStr "Registered"))
       (post_registrations first_call
          (registration_body (VStr "e-1") (VStr "id-7") (VStr "Registered"))
          empty_store).2).2 !! "id-2" =
    Some (Registration.new second_call (VStr "e-1") (VStr "id-7") (VStr "Registered")).
Proof.
  apply (proj1 (proj2 (a_repeated_request_is_stored_again (rt := Example_runtime.runtime)
           first_call second_call
           (registration_body (VStr "e-1") (VStr "id-7") (VStr "Registered"))
           empty_store ltac:(discriminate)))).
  repeat split; try (eexists; split; [reflexivity|discriminate]).
Defined.

(** X13.  Once a volunteer with a text email is stored, that email stays
    taken: after any later requests that generate other identifiers, no
    volunteer request with the same email is accepted, and none stores
    anything.  It is answered 400 when the stored volunteers can all be read
    back, and 400 or 500 otherwise. *)
Theorem a_text_email_stays_taken {rt : Runtime}
    (env env' : Env) (body body' : value) (st st' : Store)
    (message : string) (v : Volunteer.t) (e : string)
    (trace : list (Env * Request)) :
  post_volunteers env body st = (json_ok 201 message v, st') ->
  get body "email" = VStr e ->
  generates_other_ids (Volunteer.id v) trace ->
  get body' "email" = VStr e ->
  status_of (post_volunteers env' body' (run trace st')).1 <> 201%Z /\
  (status_of (post_volunteers env' body' (run trace st')).1 = 400%Z \/
   status_of (post_volunteers env' body' (run trace st')).1 = 500%Z) /\
  (volunteers_readable (run trace st') ->
   status_of (post_volunteers env' body' (run trace st')).1 = 400%Z) /\
  (post_volunteers env' body' (run trace st')).2 = run trace st'.
Proof.
  intros Hpost He Hids He'.
  destruct (post_volunteers_outcome env body st) as [| | | | |text ? ? ? ? ? volunteer];
    try discriminate.
  injection Hpost as _ <- <-.
  destruct (run_keeps _ trace (insert_volunteer volunteer st) Hids) as (Hkeep & _).
  specialize (Hkeep volunteer (lookup_insert_eq _ _ _)).
  destruct (duplicate_text_email_rejected env' body' _ _ _ e Hkeep He He')
    as (Hstatus & Hreadable & Hstore & _).
  split_and!; try done. by destruct Hstatus as [-> | ->].
Qed.

Lemma a_text_email_stays_taken_witness :
  status_of
    (post_volunteers (rt := Example_runtime.runtime) second_call
       (volunteer_body (VStr "Another Ann") (VStr "ann@x.com") (VStr "556") (VArr []))
       (run (rt := Example_runtime.runtime) [(second_call, POST_events cleanup)]
          (post_volunteers (rt := Example_runtime.runtime) first_call ann
             empty_store).2)).1 = 400%Z.
Proof.
  refine (proj1 (proj2 (proj2 (a_text_email_stays_taken (rt := Example_runtime.runtime)
            first_call second_call ann
            (volunteer_body (VStr "Another Ann") (VStr "ann@x.com") (VStr "556") (VArr []))
            empty_store _ _ _ "ann@x.com" [(second_call, POST_events cleanup)]
            eq_refl eq_refl _ eq_refl))) _).
  - repeat constructor. discriminate.
  - unfold volunteers_readable. apply (proj1 (values_throw_false _)).
    vm_compute. reflexivity.
Defined.

(** X14.  After any run from the empty store, two volunteers stored under
    different keys never have the same text email. *)
Theorem text_emails_are_unique_after_every_run {rt : Runtime}
    (trace : list (Env * Request)) i j v w e :
  volunteersStorage (run trace empty_store) !! i = Some v ->
  volunteersStorage (run trace empty_store) !! j = Some w ->
  Volunteer.email v = VStr e ->
  Volunteer.email w = VStr e ->
  i = j.
Proof.
  apply (run_text_unique trace empty_store).
  intros i' j' v' w' e' Hi. simpl in Hi. by rewrite lookup_empty in Hi.
Qed.

Lemma text_emails_are_unique_after_every_run_witness :
  volunteersStorage
    (run (rt := Example_runtime.runtime)
       [(first_call, POST_volunteers ann); (second_call, POST_volunteers ann)]
       empty_store) !! "id-1" =
    Some (Volunteer.new first_call (VStr "Ann") (VStr "ann@x.com") (VStr "555")
            (VArr [VStr "first-aid"])) /\
  "id-1" = "id-1".
Proof.
  split; [reflexivity|].
  exact (text_emails_are_unique_after_every_run (rt := Example_runtime.runtime)
           [(first_call, POST_volunteers ann); (second_call, POST_volunteers ann)]
           "id-1" "id-1"
           (Volunteer.new first_call (VStr "Ann") (VStr "ann@x.com") (VStr "555")
              (VArr [VStr "first-aid"]))
           (Volunteer.new first_call (VStr "Ann") (VStr "ann@x.com") (VStr "555")
              (VArr [VStr "first-aid"]))
           "ann@x.com" eq_refl eq_refl eq_refl eq_refl).
Defined.

(* ===================================================================== *)
(** * How many records there are *)
(* ===================================================================== *)

Section Counting.
Context {rt : Runtime}.

Lemma length_values {A : Type} (m : gmap string A) : length (values m) = size m.
Proof. unfold values. by rewrite length_fmap, length_map_to_list. Qed.

Lemma created_count_cons (r : Response Payload) (l : list (Response Payload)) :
  created_count (r :: l) =
    (if Z.eqb (status_of r) 201 then 1 else 0) + created_count l.
Proof. unfold created_count. simpl. by destruct (Z.eqb (status_of r) 201). Qed.

(** One request adds one record when it is answered 201 and its identifier
    is new, and none otherwise. *)
Lemma handle_total (env : Env) (req : Request) (st : Store) :
  unused_key (uuidv4 env) st ->
  total_stored (handle env req st).2 =
    total_stored st + (if Z.eqb (status_of (handle env req st).1) 201 then 1 else 0).
Proof.
  intros (Hv & He & Hr & Hf). unfold total_stored. rewrite !length_values.
  destruct req as [body|id| |body| |body| |body|]; simpl; try lia.
  - destruct (post_volunteers_outcome env body st); simpl; try lia.
    rewrite map_size_insert_None by done. lia.
  - unfold get_volunteer. destruct (volunteersStorage st !! id) as [v|]; simpl; [|lia].
    destruct (volunteer_reading v); simpl; lia.
  - unfold get_volunteers. destruct (_ || _); simpl; lia.
  - destruct (post_events_outcome env body st)
      as [(_ & d & _ & ->)|[(_ & _ & ->)|[_ ->]]]; simpl; try lia.
    rewrite map_size_insert_None by done. lia.
  - destruct (post_registrations_outcome env body st) as [[_ ->]|[_ ->]]; simpl; try lia.
    rewrite map_size_insert_None by done. lia.
  - destruct (post_feedbacks_outcome env body st) as [[_ ->]|[_ ->]]; simpl; try lia.
    rewrite map_size_insert_None by done. lia.
Qed.

Lemma run_total (trace : list (Env * Request)) (st : Store) :
  NoDup (generated_ids trace) ->
  (forall k, In k (generated_ids trace) -> unused_key k st) ->
  total_stored (run trace st) = total_stored st + created_count (answers trace st).
Proof.
  revert st. induction trace as [|[env req] trace IH]; intros st Hnodup Hunused.
  - simpl. unfold created_count. simpl. lia.
  - simpl in Hnodup. apply NoDup_cons in Hnodup as [Hnotin Hnodup].
    simpl. rewrite created_count_cons, IH.
    + rewrite handle_total; [lia|]. apply Hunused. by left.
    + done.
    + intros k Hk.
      assert (Hne : uuidv4 env <> k).
      { intros <-. apply Hnotin. by apply list_elem_of_In. }
      destruct (handle_other_keys k env req st Hne) as (Hv & He & Hr & Hf).
      destruct (Hunused k) as (Hv' & He' & Hr' & Hf'); [by right|].
      unfold unused_key. by rewrite Hv, He, Hr, Hf.
Qed.

End Counting.

(** X15.  When the identifiers generated during a run are all different, the
    four collections hold, at the end of the run and taken together, exactly
    as many records as there were requests answered 201: every successful
    create adds one record, and nothing else adds or removes one.  The
    list-all requests for events, registrations and feedback return as many
    records as their collections hold, and so does the one for volunteers
    whenever it is answered 200. *)
Theorem one_record_per_created_answer {rt : Runtime} (trace : list (Env * Request)) :
  NoDup (generated_ids trace) ->
  total_stored (run trace empty_store) = created_count (answers trace empty_store) /\
  (forall message volunteers,
      get_volunteers (run trace empty_store) = json_ok 200 message volunteers ->
      exists events registrations feedbacks,
        get_events (run trace empty_store) =
          json_ok 200 "Events retrieved successfully" events /\
        get_registrations (run trace empty_store) =
          json_ok 200 "Registrations retrieved successfully" registrations /\
        get_feedbacks (run trace empty_store) =
          json_ok 200 "Feedback retrieved successfully" feedbacks /\
        length volunteers + length events + length registrations + length feedbacks =
          created_count (answers trace empty_store)).
Proof.
  intros Hnodup.
  assert (Htotal : total_stored (run trace empty_store) =
                   created_count (answers trace empty_store)).
  { rewrite run_total; [done|done|]. intros k _. by split_and!. }
  split; [done|].
  intros message volunteers ->%get_volunteers_listed.
  do 3 eexists. split_and!; try reflexivity.
  rewrite length_map. exact Htotal.
Qed.

Lemma one_record_per_created_answer_witness :
  total_stored
    (run (rt := Example_runtime.runtime)
       [(first_call, POST_volunteers ann); (second_call, POST_volunteers ann)]
       empty_store) = 1.
Proof.
  refine (proj1 (one_record_per_created_answer (rt := Example_runtime.runtime)
            [(first_call, POST_volunteers ann); (second_call, POST_volunteers ann)] _)).
  apply NoDup_cons. split.
  - intros H%list_elem_of_In. destruct H as [H|[]]. discriminate.
  - apply NoDup_cons. split; [intros H%list_elem_of_In; destruct H|apply NoDup_nil_2].
Defined.

(* ===================================================================== *)
(** * What an accepted email looks like *)
(* ===================================================================== *)

Lemma occurrences_append (c : ascii) (s t : string) :
  occurrences c (s ++ t) = occurrences c s + occurrences c t.
Proof.
  induction s as [|c' s IH]; [reflexivity|].
  change (occurrences c (String c' (s ++ t)) = occurrences c (String c' s) + occurrences c t).
  simpl. rewrite IH. lia.
Qed.

Lemma length_append (s t : string) :
  String.length (s ++ t) = String.length s + String.length t.
Proof.
  induction s as [|c s IH]; [reflexivity|].
  change (S (String.length (s ++ t)) = S (String.length s) + String.length t).
  by rewrite IH.
Qed.

Lemma not_space_at_true (c : ascii) :
  not_space_at c = true -> is_space c = false /\ c <> "@"%char.
Proof.
  unfold not_space_at. intros [H1 H2]%andb_prop.
  apply negb_true_iff in H1, H2. split; [done|]. by apply Ascii.eqb_neq.
Qed.

Lemma run_has_no_at (s : string) :
  is_run s -> occurrences "@" s = 0 /\ 1 <= String.length s.
Proof.
  intros [Hne Hall]. split.
  - clear Hne. induction s as [|c s IH]; [reflexivity|].
    simpl. rewrite IH by (intros c' Hc'; apply Hall; by right).
    destruct (not_space_at_true c) as [_ Hc]; [apply Hall; by left|].
    apply Ascii.eqb_neq in Hc. by rewrite Hc.
  - destruct s; [done|simpl; lia].
Qed.

(** X16.  A text that the email expression accepts contains exactly one [@],
    contains no white space, is at least five characters long, and does not
    begin with [@]. *)
Theorem accepted_email_has_one_at (s : string) :
  RegExp.test emailRegex s = true ->
  occurrences "@" s = 1 /\
  (forall c, In c (list_ascii_of_string s) -> is_space c = false) /\
  5 <= String.length s /\
  (exists c s', s = String c s' /\ c <> "@"%char).
Proof.
  intros (a & b & c & -> & Ha & Hb & Hc)%emailRegex_pattern.
  destruct (run_has_no_at a Ha) as [Ha0 Ha1].
  destruct (run_has_no_at b Hb) as [Hb0 Hb1].
  destruct (run_has_no_at c Hc) as [Hc0 Hc1].
  split_and!.
  - rewrite !occurrences_append, Ha0, Hb0, Hc0. reflexivity.
  - intros x. rewrite !chars_append, !in_app_iff.
    destruct Ha as [_ Ha], Hb as [_ Hb], Hc as [_ Hc].
    intros [H|[[<-|[]]|[H|[[<-|[]]|H]]]]; try reflexivity;
      by apply not_space_at_true; auto.
  - rewrite !length_append. simpl. lia.
  - destruct a as [|x a]; [by destruct Ha|].
    exists x, (a ++ "@" ++ b ++ "." ++ c). split; [reflexivity|].
    apply not_space_at_true, Ha. by left.
Qed.

Lemma accepted_email_has_one_at_witness :
  occurrences "@" "ann@x.com" = 1 /\ 5 <= String.length "ann@x.com".
Proof.
  destruct (accepted_email_has_one_at "ann@x.com" eq_refl) as (H1 & _ & H5 & _).
  exact (conj H1 H5).
Defined.

(* ===================================================================== *)
(** * An event date given as a number *)
(* ===================================================================== *)

Lemma TimeClip_integer (neg : bool) (p : positive) :
  TimeClip (Finite neg p 0) =
    if (8640000000000000 <? Z.pos p)%Z then Invalid_Date
    else Date_at (if neg then Z.neg p else Z.pos p).
Proof.
  unfold TimeClip. change (0 <=? 0)%Z with true. cbv iota.
  rewrite Z.pow_0_r, Z.mul_1_r. by destruct neg.
Qed.

Lemma new_Date_of_num {rt : Runtime} (z : Z) :
  z <> 0%Z ->
  new_Date_of (num z) =
    Some (if (8640000000000000 <? Z.abs z)%Z then Invalid_Date else Date_at z).
Proof.
  intros Hz. destruct z as [|p|p]; [done| |]; unfold num, new_Date_of;
    by rewrite TimeClip_integer.
Qed.

(** X17.  In an event request whose four text fields are valid and whose
    dateTime is a whole number of milliseconds: zero (the epoch itself) is
    answered with the 400 error, as if the date were missing; any other
    number within 8.64e15 ms of the epoch is stored as that instant; a number
    further away is accepted too and stored as the invalid date. *)
Theorem event_date_given_as_a_number {rt : Runtime}
    (env : Env) (body : value) (st : Store) (z : Z) :
  nonempty_text (get body "title") ->
  nonempty_text (get body "description") ->
  nonempty_text (get body "location") ->
  nonempty_text (get body "organizerId") ->
  get body "dateTime" = num z ->
  (z = 0%Z -> post_events env body st = (json_error 400 event_invalid_input, st)) /\
  (z <> 0%Z -> (- 8640000000000000 <= z <= 8640000000000000)%Z ->
   exists e, post_events env body st =
               (json_ok 201 "Event created successfully" e, insert_event e st) /\
             Event.dateTime e = Date_at z) /\
  ((z < - 8640000000000000 \/ 8640000000000000 < z)%Z ->
   exists e, post_events env body st =
               (json_ok 201 "Event created successfully" e, insert_event e st) /\
             Event.dateTime e = Invalid_Date).
Proof.
  intros Ht Hd Hl Ho Hdate.
  assert (Hshape : z <> 0%Z -> event_shape_checked body).
  { intros Hz. split_and!; try done. rewrite Hdate. by destruct z. }
  split_and!.
  - intros ->. apply post_events_bad_shape.
    intros (_ & _ & Hfalse & _). rewrite Hdate in Hfalse. discriminate.
  - intros Hz Hrange.
    assert (Hd' : new_Date_of (get body "dateTime") = Some (Date_at z)).
    { rewrite Hdate, new_Date_of_num by done.
      destruct (Z.ltb_spec 8640000000000000 (Z.abs z)); [lia|done]. }
    eexists. by split; [apply (post_events_created _ _ _ _ (Hshape Hz) Hd')|].
  - intros Hrange.
    assert (Hz : z <> 0%Z) by lia.
    assert (Hd' : new_Date_of (get body "dateTime") = Some Invalid_Date).
    { rewrite Hdate, new_Date_of_num by done.
      destruct (Z.ltb_spec 8640000000000000 (Z.abs z)); [done|lia]. }
    eexists. by split; [apply (post_events_created _ _ _ _ (Hshape Hz) Hd')|].
Qed.

Lemma event_date_given_as_a_number_witness :
  post_events (rt := Example_runtime.runtime) first_call
    (event_body (VStr "Cleanup") (VStr "Beach cleanup") (num 0) (VStr "Pier 3")
       (VStr "id-1")) empty_store =
    (json_error 400 event_invalid_input, empty_store) /\
  exists e,
    post_events (rt := Example_runtime.runtime) first_call cleanup empty_store =
      (json_ok 201 "Event created successfully" e, insert_event e empty_store) /\
    Event.dateTime e = Date_at 1714521600000.
Proof.
  assert (Htexts : forall body,
            get body "title" = VStr "Cleanup" -> get body "description" = VStr "Beach cleanup" ->
            get body "location" = VStr "Pier 3" -> get body "organizerId" = VStr "id-1" ->
            nonempty_text (get body "title") /\ nonempty_text (get body "description") /\
            nonempty_text (get body "location") /\ nonempty_text (get body "organizerId")).
  { intros body -> -> -> ->.
    repeat split; eexists; (split; [reflexivity|discriminate]). }
  split.
  - destruct (Htexts (event_body (VStr "Cleanup") (VStr "Beach cleanup") (num 0)
                        (VStr "Pier 3") (VStr "id-1"))
                eq_refl eq_refl eq_refl eq_refl) as (H1 & H2 & H3 & H4).
    exact (proj1 (event_date_given_as_a_number (rt := Example_runtime.runtime)
                    first_call _ empty_store 0 H1 H2 H3 H4 eq_refl) eq_refl).
  - destruct (Htexts cleanup eq_refl eq_refl eq_refl eq_refl) as (H1 & H2 & H3 & H4).
    apply (proj1 (proj2 (event_date_given_as_a_number (rt := Example_runtime.runtime)
                    first_call cleanup empty_store 1714521600000 H1 H2 H3 H4 eq_refl))).
    + discriminate.
    + split; discriminate.
Defined.

(* ===================================================================== *)
(** * Nothing is ever removed *)
(* ===================================================================== *)

Section Append_only.
Context {rt : Runtime}.

Lemma handle_keeps_keys (k : string) (env : Env) (req : Request) (st : Store) :
  (is_Some (volunteersStorage st !! k) ->
   is_Some (volunteersStorage (handle env req st).2 !! k)) /\
  (is_Some (eventsStorage st !! k) ->
   is_Some (eventsStorage (handle env req st).2 !! k)) /\
  (is_Some (registrationsStorage st !! k) ->
   is_Some (registrationsStorage (handle env req st).2 !! k)) /\
  (is_Some (feedbacksStorage st !! k) ->
   is_Some (feedbacksStorage (handle env req st).2 !! k)).
Proof.
  rewrite handle_store.
  destruct req as [body|id| |body| |body| |body|]; try done.
  - destruct (post_volunteers_outcome env body st); try done.
    split_and!; try done. simpl. rewrite lookup_insert. by case_decide.
  - destruct (post_events_outcome env body st)
      as [(_ & d & _ & ->)|[(_ & _ & ->)|[_ ->]]]; try done.
    split_and!; try done. simpl. rewrite lookup_insert. by case_decide.
  - destruct (post_registrations_outcome env body st) as [[_ ->]|[_ ->]]; try done.
    split_and!; try done. simpl. rewrite lookup_insert. by case_decide.
  - destruct (post_feedbacks_outcome env body st) as [[_ ->]|[_ ->]]; try done.
    split_and!; try done. simpl. rewrite lookup_insert. by case_decide.
Qed.

End Append_only.

(** X18.  No request removes a record: a key that is bound in a collection
    stays bound in it through every run.  And a run leaves the record under
    a key as it is unless one of its requests was given that key as its
    identifier. *)
Theorem no_request_removes_a_record {rt : Runtime}
    (trace : list (Env * Request)) (st : Store) (k : string) :
  (is_Some (volunteersStorage st !! k) ->
   is_Some (volunteersStorage (run trace st) !! k)) /\
  (is_Some (eventsStorage st !! k) ->
   is_Some (eventsStorage (run trace st) !! k)) /\
  (is_Some (registrationsStorage st !! k) ->
   is_Some (registrationsStorage (run trace st) !! k)) /\
  (is_Some (feedbacksStorage st !! k) ->
   is_Some (feedbacksStorage (run trace st) !! k)) /\
  (~ In k (generated_ids trace) ->
   volunteersStorage (run trace st) !! k = volunteersStorage st !! k /\
   eventsStorage (run trace st) !! k = eventsStorage st !! k /\
   registrationsStorage (run trace st) !! k = registrationsStorage st !! k /\
   feedbacksStorage (run trace st) !! k = feedbacksStorage st !! k).
Proof.
  assert (Hkeys :
    (is_Some (volunteersStorage st !! k) ->
     is_Some (volunteersStorage (run trace st) !! k)) /\
    (is_Some (eventsStorage st !! k) ->
     is_Some (eventsStorage (run trace st) !! k)) /\
    (is_Some (registrationsStorage st !! k) ->
     is_Some (registrationsStorage (run trace st) !! k)) /\
    (is_Some (feedbacksStorage st !! k) ->
     is_Some (feedbacksStorage (run trace st) !! k))).
  { revert st. induction trace as [|[env req] trace IH]; intros st; [done|].
    destruct (handle_keeps_keys k env req st) as (Hv & He & Hr & Hf).
    destruct (IH (handle env req st).2) as (Hv' & He' & Hr' & Hf').
    simpl. split_and!; auto. }
  destruct Hkeys as (Hv & He & Hr & Hf).
  split_and!; try done. apply run_other_keys.
Qed.

Lemma no_request_removes_a_record_witness :
  is_Some
    (volunteersStorage
       (run (rt := Example_runtime.runtime)
          [(first_call, POST_volunteers
                          (volunteer_body (VStr "Bob") (VStr "bob@x.com") (VStr "556")
                             (VArr [])));
           (second_call, POST_events cleanup)]
          (post_volunteers (rt := Example_runtime.runtime) first_call ann
             empty_store).2) !! "id-1").
Proof.
  apply (proj1 (no_request_removes_a_record (rt := Example_runtime.runtime)
           [(first_call, POST_volunteers
                           (volunteer_body (VStr "Bob") (VStr "bob@x.com") (VStr "556")
                              (VArr [])));
            (second_call, POST_events cleanup)]
           (post_volunteers (rt := Example_runtime.runtime) first_call ann empty_store).2
           "id-1")).
  eexists. reflexivity.
Defined.

(* ===================================================================== *)
(** * A stored volunteer that cannot be read back *)
(* ===================================================================== *)

Section Unreadable.
Context {rt : Runtime}.

Lemma post_volunteers_blocked (env : Env) (body : value) (st : Store) i w :
  volunteersStorage st !! i = Some w ->
  volunteer_reading w = Read_throws ->
  status_of (post_volunteers env body st).1 <> 201%Z /\
  (post_volunteers env body st).2 = st.
Proof.
  intros Hi Hw.
  destruct (post_volunteers_outcome env body st) as [| | | | |text ? ? ? Hread ? volunteer];
    try done.
  by destruct (Hread i w Hi).
Qed.

Lemma run_blocked (trace : list (Env * Request)) (st : Store) i w :
  volunteersStorage st !! i = Some w ->
  volunteer_reading w = Read_throws ->
  volunteersStorage (run trace st) = volunteersStorage st.
Proof.
  intros Hi Hw. revert st Hi.
  induction trace as [|[env req] trace IH]; intros st Hi; [done|].
  assert (Hstep : volunteersStorage (handle env req st).2 = volunteersStorage st).
  { destruct (handle_volunteers env req st) as [H|(body & _ & ->)]; [done|].
    by rewrite (proj2 (post_volunteers_blocked env body st i w Hi Hw)). }
  simpl. rewrite IH; [done|]. by rewrite Hstep.
Qed.

End Unreadable.

(** X22.  One stored volunteer that cannot be read back blocks the
    collection for good.  Through every later run the volunteers stored stay
    exactly the same: no volunteer request is answered 201 or stores
    anything, and one that is valid in every field is answered 500.  The
    list-all request is answered with the 500 error, and so is the request
    for that volunteer's id, by a 500 of express.  The request
    [{name: "Eve", email: "eve@x.com", contact: "557",
      skills: [{"__principal__": "x"}]}] stores such a volunteer. *)
Theorem an_unreadable_volunteer_blocks_the_collection {rt : Runtime}
    (trace : list (Env * Request)) (st : Store) (i : string) (w : Volunteer.t) :
  volunteersStorage st !! i = Some w ->
  volunteer_reading w = Read_throws ->
  volunteersStorage (run trace st) = volunteersStorage st /\
  (forall env body,
      status_of (post_volunteers env body (run trace st)).1 <> 201%Z /\
      (post_volunteers env body (run trace st)).2 = run trace st) /\
  (forall env body text,
      volunteer_shape_checked body ->
      ToString (get body "email") = Some text ->
      RegExp.test emailRegex text = true ->
      post_volunteers env body (run trace st) = (uncaught, run trace st)) /\
  get_volunteers (run trace st) = json_error 500 volunteers_retrieve_failed /\
  get_volunteer i (run trace st) = uncaught.
Proof.
  intros Hi Hw.
  pose proof (run_blocked trace st i w Hi Hw) as Hsame.
  assert (Hi' : volunteersStorage (run trace st) !! i = Some w) by (by rewrite Hsame).
  split_and!.
  - done.
  - intros env body. by apply (post_volunteers_blocked env body _ i w).
  - intros env body text Hshape Htext Hre.
    by apply (post_volunteers_store_unreadable env body _ text i w).
  - unfold get_volunteers.
    assert (E : existsb (fun volunteer => throws (volunteer_reading volunteer))
                  (values (volunteersStorage (run trace st))) = true).
    { apply existsb_exists. exists w. split; [by eapply listed|by rewrite Hw]. }
    by rewrite E.
  - unfold get_volunteer. by rewrite Hi', Hw.
Qed.

Lemma an_unreadable_volunteer_blocks_the_collection_witness :
  post_volunteers (rt := Example_runtime.runtime) second_call ann
    (run (rt := Example_runtime.runtime) [(second_call, POST_events cleanup)]
       (post_volunteers (rt := Example_runtime.runtime) first_call eve empty_store).2) =
    (uncaught,
     run (rt := Example_runtime.runtime) [(second_call, POST_events cleanup)]
       (post_volunteers (rt := Example_runtime.runtime) first_call eve empty_store).2).
Proof.
  refine (proj1 (proj2 (proj2
            (an_unreadable_volunteer_blocks_the_collection (rt := Example_runtime.runtime)
               [(second_call, POST_events cleanup)]
               (post_volunteers (rt := Example_runtime.runtime) first_call eve
                  empty_store).2
               "id-1"
               (Volunteer.new first_call (VStr "Eve") (VStr "eve@x.com") (VStr "557")
                  (VArr [VObj [("__principal__", VStr "x")]]))
               _ _)))
            second_call ann "ann@x.com" _ eq_refl eq_refl).
  - vm_compute. reflexivity.
  - vm_compute. reflexivity.
  - repeat split; try (eexists; split; [reflexivity|discriminate]).
    eexists; reflexivity.
Defined.
